(** * Cycle normalisation and support detection of btc_cycle_tracker

    A shallow embedding of the computational core of
    [btc_accumulation_support.py] and [stocks_accumulation.py] (the body of
    the per-cycle loop: slice, offsets, percent from a reference price,
    accumulation low, later low, "support held" verdict), of the LTH-supply
    loaders of [btc_dashboard.py] and [btc_onchain_dashboard.py], and of the
    [mvrv_zone] classifier; then of what the BTC script prints and draws for
    a cycle, of the metric frames and date lookups of
    [btc_onchain_dashboard.py], and of [fetch_data], the end of [load_data],
    the lookups of the stat cards, the zone masks and the fill segments of
    [btc_dashboard.py].

    Dates are day numbers (days since 1970-01-01, the timestamps being
    normalised to midnight by the loaders).  Prices are taken in a numeric
    type with two instances: exact rationals [Q] and IEEE binary64
    ([PrimFloat.float]).  What depends on the order of the prices is proved
    over [Q]; what holds of the control flow alone is proved for any numeric
    type; and the definitions are evaluated in binary64 on concrete inputs,
    where rounding makes it differ from exact arithmetic. *)

From Stdlib Require Import ZArith QArith List Bool String Lia Lqa.
From Stdlib Require Import Sorted Permutation Floats.
Import ListNotations.

Set Implicit Arguments.

(** ** Numeric values *)

(** What the scripts ask of a price: subtraction, multiplication, division,
    the strict comparison, the NaN test that pandas reductions apply before
    they reduce, and the literals [1] and [100] (addition and [1] serve the
    conversion back only). *)
Class Numeric (F : Type) : Type := {
  nsub : F -> F -> F;
  nadd : F -> F -> F;
  nmul : F -> F -> F;
  ndiv : F -> F -> F;
  nltb : F -> F -> bool;
  nisnan : F -> bool;
  none_ : F;
  nhundred : F
}.

(** [a > b] of the source is [b < a]. *)
Definition ngtb {F} `{Numeric F} (a b : F) : bool := nltb b a.

Definition Qltb (a b : Q) : bool := negb (Qle_bool b a).

(** Exact arithmetic.  There is no NaN and no infinity in [Q]; [Qdiv] by zero
    is [0], so a zero divisor is outside what this instance models. *)
#[export] Instance Numeric_Q : Numeric Q := {
  nsub := Qminus;
  nadd := Qplus;
  nmul := Qmult;
  ndiv := Qdiv;
  nltb := Qltb;
  nisnan := fun _ => false;
  none_ := 1%Q;
  nhundred := 100%Q
}.

(** IEEE 754 binary64, the arithmetic of a pandas float64 column. *)
#[export] Instance Numeric_float : Numeric float := {
  nsub := PrimFloat.sub;
  nadd := PrimFloat.add;
  nmul := PrimFloat.mul;
  ndiv := PrimFloat.div;
  nltb := PrimFloat.ltb;
  nisnan := PrimFloat.is_nan;
  none_ := 1%float;
  nhundred := 100%float
}.

(** ** Exceptions *)

Inductive exn : Type :=
| ValueError   (* idxmin of a column with no value to reduce *)
| KeyError     (* .loc with a label that is not in the index *)
| TypeError.   (* float() / int() of a .loc result that is not a scalar *)

Inductive result (A : Type) : Type :=
| Ok (a : A)
| Raise (e : exn).

Arguments Ok {A} a.
Arguments Raise {A} e.

Definition bind {A B} (m : result A) (k : A -> result B) : result B :=
  match m with
  | Ok a => k a
  | Raise e => Raise e
  end.

Notation "x <- m ;; k" := (bind m (fun x => k))
  (at level 61, m at next level, right associativity).

Definition raises {A} (m : result A) : bool :=
  match m with Ok _ => false | Raise _ => true end.

(** ** The pandas operations the scripts use *)

Module Pandas.
Section Ops.
Context {F : Type} `{Numeric F}.

(** A column with its index: label and value, in row order. *)
Definition Series : Type := list (Z * F).

Definition dropna (s : Series) : Series :=
  filter (fun x => negb (nisnan (snd x))) s.

(** The running minimum of numpy's argmin: a later entry replaces the
    current one only when it is strictly smaller, so the first occurrence
    of the minimum is kept. *)
Fixpoint argmin_acc (best : Z * F) (s : Series) : Z * F :=
  match s with
  | [] => best
  | x :: s' => argmin_acc (if nltb (snd x) (snd best) then x else best) s'
  end.

(** [Series.idxmin()]: the label of the first occurrence of the minimum,
    NaN skipped.  On an empty column pandas raises [ValueError]; on a column
    of NaN only it raises too, or (older versions) returns NaN, on which the
    [.loc] of the same statement raises: an exception either way. *)
Definition idxmin (s : Series) : result Z :=
  match dropna s with
  | [] => Raise ValueError
  | x :: s' => Ok (fst (argmin_acc x s'))
  end.

(** [Series.min()]: the minimum, NaN skipped; [None] stands for the NaN
    that pandas returns when nothing is left. *)
Definition smin (s : Series) : option F :=
  match dropna s with
  | [] => None
  | x :: s' => Some (snd (argmin_acc x s'))
  end.

Section Frame.
Variable R : Type.
Variable ix : R -> Z.

(** One column of a frame. *)
Definition col (f : R -> F) (rows : list R) : Series :=
  map (fun r => (ix r, f r)) rows.

(** [frame.loc[label]]: the rows that carry the label. *)
Definition loc (rows : list R) (l : Z) : list R :=
  filter (fun r => Z.eqb (ix r) l) rows.

(** A [.loc[label, column]] used as a scalar: exactly one row must carry
    the label. *)
Definition scalar (sel : list R) : result R :=
  match sel with
  | [] => Raise KeyError
  | [r] => Ok r
  | _ => Raise TypeError
  end.

Definition loc_row (rows : list R) (l : Z) : result R :=
  scalar (loc rows l).
End Frame.

(** [reset_index(drop=True)]: labels 0, 1, 2, ... in row order. *)
Fixpoint reset_index_from {A} (n : Z) (rows : list A) : list (Z * A) :=
  match rows with
  | [] => []
  | r :: rows' => (n, r) :: reset_index_from (n + 1) rows'
  end.

Definition reset_index {A} (rows : list A) : list (Z * A) :=
  reset_index_from 0 rows.

(** [sort_values(key)]: ascending by the key (insertion sort, ties in
    input order). *)
Fixpoint insert_by {A} (key : A -> Z) (x : A) (l : list A) : list A :=
  match l with
  | [] => [x]
  | y :: l' => if Z.leb (key x) (key y) then x :: l
               else y :: insert_by key x l'
  end.

Fixpoint sort_values {A} (key : A -> Z) (l : list A) : list A :=
  match l with
  | [] => []
  | x :: l' => insert_by key x (sort_values key l')
  end.
End Ops.
End Pandas.

(** ** btc_accumulation_support.py *)

Module BtcSupport.
Import Pandas.

(** [TODAY = pd.Timestamp('2026-02-25')] (the second assignment of the
    script, which is the one in force when the loop runs). *)
Definition TODAY : Z := 20509.
Definition PLOT_DAYS : Z := 1100.

Section Script.
Context {F : Type} `{Numeric F}.

(** A row of [btc-usd-max.csv] after [snapped_at] became a date. *)
Record PriceRow : Type := { date : Z; btc_price : F }.

(** An entry of [CYCLES]. *)
Record Cycle : Type := {
  halving : Z;
  top : Z;
  top_price : F;
  confirmed : bool;
  exclude : bool
}.

(** A row of [chunk]: the index label kept from [btc], the two columns of
    [btc], and the two added columns. *)
Record ChunkRow : Type := {
  ix : Z;
  cdate : Z;
  cprice : F;
  days : Z;
  pct : F
}.

(** What one turn of the loop computes before it prints and plots. *)
Record Support : Type := {
  low_pct : F;
  low_day : Z;
  low_price : F;
  bear_low_pct : option F;
  bear_low_day : option Z;
  bear_low_price : option F;
  held : option bool
}.

(** [btc[['date','btc_price']].sort_values('date').reset_index(drop=True)] *)
Definition load_btc (csv : list PriceRow) : list (Z * PriceRow) :=
  reset_index (sort_values date csv).

(** [end = h + PLOT_DAYS], capped at [TODAY] for a cycle not confirmed. *)
Definition cycle_end (c : Cycle) : Z :=
  let e := (halving c + PLOT_DAYS)%Z in
  if confirmed c then e else Z.min e TODAY.

(** [((btc_price - top_price) / top_price) * 100] *)
Definition percent (price ref : F) : F :=
  nmul (ndiv (nsub price ref) ref) nhundred.

(** [chunk]: the rows from the halving to [end], with [days] and [pct]. *)
Definition chunk (btc : list (Z * PriceRow)) (c : Cycle) : list ChunkRow :=
  map (fun r => {| ix := fst r;
                   cdate := date (snd r);
                   cprice := btc_price (snd r);
                   days := (date (snd r) - halving c)%Z;
                   pct := percent (btc_price (snd r)) (top_price c) |})
      (filter (fun r => Z.leb (halving c) (date (snd r))
                        && Z.leb (date (snd r)) (cycle_end c)) btc).

Definition top_day (c : Cycle) : Z := (top c - halving c)%Z.

(** [accum = chunk[chunk['days'] <= 200]] *)
Definition accum (btc : list (Z * PriceRow)) (c : Cycle) : list ChunkRow :=
  filter (fun r => Z.leb (days r) 200) (chunk btc c).

(** [post_top = chunk[chunk['days'] > top_day]] *)
Definition post_top (btc : list (Z * PriceRow)) (c : Cycle) : list ChunkRow :=
  filter (fun r => Z.ltb (top_day c) (days r)) (chunk btc c).

(** The loop body, from [chunk] to [held]. *)
Definition cycle_support (btc : list (Z * PriceRow)) (c : Cycle)
  : result Support :=
  let accum := accum btc c in
  low_idx <- idxmin (col ix pct accum) ;;
  low <- loc_row ix accum low_idx ;;
  let post_top := post_top btc c in
  match post_top with
  | [] =>
      Ok {| low_pct := pct low; low_day := days low; low_price := cprice low;
            bear_low_pct := None; bear_low_day := None;
            bear_low_price := None; held := None |}
  | _ :: _ =>
      match smin (col ix pct post_top) with
      | None =>
          (* min() is NaN: the idxmin of the next statement has no label *)
          Raise ValueError
      | Some bear_min =>
          bear_idx <- idxmin (col ix pct post_top) ;;
          bear <- loc_row ix post_top bear_idx ;;
          Ok {| low_pct := pct low; low_day := days low;
                low_price := cprice low;
                bear_low_pct := Some bear_min;
                bear_low_day := Some (days bear);
                bear_low_price := Some (cprice bear);
                held := Some (ngtb bear_min (pct low)) |}
      end
  end.

(** The [for ... in zip(axes.flat, CYCLES)] loop: the reports printed so
    far, and the exception that ended the run, if any. *)
Fixpoint run (btc : list (Z * PriceRow)) (cs : list Cycle)
  : list Support * option exn :=
  match cs with
  | [] => ([], None)
  | c :: cs' =>
      match cycle_support btc c with
      | Raise e => ([], Some e)
      | Ok s => let (ss, e) := run btc cs' in (s :: ss, e)
      end
  end.
End Script.

Arguments PriceRow F : clear implicits.
Arguments Cycle F : clear implicits.
Arguments ChunkRow F : clear implicits.
Arguments Support F : clear implicits.
End BtcSupport.

(** ** stocks_accumulation.py *)

Module Stocks.
Import Pandas.

(** [TODAY = pd.Timestamp('2026-02-26')] *)
Definition TODAY : Z := 20510.
Definition PLOT_DAYS : Z := 504.

Section Script.
Context {F : Type} `{Numeric F}.

(** A row of [chunk]: the index (the trading date), [price], and the two
    added columns [td] and [pct]. *)
Record ChunkRow : Type := {
  ix : Z;
  price : F;
  td : Z;
  pct : F
}.

Record Support : Type := {
  bottom_price : F;
  low_pct : F;
  low_td : Z;
  low_price : F;
  after_low : option F;
  after_low_td : option Z;
  held : option bool
}.

(** One turn of the loop over the phases: [continue], an exception, or the
    figures that are printed. *)
Inductive outcome : Type :=
| Skipped
| Raised (e : exn)
| Reported (s : Support).

(** [min(bottom_dt + pd.Timedelta(days=PLOT_DAYS * 2), TODAY)] *)
Definition end_dt (bottom_dt : Z) : Z :=
  Z.min (bottom_dt + PLOT_DAYS * 2) TODAY.

(** [df[(df.index >= bottom_dt) & (df.index <= end_dt)]] *)
Definition slice (df : list (Z * F)) (bottom_dt : Z) : list (Z * F) :=
  filter (fun r => Z.leb bottom_dt (fst r)
                   && Z.leb (fst r) (end_dt bottom_dt)) df.

(** [chunk['td'] = range(len(chunk))] *)
Fixpoint with_td (n : Z) (rows : list (Z * F)) : list (Z * F * Z) :=
  match rows with
  | [] => []
  | r :: rows' => (r, n) :: with_td (n + 1) rows'
  end.

(** [((price - bottom_price) / bottom_price) * 100] *)
Definition percent (p ref : F) : F :=
  nmul (ndiv (nsub p ref) ref) nhundred.

Definition chunk_of (sl : list (Z * F)) (bottom_price : F) : list ChunkRow :=
  map (fun r => {| ix := fst (fst r);
                   price := snd (fst r);
                   td := snd r;
                   pct := percent (snd (fst r)) bottom_price |})
      (with_td 0 sl).

(** [first200 = chunk[chunk['td'] <= 200]] *)
Definition first200 (ch : list ChunkRow) : list ChunkRow :=
  filter (fun r => Z.leb (td r) 200) ch.

(** [after200 = chunk[chunk['td'] > 200]] *)
Definition after200 (ch : list ChunkRow) : list ChunkRow :=
  filter (fun r => Z.ltb 200 (td r)) ch.

Definition lift (m : result Support) : outcome :=
  match m with
  | Ok s => Reported s
  | Raise e => Raised e
  end.

(** The body of [for phase in phases]. *)
Definition phase_support (df : list (Z * F)) (bottom_dt : Z) : outcome :=
  match slice df bottom_dt with
  | [] => Skipped
  | (first :: _) as sl =>
      if Nat.ltb (List.length sl) 10 then Skipped
      else
        let bottom_price := snd first in
        let chunk := chunk_of sl bottom_price in
        let first200 := first200 chunk in
        lift (
          low_idx <- idxmin (col ix pct first200) ;;
          low <- loc_row ix first200 low_idx ;;
          let after200 := after200 chunk in
          match after200 with
          | [] =>
              Ok {| bottom_price := bottom_price;
                    low_pct := pct low; low_td := td low;
                    low_price := price low;
                    after_low := None; after_low_td := None;
                    held := None |}
          | _ :: _ =>
              match smin (col ix pct after200) with
              | None =>
                  (* min() is NaN: the idxmin that follows has no label *)
                  Raise ValueError
              | Some after_min =>
                  after_idx <- idxmin (col ix pct after200) ;;
                  after <- loc_row ix after200 after_idx ;;
                  Ok {| bottom_price := bottom_price;
                        low_pct := pct low; low_td := td low;
                        low_price := price low;
                        after_low := Some after_min;
                        after_low_td := Some (td after);
                        held := Some (ngtb after_min (pct low)) |}
              end
          end)
  end.

(** The loop over the phases of one ticker: the reports printed so far and
    the exception that ended the run, if any; a skipped phase leaves no
    trace. *)
Fixpoint run (df : list (Z * F)) (bottoms : list Z)
  : list Support * option exn :=
  match bottoms with
  | [] => ([], None)
  | b :: bs =>
      match phase_support df b with
      | Skipped => run df bs
      | Raised e => ([], Some e)
      | Reported s => let (ss, e) := run df bs in (s :: ss, e)
      end
  end.
End Script.

Arguments ChunkRow F : clear implicits.
Arguments Support F : clear implicits.
Arguments outcome F : clear implicits.
End Stocks.

(** ** btc_dashboard.py and btc_onchain_dashboard.py *)

Module Dashboard.

(** A value of a JSON field as [json.load] hands it to pandas. *)
Inductive json : Type :=
| JNum (q : Q)
| JStr (s : string)
| JNull.

(** A record of [lth_supply.json], the field [d] already a date. *)
Record LthRecord : Type := { d : Z; longTermHodlerSupplyBtc : json }.

(** A row of the [lth] frame: the date and the supply, [None] being NaN. *)
Record LthRow : Type := { lth_date : Z; lth_supply : option Q }.

Section Loaders.
(** How [pd.to_numeric] reads a string: its number, or nothing. *)
Variable parse_number : string -> option Q.

(** [pd.to_numeric(column, errors='coerce')]: what does not parse is NaN. *)
Definition to_numeric (v : json) : option Q :=
  match v with
  | JNum q => Some q
  | JStr s => parse_number s
  | JNull => None
  end.

(** [column > 0], false on NaN. *)
Definition positive (v : option Q) : bool :=
  match v with
  | Some q => Qltb 0 q
  | None => false
  end.

Definition notna (v : option Q) : bool :=
  match v with Some _ => true | None => false end.

Definition coerce (raw : list LthRecord) : list LthRow :=
  map (fun r => {| lth_date := d r;
                   lth_supply := to_numeric (longTermHodlerSupplyBtc r) |})
      raw.

(** btc_dashboard.py, [load_data]:
    [lth = lth[lth['lth_supply'] > 0][['date', 'lth_supply']]] *)
Definition load_lth (raw : list LthRecord) : list LthRow :=
  filter (fun r => positive (lth_supply r)) (coerce raw).

(** btc_onchain_dashboard.py:
    [lth = lth[['date', 'value']].dropna().sort_values('date')] and then
    [lth = lth[lth['value'] > 0]] *)
Definition load_lth_onchain (raw : list LthRecord) : list LthRow :=
  filter (fun r => positive (lth_supply r))
    (Pandas.sort_values lth_date
       (filter (fun r => notna (lth_supply r)) (coerce raw))).
End Loaders.

(** [mvrv_zone] of [build_dashboard]: the label and its colour. *)
Definition mvrv_zone (v : Q) : string * string :=
  if Qltb v 0 then ("EXTREME FEAR", "#00ff88")%string
  else if Qltb v (37 # 10) then ("FAIR VALUE", "#ffd700")%string
  else if Qltb v 7 then ("CAUTION", "#ff8c00")%string
  else ("SELL ZONE", "#ff4444")%string.

End Dashboard.

(** ** The conversion back, as the specification words it *)

(** From the specification, not from the scripts (which never convert back):
    value = reference_price * (1 + percent / 100). *)
Definition spec_percent_to_value {F} `{Numeric F} (ref p : F) : F :=
  nmul ref (nadd none_ (ndiv p nhundred)).

(** ** What "the minimum of a window" means *)

(** [m] is the least value of [f] over [rows], and some row has it. *)
Definition window_min {R} (f : R -> Q) (rows : list R) (m : Q) : Prop :=
  (exists r, In r rows /\ f r == m) /\ forall r, In r rows -> m <= f r.

(** [r] is the first row of [rows], in row order, where [f] is least: the rows
    before it are strictly above, the rows after it are not below. *)
Definition first_min_row {R} (f : R -> Q) (rows : list R) (r : R) : Prop :=
  exists pre post,
    rows = pre ++ r :: post
    /\ (forall x, In x pre -> f r < f x)
    /\ (forall x, In x post -> f r <= f x).

(** The labels of a list are pairwise distinct (a decidable form of
    [NoDup]). *)
Fixpoint distinctb (l : list Z) : bool :=
  match l with
  | [] => true
  | x :: l' => negb (existsb (Z.eqb x) l') && distinctb l'
  end.

(** The [chunk] frame of a phase of stocks_accumulation.py: the slice with its
    trading-day ordinals and its percents from the first price of the
    slice. *)
Definition phase_chunk {F} `{Numeric F} (df : list (Z * F)) (bottom_dt : Z)
  : list (Stocks.ChunkRow F) :=
  match Stocks.slice df bottom_dt with
  | [] => []
  | (first :: _) as sl => Stocks.chunk_of sl (snd first)
  end.

(** ** Concrete inputs *)

Module Scenario.
Import BtcSupport.

(** Halving at day 0, top at day 200, top price 100; a confirmed cycle, so
    the slice runs to day 1100. *)
Definition cycle_200 {F} `{Numeric F} : Cycle F :=
  {| halving := 0; top := 200; top_price := nhundred;
     confirmed := true; exclude := false |}.

Definition series_of {F} (p0 p50 p200 p400 p800 : F) : list (PriceRow F) :=
  [ {| date := 0; btc_price := p0 |};
    {| date := 50; btc_price := p50 |};
    {| date := 200; btc_price := p200 |};
    {| date := 400; btc_price := p400 |};
    {| date := 800; btc_price := p800 |} ].

Definition series_30 : list (PriceRow Q) := series_of 100 40 60 90 30.
Definition series_70 : list (PriceRow Q) := series_of 100 40 60 90 70.
Definition series_30f : list (PriceRow float) :=
  series_of 100%float 40%float 60%float 90%float 30%float.
Definition series_70f : list (PriceRow float) :=
  series_of 100%float 40%float 60%float 90%float 70%float.

(** The same cycle with a reference price that is not positive. *)
Definition cycle_neg : Cycle Q :=
  {| halving := 0; top := 200; top_price := - (100);
     confirmed := true; exclude := false |}.

Definition cycle_zero : Cycle float :=
  {| halving := 0; top := 200; top_price := 0%float;
     confirmed := true; exclude := false |}.

(** A ticker with [n] trading days, one per calendar day from day 0, the
    price of day [i] being [100 + (i mod 7) - (if i = 3 then 20 else 0)
    - (if i = 205 then 10 else 0)]. *)
Definition ticker_price (i : Z) : Q :=
  inject_Z (100 + (i mod 7)
            - (if Z.eqb i 3 then 20 else 0)
            - (if Z.eqb i 205 then 10 else 0)).

Definition ticker (n : nat) : list (Z * Q) :=
  map (fun i => (Z.of_nat i, ticker_price (Z.of_nat i))) (seq 0 n).

End Scenario.

(** ** btc_accumulation_support.py: what is printed and drawn *)

(** The truth value Python gives a number in [if x:]: it differs from 0
    (NaN is true). *)
Class Truthy (F : Type) : Type := { nonzero : F -> bool }.

#[export] Instance Truthy_Q : Truthy Q :=
  { nonzero := fun x => negb (Qeq_bool x 0) }.

#[export] Instance Truthy_float : Truthy float :=
  { nonzero := fun x => negb (PrimFloat.eqb x 0%float) }.

Module BtcReport.
Import BtcSupport.

(** A line of the console report of one cycle, with the figures it
    formats. *)
Inductive line (F : Type) : Type :=
| Name
| AccumulationLow (pct : F) (day : Z) (price : F)
| BearMarketLow (pct : F) (day : option Z) (price : F)
| SupportHeld (yes : bool)
| ExcludedNote
| Blank.

Arguments Name {F}.
Arguments AccumulationLow {F} pct day price.
Arguments BearMarketLow {F} pct day price.
Arguments SupportHeld {F} yes.
Arguments ExcludedNote {F}.
Arguments Blank {F}.

(** The status badge of a panel. *)
Inductive badge : Type := Excluded | Held | Broken.

Section Report.
Context {F : Type} `{Numeric F} `{Truthy F}.

(** [held] used as a condition: [None] and [False] are false. *)
Definition truth (h : option bool) : bool :=
  match h with Some true => true | _ => false end.

(** The prints of one turn of the loop.  The bear-market lines are under
    [if bear_low_pct:]; formatting a price that is [None] with [:,.0f]
    raises. *)
Definition console (c : Cycle F) (s : Support F) : result (list (line F)) :=
  let head :=
    [Name; AccumulationLow (low_pct s) (low_day s) (low_price s)] in
  match bear_low_pct s with
  | None => Ok (head ++ [Blank])
  | Some p =>
      if nonzero p then
        match bear_low_price s with
        | None => Raise TypeError
        | Some px =>
            Ok (head
                ++ [BearMarketLow p (bear_low_day s) px;
                    SupportHeld (truth (held s))]
                ++ (if exclude c then [ExcludedNote] else [])
                ++ [Blank])
        end
      else Ok (head ++ [Blank])
  end.

(** The red span of the bear market: drawn when [top_day < PLOT_DAYS], from
    [top_day] to [min(PLOT_DAYS, (TODAY - h).days if not confirmed else
    PLOT_DAYS)]. *)
Definition bear_shade (c : Cycle F) : option (Z * Z) :=
  if Z.ltb (top_day c) PLOT_DAYS then
    Some (top_day c,
          Z.min PLOT_DAYS
                (if negb (confirmed c) then (TODAY - halving c)%Z
                 else PLOT_DAYS))
  else None.

(** [if bear_low_pct is not None and len(post_top) > 0]: the marker of the
    bear-market low is drawn. *)
Definition bear_marker (btc : list (Z * PriceRow F)) (c : Cycle F)
           (s : Support F) : bool :=
  match bear_low_pct s with
  | None => false
  | Some _ => Nat.ltb 0 (List.length (post_top btc c))
  end.

(** [if held is not None:] the badge, the excluded cycle first. *)
Definition status_badge (c : Cycle F) (s : Support F) : option badge :=
  match held s with
  | None => None
  | Some h => Some (if exclude c then Excluded
                    else if h then Held else Broken)
  end.

End Report.
End BtcReport.

(** ** btc_onchain_dashboard.py: loading and the console summary *)

Module Onchain.

(** What the reads of the script can raise. *)
Inductive lookup_error : Type := IndexError.

(** An entry of a metric file: the day of its date field and the raw value
    of its metric field. *)
Record Reading : Type := { day : Z; raw : Dashboard.json }.

Section Load.
Variable parse_number : string -> option Q.

(** The columns [date] and [value] after [pd.to_numeric(..., errors=
    'coerce')] and [dropna()]: the entries whose value is a number, as
    numbers. *)
Fixpoint numeric_rows (entries : list Reading) : list (Z * Q) :=
  match entries with
  | [] => []
  | e :: entries' =>
      match Dashboard.to_numeric parse_number (raw e) with
      | Some q => (day e, q) :: numeric_rows entries'
      | None => numeric_rows entries'
      end
  end.

(** [frame[['date', 'value']].dropna().sort_values('date')], as for
    [mvrv], [rp], [nf] and [of]. *)
Definition load_metric (entries : list Reading) : list (Z * Q) :=
  Pandas.sort_values fst (numeric_rows entries).
End Load.

(** [.iloc[-1]]: the last row, [IndexError] on an empty frame. *)
Fixpoint iloc_last {A} (rows : list A) : lookup_error + A :=
  match rows with
  | [] => inl IndexError
  | [r] => inr r
  | _ :: rows' => iloc_last rows'
  end.

(** [float(frame['value'].iloc[-1])] *)
Definition latest (frame : list (Z * Q)) : lookup_error + Q :=
  match iloc_last frame with
  | inl e => inl e
  | inr r => inr (snd r)
  end.

(** [frame[frame['date'] <= t].iloc[-1]] *)
Definition as_of (frame : list (Z * Q)) (t : Z) : lookup_error + (Z * Q) :=
  iloc_last (filter (fun r => Z.leb (fst r) t) frame).



End Onchain.

(** ** btc_dashboard.py: traces and fills of [build_dashboard] *)

Module Build.

(** The zone masks of the MVRV line, each with its colour: one trace per
    zone, the value where the mask holds and NaN elsewhere. *)
Definition zone_defs (v : Q) : list (string * bool) :=
  [ ("#00ff88"%string, Qltb v 0);
    ("#ffd700"%string, Qle_bool 0 v && Qltb v (37 # 10));
    ("#ff8c00"%string, Qle_bool (37 # 10) v && Qltb v 7);
    ("#ff4444"%string, Qle_bool 7 v) ].

(** [mvrv_df['mvrv_zscore'].where(mask)] for the [k]-th zone. *)
Definition zone_trace (k : nat) (values : list Q) : list (option Q) :=
  map (fun v => if snd (nth k (zone_defs v) (EmptyString, false))
                then Some v else None) values.

(** A row of [price_df]: both prices are present. *)
Record PriceRow : Type := { date : Z; mkt_price : Q; realized_price : Q }.

(** [price_df['mkt_price'] >= price_df['realized_price']] *)
Definition above (r : PriceRow) : bool :=
  Qle_bool (realized_price r) (mkt_price r).

Section Segments.
Variable R : Type.
Variable is_above : R -> bool.

(** [frame.iloc[a:b]] *)
Definition iloc (rows : list R) (a b : nat) : list R :=
  firstn (b - a) (skipn a rows).

(** The variables of the loop that splits the frame at the crossovers. *)
Record seg_state : Type := {
  segments : list (list R * bool);
  seg_start : nat;
  cur_above : bool
}.

(** The body of [for i in range(1, n)]. *)
Definition seg_step (rows : list R) (st : seg_state) (i : nat) : seg_state :=
  let a := nth i (map is_above rows) false in
  if Bool.eqb a (cur_above st) then st
  else {| segments :=
            segments st ++ [(iloc rows (seg_start st) i, cur_above st)];
          seg_start := i;
          cur_above := a |}.

(** The segments of the fill, computed when [len(price_df) > 1]. *)
Definition split_segments (rows : list R) : option (list (list R * bool)) :=
  if Nat.ltb 1 (List.length rows) then
    let st :=
      fold_left (seg_step rows) (seq 1 (List.length rows - 1))
                {| segments := [];
                   seg_start := 0;
                   cur_above := nth 0 (map is_above rows) false |} in
    Some (segments st ++ [(skipn (seg_start st) rows, cur_above st)])
  else None.

(** The segments that get a fill: those of two rows or more, green above
    the realized price and red below. *)
Definition fills (rows : list R) : list (list R * string) :=
  match split_segments rows with
  | None => []
  | Some segs =>
      map (fun sg : list R * bool =>
             (fst sg, if snd sg then "rgba(0,220,100,0.12)"%string
                      else "rgba(255,80,80,0.12)"%string))
          (filter (fun sg : list R * bool =>
                     negb (Nat.ltb (List.length (fst sg)) 2)) segs)
  end.
End Segments.

(** Adjacent flags differ. *)
Fixpoint alternating (flags : list bool) : Prop :=
  match flags with
  | a :: ((b :: _) as rest) => a <> b /\ alternating rest
  | _ => True
  end.

(** A segment is a run: it has a row, and every row of it is on the side
    that its flag tells. *)
Definition is_run {R} (is_above : R -> bool) (sg : list R * bool) : Prop :=
  fst sg <> [] /\ Forall (fun r => is_above r = snd sg) (fst sg).

(** What the splitting loop keeps true before it looks at row [k]: the
    segments closed so far are the rows before [seg_start], each is a run,
    the rows from [seg_start] to [k] are on the side [cur_above], and the
    flags alternate. *)
Definition seg_inv {R} (is_above : R -> bool) (rows : list R)
           (st : seg_state R) (k : nat) : Prop :=
  (seg_start st < k)%nat
  /\ List.concat (map fst (segments st)) = firstn (seg_start st) rows
  /\ (forall j, (seg_start st <= j < k)%nat ->
                nth j (map is_above rows) false = cur_above st)
  /\ Forall (is_run is_above) (segments st)
  /\ alternating (map snd (segments st) ++ [cur_above st]).

End Build.

(** ** btc_dashboard.py: [fetch_data] and the files it leaves *)

Module Fetch.

(** What a request gives: an exception of [requests.get] or of
    [raise_for_status], or a body, which is a JSON document or is not. *)
Inductive response (D : Type) : Type :=
| Failed
| Body (doc : option D).

Arguments Failed {D}.
Arguments Body {D} doc.

(** What a file holds: nothing (opened for writing and closed), or a JSON
    document. *)
Inductive content (D : Type) : Type :=
| Empty
| Doc (j : D).

Arguments Empty {D}.
Arguments Doc {D} j.

Inductive read_error : Type := FileNotFoundError | JSONDecodeError.

Definition endpoints : list (string * string) :=
  [ ("https://bitcoin-data.com/api/v1/mvrv-zscore", "mvrv_zscore.json");
    ("https://bitcoin-data.com/api/v1/realized-price", "realized_price.json");
    ("https://bitcoin-data.com/v1/long-term-hodler-supply-btc",
     "lth_supply.json");
    ("https://bitcoin-data.com/v1/exchange-netflow-btc",
     "exchange_netflow_btc.json") ]%string.

Definition coingecko : string :=
  "https://api.coingecko.com/api/v3/simple/price?ids=bitcoin&vs_currencies=usd".

Section Files.
Variable D : Type.

(** The files of [OUTPUT_DIR], by name. *)
Definition files : Type := string -> option (content D).

Definition write (fs : files) (name : string) (c : content D) : files :=
  fun n => if String.eqb n name then Some c else fs n.

(** One turn of [for url, filename in endpoints]: the [try] block gets the
    URL, then opens the file for writing, then decodes the body and dumps
    it; every exception is caught. *)
Definition fetch_endpoint (net : string -> response D) (fs : files)
           (e : string * string) : files :=
  match net (fst e) with
  | Failed => fs
  | Body None => write fs (snd e) Empty
  | Body (Some j) => write fs (snd e) (Doc j)
  end.

(** [fetch_data]: the files after the loop, and the price of the last
    request ([usd] reads [['bitcoin']['usd']] off the document). *)
Definition fetch_data (usd : D -> option Q) (net : string -> response D)
           (fs : files) : files * option Q :=
  (fold_left (fetch_endpoint net) endpoints fs,
   match net coingecko with
   | Body (Some j) => usd j
   | _ => None
   end).

(** [read_json] of [load_data], up to [json.load]. *)
Definition read_json (fs : files) (name : string) : read_error + D :=
  match fs name with
  | None => inl FileNotFoundError
  | Some Empty => inl JSONDecodeError
  | Some (Doc j) => inr j
  end.
End Files.

End Fetch.

(** ** btc_dashboard.py: the end of [load_data] and the stat cards *)

Module LoadData.

(** A row of the merged frame [df]: the date and the five columns, [None]
    being NaN. *)
Record Row : Type := {
  date : Z;
  mvrv_zscore : option Q;
  realized_price : option Q;
  lth_supply : option Q;
  netflow : option Q;
  mkt_price : option Q
}.

Definition set_mkt_price (p : Q) (r : Row) : Row :=
  {| date := date r;
     mvrv_zscore := mvrv_zscore r;
     realized_price := realized_price r;
     lth_supply := lth_supply r;
     netflow := netflow r;
     mkt_price := Some p |}.

(** [pd.DataFrame({'date': [today], 'mkt_price': [float(current_price)]})]
    once it is concatenated: the other columns are NaN. *)
Definition new_row (today : Z) (p : Q) : Row :=
  {| date := today;
     mvrv_zscore := None;
     realized_price := None;
     lth_supply := None;
     netflow := None;
     mkt_price := Some p |}.

(** "Inject today's CoinGecko price", under [if current_price:]; [today] is
    the date of the clock. *)
Definition inject (today : Z) (current_price : option Q) (df : list Row)
  : list Row :=
  match current_price with
  | None => df
  | Some p =>
      if nonzero p then
        if existsb (fun r => Z.eqb (date r) today) df then
          map (fun r => if Z.eqb (date r) today then set_mkt_price p r
                        else r) df
        else Pandas.sort_values date (df ++ [new_row today p])
      else df
  end.

(** [df[df['date'] >= '2017-01-01']] *)
Definition since_2017 (df : list Row) : list Row :=
  filter (fun r => Z.leb 17167 (date r)) df.

(** [load_data] from the injection on, the derived columns apart. *)
Definition load_tail (today : Z) (current_price : option Q) (df : list Row)
  : list Row :=
  since_2017 (inject today current_price df).

(** [df['netflow'].rolling(30, min_periods=1).mean()], row after row.  The
    window of a row is that row and the 29 before it; its mean is taken
    over the values of the window that are not NaN, and is NaN when there
    is none (exact arithmetic: the running sum that pandas keeps is the sum
    of the window). *)
Definition last30 (seen : list Row) : list Row :=
  skipn (List.length seen - 30) seen.

Definition values (col : Row -> option Q) (rows : list Row) : list Q :=
  flat_map (fun r => match col r with Some q => [q] | None => [] end) rows.

Definition mean (vs : list Q) : option Q :=
  match vs with
  | [] => None
  | _ :: _ =>
      Some (fold_right Qplus 0 vs / inject_Z (Z.of_nat (List.length vs)))
  end.

(** A row of the frame that [load_data] returns, as the stat cards of
    [build_dashboard] read it: the merged columns and [netflow_30d_ma]
    ([realized_gap_pct] and [lth_supply_m] are read by the plots only). *)
Record Derived : Type := {
  base : Row;
  netflow_30d_ma : option Q
}.

Fixpoint rolling (seen : list Row) (df : list Row) : list Derived :=
  match df with
  | [] => []
  | r :: df' =>
      {| base := r;
         netflow_30d_ma := mean (values netflow (last30 (seen ++ [r]))) |}
      :: rolling (seen ++ [r]) df'
  end.

(** "Derived columns", after the filter to 2017. *)
Definition derived (df : list Row) : list Derived := rolling [] df.

(** [df.dropna(subset=[col])] *)
Definition dropna_subset {R} (col : R -> option Q) (df : list R) : list R :=
  filter (fun r => match col r with Some _ => true | None => false end) df.

(** [df.dropna(subset=[col]).iloc[-1]] *)
Definition last_with (col : Derived -> option Q) (df : list Derived)
  : Onchain.lookup_error + Derived :=
  Onchain.iloc_last (dropna_subset col df).

(** The rows that the stat cards are read from. *)
Record Latest : Type := {
  latest_mvrv : Derived;
  latest_mkt : Derived;
  latest_rp : Derived;
  latest_lth : Derived;
  latest_nf : Derived
}.

(** The head of [build_dashboard]: five lookups, none of them guarded, in
    the order of the source; the first that finds no row ends the
    function. *)
Definition latest_rows (df : list Derived) : Onchain.lookup_error + Latest :=
  match last_with (fun r => mvrv_zscore (base r)) df with
  | inl e => inl e
  | inr l_mvrv =>
  match last_with (fun r => mkt_price (base r)) df with
  | inl e => inl e
  | inr l_mkt =>
  match last_with (fun r => realized_price (base r)) df with
  | inl e => inl e
  | inr l_rp =>
  match last_with (fun r => lth_supply (base r)) df with
  | inl e => inl e
  | inr l_lth =>
  match last_with netflow_30d_ma df with
  | inl e => inl e
  | inr l_nf =>
      inr {| latest_mvrv := l_mvrv; latest_mkt := l_mkt; latest_rp := l_rp;
             latest_lth := l_lth; latest_nf := l_nf |}
  end end end end end.

(** [current_mkt = float(latest_mkt['mkt_price'])], which is reached once
    the five lookups have returned. *)
Definition current_mkt (df : list Derived) : Onchain.lookup_error + option Q :=
  match latest_rows df with
  | inl e => inl e
  | inr l => inr (mkt_price (base (latest_mkt l)))
  end.

End LoadData.

(** ** Concrete inputs for the dashboards *)

Module Samples.

(** Five readings, out of date order, one of them not a number. *)
Definition readings : list Onchain.Reading :=
  [ {| Onchain.day := 30; Onchain.raw := Dashboard.JNum 3 |};
    {| Onchain.day := 10; Onchain.raw := Dashboard.JNum 1 |};
    {| Onchain.day := 20; Onchain.raw := Dashboard.JNull |};
    {| Onchain.day := 40; Onchain.raw := Dashboard.JNum (- (1)) |};
    {| Onchain.day := 25; Onchain.raw := Dashboard.JNum 2 |} ].

Definition no_parse (s : string) : option Q := None.

(** Prices that cross the realized price twice. *)
Definition prices : list Build.PriceRow :=
  [ {| Build.date := 1; Build.mkt_price := 10; Build.realized_price := 8 |};
    {| Build.date := 2; Build.mkt_price := 9; Build.realized_price := 8 |};
    {| Build.date := 3; Build.mkt_price := 7; Build.realized_price := 8 |};
    {| Build.date := 4; Build.mkt_price := 9; Build.realized_price := 8 |};
    {| Build.date := 5; Build.mkt_price := 12; Build.realized_price := 9 |} ].

(** A network where the MVRV endpoint is down, the realized-price endpoint
    answers with a page that is not JSON, and the others answer. *)
Definition net (url : string) : Fetch.response nat :=
  if String.eqb url "https://bitcoin-data.com/api/v1/mvrv-zscore" then
    Fetch.Failed
  else if String.eqb url "https://bitcoin-data.com/api/v1/realized-price" then
    Fetch.Body None
  else Fetch.Body (Some 7%nat).

(** A merged frame of three days, the last without a market price. *)
Definition frame : list LoadData.Row :=
  [ {| LoadData.date := 20000; LoadData.mvrv_zscore := Some 1;
       LoadData.realized_price := Some 50; LoadData.lth_supply := None;
       LoadData.netflow := None; LoadData.mkt_price := Some 90 |};
    {| LoadData.date := 20001; LoadData.mvrv_zscore := Some 2;
       LoadData.realized_price := Some 51; LoadData.lth_supply := None;
       LoadData.netflow := None; LoadData.mkt_price := Some 91 |};
    {| LoadData.date := 20002; LoadData.mvrv_zscore := None;
       LoadData.realized_price := None; LoadData.lth_supply := None;
       LoadData.netflow := None; LoadData.mkt_price := None |} ].

(** A merged frame of three days where every column has a value, the last
    day without a market price. *)
Definition merged : list LoadData.Row :=
  [ {| LoadData.date := 20000; LoadData.mvrv_zscore := Some 1;
       LoadData.realized_price := Some 50;
       LoadData.lth_supply := Some 14000000;
       LoadData.netflow := Some (- (300)); LoadData.mkt_price := Some 90 |};
    {| LoadData.date := 20001; LoadData.mvrv_zscore := Some 2;
       LoadData.realized_price := Some 51; LoadData.lth_supply := None;
       LoadData.netflow := Some 100; LoadData.mkt_price := Some 91 |};
    {| LoadData.date := 20002; LoadData.mvrv_zscore := None;
       LoadData.realized_price := None; LoadData.lth_supply := None;
       LoadData.netflow := None; LoadData.mkt_price := None |} ].

(** A directory where every file of the dashboard is cached. *)
Definition cached : Fetch.files nat := fun _ => Some (Fetch.Doc 1%nat).

End Samples.

(** ** Facts about the rationals and about lists *)

Lemma Qltb_lt (a b : Q) : Qltb a b = true <-> a < b.
Proof.
  unfold Qltb. rewrite negb_true_iff. split; intro Hab.
  - apply Qnot_le_lt. intro Hle. apply Qle_bool_iff in Hle. congruence.
  - destruct (Qle_bool b a) eqn:E; trivial.
    apply Qle_bool_iff in E. exfalso. exact (Qlt_not_le _ _ Hab E).
Qed.

Lemma Qltb_ge (a b : Q) : Qltb a b = false <-> b <= a.
Proof.
  unfold Qltb. rewrite negb_false_iff. apply Qle_bool_iff.
Qed.

Lemma distinctb_NoDup (l : list Z) : distinctb l = true -> NoDup l.
Proof.
  induction l as [|x l IH]; simpl; intro Hd.
  - constructor.
  - apply andb_true_iff in Hd. destruct Hd as [Hx Hl].
    constructor; auto.
    intro Hin. apply negb_true_iff in Hx.
    assert (existsb (Z.eqb x) l = true) as Hex.
    { apply existsb_exists. exists x. split; trivial. apply Z.eqb_refl. }
    congruence.
Qed.

Lemma NoDup_map_filter {A} (g : A -> Z) (p : A -> bool) (l : list A) :
  NoDup (map g l) -> NoDup (map g (filter p l)).
Proof.
  induction l as [|a l IH]; simpl; intro Hnd; trivial.
  inversion Hnd as [|? ? Hnotin Hnd']; subst.
  destruct (p a); simpl; auto.
  constructor; auto.
  intro Hin. apply Hnotin.
  apply in_map_iff in Hin. destruct Hin as [y [Hy Hin]].
  apply filter_In in Hin. apply in_map_iff. exists y. tauto.
Qed.

Lemma StronglySorted_filter {A} (le : A -> A -> Prop) (p : A -> bool) l :
  StronglySorted le l -> StronglySorted le (filter p l).
Proof.
  induction 1 as [|a l Hs IH Hall]; simpl.
  - constructor.
  - destruct (p a); trivial.
    constructor; trivial.
    rewrite Forall_forall in *. intros x Hx.
    apply filter_In in Hx. apply Hall. tauto.
Qed.

Lemma StronglySorted_map {A B} (g : A -> B) (leA : A -> A -> Prop)
      (leB : B -> B -> Prop) l :
  (forall x y, leA x y -> leB (g x) (g y)) ->
  StronglySorted leA l -> StronglySorted leB (map g l).
Proof.
  intros Hmono. induction 1 as [|a l Hs IH Hall]; simpl; constructor; trivial.
  rewrite Forall_forall in *. intros y Hy.
  apply in_map_iff in Hy. destruct Hy as [x [<- Hx]]. auto.
Qed.

Lemma StronglySorted_split {A} (le : A -> A -> Prop) pre (r : A) post :
  StronglySorted le (pre ++ r :: post) -> forall x, In x post -> le r x.
Proof.
  induction pre as [|a pre IH]; simpl; intros Hs x Hx.
  - inversion Hs as [|? ? _ Hall]; subst.
    rewrite Forall_forall in Hall. auto.
  - inversion Hs; subst. eauto.
Qed.

(** ** The pandas operations over the rationals *)

Section PandasFacts.
Import Pandas.

Lemma dropna_Q (s : list (Z * Q)) : dropna s = s.
Proof.
  unfold dropna. induction s as [|x s IH]; simpl in *; congruence.
Qed.

(** The running minimum keeps the first least entry of what it has seen. *)
Lemma argmin_acc_first_min (s pre mid : list (Z * Q)) (best : Z * Q) :
  (forall x, In x pre -> snd best < snd x) ->
  (forall x, In x mid -> snd best <= snd x) ->
  first_min_row snd (pre ++ best :: mid ++ s) (argmin_acc best s).
Proof.
  revert pre mid best.
  induction s as [|x s IH]; intros pre mid best Hpre Hmid; simpl.
  - rewrite app_nil_r. exists pre, mid. auto.
  - destruct (Qltb (snd x) (snd best)) eqn:E.
    + apply Qltb_lt in E.
      specialize (IH (pre ++ best :: mid) [] x). simpl in IH.
      rewrite <- app_assoc in IH. simpl in IH. apply IH.
      * intros y Hy. apply in_app_or in Hy.
        destruct Hy as [Hy|[Hy|Hy]].
        -- eapply Qlt_trans; eauto.
        -- subst y. trivial.
        -- eapply Qlt_le_trans; eauto.
      * intros y [].
    + apply Qltb_ge in E.
      specialize (IH pre (mid ++ [x]) best).
      rewrite <- app_assoc in IH. simpl in IH. apply IH; trivial.
      intros y Hy. apply in_app_or in Hy.
      destruct Hy as [Hy|[Hy|[]]]; auto. subst y. trivial.
Qed.

Variable R : Type.
Variable ix : R -> Z.
Variable f : R -> Q.

Lemma first_min_row_col (rows : list R) (m : Z * Q) :
  first_min_row snd (col ix f rows) m ->
  exists r, first_min_row f rows r /\ ix r = fst m /\ f r = snd m.
Proof.
  intros [pre [post [Heq [Hpre Hpost]]]].
  unfold col in Heq.
  apply map_eq_app in Heq. destruct Heq as [rpre [rrest [Hrows [Hp Hr]]]].
  apply map_eq_cons in Hr. destruct Hr as [r [rpost [Hrest [Hm Hq]]]].
  subst rows rrest pre post m. simpl in *.
  exists r. split; [|split; trivial].
  exists rpre, rpost. split; [trivial|split].
  - intros x Hx. apply (Hpre (ix x, f x)).
    apply in_map_iff. exists x. auto.
  - intros x Hx. apply (Hpost (ix x, f x)).
    apply in_map_iff. exists x. auto.
Qed.

(** On a window that is not empty, [idxmin] and [min] agree on one row: the
    first least one. *)
Lemma idxmin_smin_first (rows : list R) :
  rows <> [] ->
  exists r, first_min_row f rows r
            /\ idxmin (col ix f rows) = Ok (ix r)
            /\ smin (col ix f rows) = Some (f r).
Proof.
  intro Hne. unfold idxmin, smin. rewrite dropna_Q.
  destruct rows as [|r0 rows]; [congruence|].
  change (col ix f (r0 :: rows)) with ((ix r0, f r0) :: col ix f rows).
  destruct (@first_min_row_col (r0 :: rows)
              (argmin_acc (ix r0, f r0) (col ix f rows))) as [r [Hf [Hi Hv]]].
  - change (col ix f (r0 :: rows))
      with ([] ++ (ix r0, f r0) :: [] ++ col ix f rows).
    apply argmin_acc_first_min; intros x [].
  - exists r. rewrite Hi, Hv. auto.
Qed.

(** With distinct labels, the label of a row selects that row. *)
Lemma loc_row_distinct (rows : list R) (r : R) :
  NoDup (map ix rows) -> In r rows -> loc_row ix rows (ix r) = Ok r.
Proof.
  unfold loc_row, loc.
  induction rows as [|a rows IH]; simpl; intros Hnd Hin; [contradiction|].
  inversion Hnd as [|? ? Hnotin Hnd']; subst.
  destruct Hin as [->|Hin].
  - rewrite Z.eqb_refl.
    assert (filter (fun x => ix x =? ix r)%Z rows = []) as ->; trivial.
    destruct (filter (fun x => ix x =? ix r)%Z rows) as [|y ys] eqn:E; trivial.
    exfalso. apply Hnotin.
    assert (In y (filter (fun x => ix x =? ix r)%Z rows)) as Hy
      by (rewrite E; left; trivial).
    apply filter_In in Hy. destruct Hy as [Hy He].
    apply Z.eqb_eq in He. rewrite <- He. apply in_map. trivial.
  - destruct (Z.eqb_spec (ix a) (ix r)) as [He|Hne].
    + exfalso. apply Hnotin. rewrite He. apply in_map. trivial.
    + auto.
Qed.

Lemma first_min_row_In (rows : list R) (r : R) :
  first_min_row f rows r -> In r rows.
Proof.
  intros [pre [post [-> _]]]. apply in_or_app. right. left. trivial.
Qed.

Lemma first_min_row_window_min (rows : list R) (r : R) :
  first_min_row f rows r -> window_min f rows (f r).
Proof.
  intros [pre [post [-> [Hpre Hpost]]]]. split.
  - exists r. split; [|reflexivity]. apply in_or_app. right. left. trivial.
  - intros x Hx. apply in_app_or in Hx. destruct Hx as [Hx|[Hx|Hx]].
    + apply Qlt_le_weak. auto.
    + subst x. apply Qle_refl.
    + auto.
Qed.

(** Among the rows that attain the minimum, the first least row comes first
    for every key that ascends along the rows. *)
Lemma first_min_row_least_key (key : R -> Z) (rows : list R) (r : R) :
  StronglySorted (fun a b => (key a <= key b)%Z) rows ->
  first_min_row f rows r ->
  forall x, In x rows -> f x == f r -> (key r <= key x)%Z.
Proof.
  intros Hs [pre [post [-> [Hpre Hpost]]]] x Hx Heq.
  apply in_app_or in Hx. destruct Hx as [Hx|[Hx|Hx]].
  - exfalso. specialize (Hpre x Hx). rewrite Heq in Hpre.
    exact (Qlt_irrefl _ Hpre).
  - subst x. lia.
  - exact (StronglySorted_split _ _ _ Hs x Hx).
Qed.

End PandasFacts.

(** ** Loading: order and labels *)

Section LoadFacts.
Import Pandas.

Lemma insert_by_In {A} (key : A -> Z) (a x : A) (l : list A) :
  In x (insert_by key a l) <-> x = a \/ In x l.
Proof.
  induction l as [|y l IH]; simpl.
  - intuition.
  - destruct (key a <=? key y)%Z; simpl; rewrite ?IH; intuition.
Qed.

Lemma sort_values_In {A} (key : A -> Z) (x : A) (l : list A) :
  In x (sort_values key l) <-> In x l.
Proof.
  induction l as [|a l IH]; simpl; [tauto|].
  rewrite insert_by_In, IH. intuition.
Qed.

Lemma insert_by_sorted {A} (key : A -> Z) (a : A) (l : list A) :
  StronglySorted (fun x y => (key x <= key y)%Z) l ->
  StronglySorted (fun x y => (key x <= key y)%Z) (insert_by key a l).
Proof.
  induction 1 as [|y l Hs IH Hall]; simpl.
  - repeat constructor.
  - destruct (Z.leb_spec (key a) (key y)) as [Hle|Hgt].
    + constructor; [constructor; trivial|].
      constructor; trivial.
      rewrite Forall_forall in *. intros z Hz. specialize (Hall z Hz). lia.
    + constructor; trivial.
      rewrite Forall_forall in *. intros z Hz.
      apply insert_by_In in Hz. destruct Hz as [->|Hz]; [lia|auto].
Qed.

Lemma sort_values_sorted {A} (key : A -> Z) (l : list A) :
  StronglySorted (fun x y => (key x <= key y)%Z) (sort_values key l).
Proof.
  induction l as [|a l IH]; simpl; [constructor|].
  apply insert_by_sorted. trivial.
Qed.

Lemma reset_index_from_labels {A} (l : list A) (n : Z) :
  forall x, In x (reset_index_from n l) -> (n <= fst x)%Z.
Proof.
  revert n. induction l as [|a l IH]; simpl; intros n x Hx; [contradiction|].
  destruct Hx as [<-|Hx]; simpl; [lia|].
  specialize (IH _ _ Hx). lia.
Qed.

Lemma reset_index_from_NoDup {A} (l : list A) (n : Z) :
  NoDup (map fst (reset_index_from n l)).
Proof.
  revert n. induction l as [|a l IH]; simpl; intro n; constructor; auto.
  intro Hin. apply in_map_iff in Hin. destruct Hin as [x [Hx Hin]].
  apply reset_index_from_labels in Hin. lia.
Qed.

Lemma reset_index_from_In {A} (l : list A) (n : Z) (x : Z * A) :
  In x (reset_index_from n l) -> In (snd x) l.
Proof.
  revert n. induction l as [|a l IH]; simpl; intros n Hx; [trivial|].
  destruct Hx as [<-|Hx]; simpl; eauto.
Qed.

Lemma reset_index_from_sorted {A} (le : A -> A -> Prop) (l : list A) (n : Z) :
  StronglySorted le l ->
  StronglySorted (fun x y => le (snd x) (snd y)) (reset_index_from n l).
Proof.
  intro Hs. revert n. induction Hs as [|a l Hs IH Hall]; simpl; intro n.
  - constructor.
  - constructor; auto.
    rewrite Forall_forall in *. intros x Hx. simpl.
    apply Hall. eapply reset_index_from_In; eauto.
Qed.

End LoadFacts.

(** ** btc_accumulation_support.py over the rationals *)

Section BtcFacts.
Import Pandas BtcSupport.

Lemma load_btc_NoDup (csv : list (PriceRow Q)) :
  NoDup (map fst (load_btc csv)).
Proof. apply reset_index_from_NoDup. Qed.

Lemma load_btc_sorted (csv : list (PriceRow Q)) :
  StronglySorted (fun x y => (date (snd x) <= date (snd y))%Z) (load_btc csv).
Proof.
  unfold load_btc, reset_index.
  apply reset_index_from_sorted with (le := fun x y => (date x <= date y)%Z).
  apply sort_values_sorted.
Qed.

Lemma chunk_labels (btc : list (Z * PriceRow Q)) (c : Cycle Q) :
  NoDup (map fst btc) -> NoDup (map (@ix Q) (chunk btc c)).
Proof.
  intro Hnd. unfold chunk. rewrite map_map. simpl.
  apply NoDup_map_filter. trivial.
Qed.

Lemma chunk_sorted (btc : list (Z * PriceRow Q)) (c : Cycle Q) :
  StronglySorted (fun x y => (date (snd x) <= date (snd y))%Z) btc ->
  StronglySorted (fun a b => (days a <= days b)%Z) (chunk btc c).
Proof.
  intro Hs. unfold chunk.
  eapply StronglySorted_map; [|apply StronglySorted_filter; exact Hs].
  simpl. intros. lia.
Qed.

(** What the loop body returns when the early window has a row: the first
    least row of each window, and the comparison of the two. *)
Lemma cycle_support_Q (btc : list (Z * PriceRow Q)) (c : Cycle Q) :
  NoDup (map fst btc) ->
  accum btc c <> [] ->
  exists low,
    first_min_row (@pct Q) (accum btc c) low
    /\ match post_top btc c with
       | [] =>
           cycle_support btc c =
           Ok {| low_pct := pct low; low_day := days low;
                 low_price := cprice low;
                 bear_low_pct := None; bear_low_day := None;
                 bear_low_price := None; held := None |}
       | _ :: _ =>
           exists bear,
             first_min_row (@pct Q) (post_top btc c) bear
             /\ cycle_support btc c =
                Ok {| low_pct := pct low; low_day := days low;
                      low_price := cprice low;
                      bear_low_pct := Some (pct bear);
                      bear_low_day := Some (days bear);
                      bear_low_price := Some (cprice bear);
                      held := Some (Qltb (pct low) (pct bear)) |}
       end.
Proof.
  intros Hnd Hne.
  destruct (idxmin_smin_first (@ix Q) (@pct Q) Hne) as [low [Hlow [Hidx _]]].
  exists low. split; trivial.
  assert (NoDup (map (@ix Q) (accum btc c))) as Hnda.
  { apply NoDup_map_filter, chunk_labels; trivial. }
  assert (NoDup (map (@ix Q) (post_top btc c))) as Hndp.
  { apply NoDup_map_filter, chunk_labels; trivial. }
  unfold cycle_support. rewrite Hidx. simpl.
  rewrite loc_row_distinct;
    [simpl | exact Hnda | eapply first_min_row_In; exact Hlow].
  destruct (post_top btc c) as [|p ps] eqn:Ep; trivial.
  assert (p :: ps <> []) as Hne' by discriminate.
  destruct (idxmin_smin_first (@ix Q) (@pct Q) Hne')
    as [bear [Hbear [Hbidx Hbmin]]].
  exists bear. split; trivial.
  rewrite Hbmin, Hbidx. simpl.
  rewrite loc_row_distinct;
    [reflexivity | exact Hndp | eapply first_min_row_In; exact Hbear].
Qed.

End BtcFacts.

(** ** stocks_accumulation.py over the rationals *)

Section StocksFacts.
Import Pandas Stocks.

Lemma with_td_fst {F} (rows : list (Z * F)) (n : Z) :
  map fst (with_td n rows) = rows.
Proof.
  revert n. induction rows as [|r rows IH]; simpl; intro n; congruence.
Qed.

Lemma with_td_lower {F} (rows : list (Z * F)) (n : Z) :
  forall x, In x (with_td n rows) -> (n <= snd x)%Z.
Proof.
  revert n. induction rows as [|r rows IH]; simpl; intros n x Hx.
  - contradiction.
  - destruct Hx as [<-|Hx]; simpl; [lia|].
    specialize (IH _ _ Hx). lia.
Qed.

Lemma with_td_sorted {F} (rows : list (Z * F)) (n : Z) :
  StronglySorted (fun x y => (snd x <= snd y)%Z) (with_td n rows).
Proof.
  revert n. induction rows as [|r rows IH]; simpl; intro n; constructor; auto.
  rewrite Forall_forall. intros x Hx. simpl.
  apply with_td_lower in Hx. lia.
Qed.

Lemma chunk_of_labels (sl : list (Z * Q)) (bp : Q) :
  map (@ix Q) (chunk_of sl bp) = map fst sl.
Proof.
  unfold chunk_of. rewrite map_map. simpl.
  rewrite <- (with_td_fst sl 0) at 2. rewrite map_map. reflexivity.
Qed.

Lemma chunk_of_sorted (sl : list (Z * Q)) (bp : Q) :
  StronglySorted (fun a b => (td a <= td b)%Z) (chunk_of sl bp).
Proof.
  unfold chunk_of.
  eapply StronglySorted_map; [|apply with_td_sorted].
  simpl. trivial.
Qed.

Lemma slice_NoDup (df : list (Z * Q)) (b : Z) :
  NoDup (map fst df) -> NoDup (map fst (slice df b)).
Proof. apply NoDup_map_filter. Qed.

Lemma phase_chunk_sorted (df : list (Z * Q)) (b : Z) :
  StronglySorted (fun x y => (td x <= td y)%Z) (phase_chunk df b).
Proof.
  unfold phase_chunk. destruct (slice df b); [constructor|].
  apply chunk_of_sorted.
Qed.

(** A slice that is not empty has its first row in the early window. *)
Lemma first200_nonempty (df : list (Z * Q)) (b : Z) :
  slice df b <> [] -> first200 (phase_chunk df b) <> [].
Proof.
  unfold phase_chunk. destruct (slice df b) as [|first rest]; [congruence|].
  intros _. unfold first200, chunk_of. simpl. discriminate.
Qed.

(** What the body of the phase loop returns on a slice of ten rows or more
    with distinct dates. *)
Lemma phase_support_Q (df : list (Z * Q)) (b : Z) :
  NoDup (map fst df) ->
  (10 <= List.length (slice df b))%nat ->
  exists first low,
    hd_error (slice df b) = Some first
    /\ first_min_row (@pct Q) (first200 (phase_chunk df b)) low
    /\ match after200 (phase_chunk df b) with
       | [] =>
           phase_support df b =
           Reported {| bottom_price := snd first;
                       low_pct := pct low; low_td := td low;
                       low_price := price low;
                       after_low := None; after_low_td := None;
                       held := None |}
       | _ :: _ =>
           exists after,
             first_min_row (@pct Q) (after200 (phase_chunk df b)) after
             /\ phase_support df b =
                Reported {| bottom_price := snd first;
                            low_pct := pct low; low_td := td low;
                            low_price := price low;
                            after_low := Some (pct after);
                            after_low_td := Some (td after);
                            held := Some (Qltb (pct low) (pct after)) |}
       end.
Proof.
  intros Hnd Hlen.
  assert (slice df b <> []) as Hne.
  { intro E. rewrite E in Hlen. simpl in Hlen. lia. }
  pose proof (first200_nonempty df b Hne) as Hne200.
  pose proof (@slice_NoDup df b Hnd) as Hnds.
  unfold phase_support, phase_chunk in *.
  destruct (slice df b) as [|first rest] eqn:Es; [congruence|].
  exists first.
  destruct (Nat.ltb_spec (List.length (first :: rest)) 10) as [Hlt|_]; [lia|].
  set (ch := chunk_of (first :: rest) (snd first)) in *.
  assert (NoDup (map (@ix Q) ch)) as Hndc.
  { unfold ch. rewrite chunk_of_labels. trivial. }
  destruct (idxmin_smin_first (@ix Q) (@pct Q) Hne200)
    as [low [Hlow [Hidx _]]].
  exists low. split; [reflexivity|]. split; trivial.
  rewrite Hidx. cbn [bind].
  rewrite loc_row_distinct;
    [cbn [bind] | apply NoDup_map_filter; exact Hndc
     | eapply first_min_row_In; exact Hlow].
  destruct (after200 ch) as [|p ps] eqn:Ep; trivial.
  assert (p :: ps <> []) as Hne' by discriminate.
  destruct (idxmin_smin_first (@ix Q) (@pct Q) Hne')
    as [after [Hafter [Haidx Hamin]]].
  exists after. split; trivial.
  rewrite Hamin, Haidx. cbn [bind].
  rewrite loc_row_distinct;
    [reflexivity
    | rewrite <- Ep; apply NoDup_map_filter; exact Hndc
    | eapply first_min_row_In; exact Hafter].
Qed.

(** The guard of the phase loop. *)
Lemma phase_support_skip {F} `{Numeric F} (df : list (Z * F)) (b : Z) :
  (List.length (slice df b) < 10)%nat -> phase_support df b = Skipped.
Proof.
  intro Hlt. unfold phase_support.
  destruct (slice df b) as [|first rest]; trivial.
  destruct (Nat.ltb_spec (List.length (first :: rest)) 10); [trivial|lia].
Qed.

End StocksFacts.

(** ** The verdict whatever the numeric type *)

Section AnyNumeric.
Context {F : Type} `{Numeric F}.

(** Whenever the BTC loop body returns with a later low, the verdict is the
    strict comparison of the two lows. *)
Lemma cycle_support_held (btc : list (Z * BtcSupport.PriceRow F))
      (c : BtcSupport.Cycle F) (s : BtcSupport.Support F) (late : F) :
  BtcSupport.cycle_support btc c = Ok s ->
  BtcSupport.bear_low_pct s = Some late ->
  BtcSupport.held s = Some (ngtb late (BtcSupport.low_pct s)).
Proof.
  unfold BtcSupport.cycle_support.
  destruct (Pandas.idxmin _) as [l|e]; [|discriminate]. cbn [bind].
  destruct (Pandas.loc_row _ _ l) as [low|e]; [|discriminate]. cbn [bind].
  destruct (BtcSupport.post_top btc c) as [|p ps].
  - intros [= <-]. discriminate.
  - destruct (Pandas.smin _) as [m|]; [|discriminate].
    destruct (Pandas.idxmin _) as [l'|e]; [|discriminate]. cbn [bind].
    destruct (Pandas.loc_row _ _ l') as [bear|e]; [|discriminate]. cbn [bind].
    intros [= <-]. simpl. intros [= <-]. reflexivity.
Qed.

(** With nothing after the top, the BTC loop body cannot return a verdict. *)
Lemma cycle_support_no_late (btc : list (Z * BtcSupport.PriceRow F))
      (c : BtcSupport.Cycle F) (s : BtcSupport.Support F) :
  BtcSupport.post_top btc c = [] ->
  BtcSupport.cycle_support btc c = Ok s ->
  BtcSupport.held s = None /\ BtcSupport.bear_low_pct s = None
  /\ BtcSupport.bear_low_day s = None /\ BtcSupport.bear_low_price s = None.
Proof.
  intro Hp. unfold BtcSupport.cycle_support. rewrite Hp.
  destruct (Pandas.idxmin _) as [l|e]; [|discriminate]. cbn [bind].
  destruct (Pandas.loc_row _ _ l) as [low|e]; [|discriminate]. cbn [bind].
  intros [= <-]. simpl. auto.
Qed.

(** The same two facts for a phase of the stocks script. *)
Lemma phase_support_held (df : list (Z * F)) (b : Z)
      (s : Stocks.Support F) (late : F) :
  Stocks.phase_support df b = Stocks.Reported s ->
  Stocks.after_low s = Some late ->
  Stocks.held s = Some (ngtb late (Stocks.low_pct s)).
Proof.
  unfold Stocks.phase_support.
  destruct (Stocks.slice df b) as [|first rest]; [discriminate|].
  destruct (Nat.ltb _ _); [discriminate|].
  destruct (Pandas.idxmin _) as [l|e]; [|discriminate]. cbn [bind].
  destruct (Pandas.loc_row _ _ l) as [low|e]; [|discriminate]. cbn [bind].
  destruct (Stocks.after200 _) as [|p ps].
  - intros [= <-]. discriminate.
  - destruct (Pandas.smin _) as [m|]; [|discriminate].
    destruct (Pandas.idxmin _) as [l'|e]; [|discriminate]. cbn [bind].
    destruct (Pandas.loc_row _ _ l') as [after|e]; [|discriminate].
    cbn [bind Stocks.lift].
    intros [= <-]. simpl. intros [= <-]. reflexivity.
Qed.

Lemma phase_support_no_late (df : list (Z * F)) (b : Z)
      (s : Stocks.Support F) :
  Stocks.after200 (phase_chunk df b) = [] ->
  Stocks.phase_support df b = Stocks.Reported s ->
  Stocks.held s = None /\ Stocks.after_low s = None
  /\ Stocks.after_low_td s = None.
Proof.
  unfold Stocks.phase_support, phase_chunk.
  destruct (Stocks.slice df b) as [|first rest]; [discriminate|].
  intro Ha. rewrite Ha.
  destruct (Nat.ltb _ _); [discriminate|].
  destruct (Pandas.idxmin _) as [l|e]; [|discriminate]. cbn [bind].
  destruct (Pandas.loc_row _ _ l) as [low|e]; [|discriminate].
  cbn [bind Stocks.lift].
  intros [= <-]. simpl. auto.
Qed.

(** An empty early window ends the BTC loop body with the exception of
    [idxmin]. *)
Lemma cycle_support_no_early (btc : list (Z * BtcSupport.PriceRow F))
      (c : BtcSupport.Cycle F) :
  BtcSupport.accum btc c = [] ->
  BtcSupport.cycle_support btc c = Raise ValueError.
Proof.
  intro Ha. unfold BtcSupport.cycle_support. rewrite Ha. reflexivity.
Qed.

End AnyNumeric.

(** ** The support verdict *)

(** C1.  For every cycle whose late window is not empty, the verdict is the
    strict comparison of the two window minima: the early low is the minimum
    percent of the early window, the late low the minimum percent of the late
    window, [held] is true exactly when the late low is strictly greater
    than the early low, and equal lows give [held = false].  First conjunct:
    btc_accumulation_support.py; second: stocks_accumulation.py. *)
Theorem support_verdict_strict :
  (forall (csv : list (BtcSupport.PriceRow Q)) (c : BtcSupport.Cycle Q),
      BtcSupport.accum (BtcSupport.load_btc csv) c <> [] ->
      BtcSupport.post_top (BtcSupport.load_btc csv) c <> [] ->
      exists s late,
        BtcSupport.cycle_support (BtcSupport.load_btc csv) c = Ok s
        /\ window_min (@BtcSupport.pct Q)
             (BtcSupport.accum (BtcSupport.load_btc csv) c)
             (BtcSupport.low_pct s)
        /\ BtcSupport.bear_low_pct s = Some late
        /\ window_min (@BtcSupport.pct Q)
             (BtcSupport.post_top (BtcSupport.load_btc csv) c) late
        /\ (BtcSupport.held s = Some true <-> BtcSupport.low_pct s < late)
        /\ (BtcSupport.held s = Some false <-> late <= BtcSupport.low_pct s)
        /\ (late == BtcSupport.low_pct s -> BtcSupport.held s = Some false))
  /\
  (forall (df : list (Z * Q)) (b : Z),
      NoDup (map fst df) ->
      (10 <= List.length (Stocks.slice df b))%nat ->
      Stocks.after200 (phase_chunk df b) <> [] ->
      exists s late,
        Stocks.phase_support df b = Stocks.Reported s
        /\ window_min (@Stocks.pct Q)
             (Stocks.first200 (phase_chunk df b)) (Stocks.low_pct s)
        /\ Stocks.after_low s = Some late
        /\ window_min (@Stocks.pct Q)
             (Stocks.after200 (phase_chunk df b)) late
        /\ (Stocks.held s = Some true <-> Stocks.low_pct s < late)
        /\ (Stocks.held s = Some false <-> late <= Stocks.low_pct s)
        /\ (late == Stocks.low_pct s -> Stocks.held s = Some false)).
Proof.
  assert (forall a b : Q,
             (Some (Qltb a b) = Some true <-> a < b)
             /\ (Some (Qltb a b) = Some false <-> b <= a)
             /\ (b == a -> Some (Qltb a b) = Some false)) as Hcmp.
  { intros a b. repeat split.
    - intros [= E]. apply Qltb_lt. trivial.
    - intro Hlt. f_equal. apply Qltb_lt. trivial.
    - intros [= E]. apply Qltb_ge. trivial.
    - intro Hle. f_equal. apply Qltb_ge. trivial.
    - intro Heq. f_equal. apply Qltb_ge. rewrite Heq. apply Qle_refl. }
  split.
  - intros csv c Ha Hp.
    destruct (cycle_support_Q _ c (load_btc_NoDup csv) Ha) as [low [Hlow Hres]].
    destruct (BtcSupport.post_top (BtcSupport.load_btc csv) c)
      as [|p ps] eqn:Ep; [congruence|].
    destruct Hres as [bear [Hbear Hres]].
    eexists. exists (BtcSupport.pct bear).
    split; [exact Hres|]. simpl.
    split; [apply first_min_row_window_min; trivial|].
    split; [reflexivity|].
    split; [apply first_min_row_window_min; trivial|].
    apply Hcmp.
  - intros df b Hnd Hlen Hp.
    destruct (phase_support_Q df b Hnd Hlen) as [first [low [_ [Hlow Hres]]]].
    destruct (Stocks.after200 (phase_chunk df b))
      as [|p ps] eqn:Ep; [congruence|].
    destruct Hres as [after [Hafter Hres]].
    eexists. exists (Stocks.pct after).
    split; [exact Hres|]. simpl.
    split; [apply first_min_row_window_min; trivial|].
    split; [reflexivity|].
    split; [apply first_min_row_window_min; trivial|].
    apply Hcmp.
Qed.

(** C2.  When no retained point lies beyond the second anchor offset, the
    late low and the verdict are both absent ([None]), and no boolean is
    produced.  First conjunct: btc_accumulation_support.py; second:
    stocks_accumulation.py. *)
Theorem empty_late_window_no_verdict :
  (forall (csv : list (BtcSupport.PriceRow Q)) (c : BtcSupport.Cycle Q),
      BtcSupport.accum (BtcSupport.load_btc csv) c <> [] ->
      BtcSupport.post_top (BtcSupport.load_btc csv) c = [] ->
      exists s,
        BtcSupport.cycle_support (BtcSupport.load_btc csv) c = Ok s
        /\ BtcSupport.held s = None
        /\ BtcSupport.bear_low_pct s = None
        /\ BtcSupport.bear_low_day s = None
        /\ BtcSupport.bear_low_price s = None)
  /\
  (forall (df : list (Z * Q)) (b : Z),
      NoDup (map fst df) ->
      (10 <= List.length (Stocks.slice df b))%nat ->
      Stocks.after200 (phase_chunk df b) = [] ->
      exists s,
        Stocks.phase_support df b = Stocks.Reported s
        /\ Stocks.held s = None
        /\ Stocks.after_low s = None
        /\ Stocks.after_low_td s = None).
Proof.
  split.
  - intros csv c Ha Hp.
    destruct (cycle_support_Q _ c (load_btc_NoDup csv) Ha) as [low [_ Hres]].
    rewrite Hp in Hres. eexists. split; [exact Hres|]. simpl. auto.
  - intros df b Hnd Hlen Hp.
    destruct (phase_support_Q df b Hnd Hlen) as [first [low [_ [_ Hres]]]].
    rewrite Hp in Hres. eexists. split; [exact Hres|]. simpl. auto.
Qed.

(** C3.  On a non-empty early window the early extremum is the row of
    minimum percent, and among the rows that attain the minimum it is the
    first in row order, hence the one of smallest offset.  First conjunct:
    btc_accumulation_support.py (offsets in days); second:
    stocks_accumulation.py (offsets in trading days). *)
Theorem early_extremum_first_minimum :
  (forall (csv : list (BtcSupport.PriceRow Q)) (c : BtcSupport.Cycle Q),
      BtcSupport.accum (BtcSupport.load_btc csv) c <> [] ->
      exists s low,
        BtcSupport.cycle_support (BtcSupport.load_btc csv) c = Ok s
        /\ first_min_row (@BtcSupport.pct Q)
             (BtcSupport.accum (BtcSupport.load_btc csv) c) low
        /\ BtcSupport.low_pct s = BtcSupport.pct low
        /\ BtcSupport.low_day s = BtcSupport.days low
        /\ BtcSupport.low_price s = BtcSupport.cprice low
        /\ (forall r, In r (BtcSupport.accum (BtcSupport.load_btc csv) c) ->
                      BtcSupport.low_pct s <= BtcSupport.pct r)
        /\ (forall r, In r (BtcSupport.accum (BtcSupport.load_btc csv) c) ->
                      BtcSupport.pct r == BtcSupport.low_pct s ->
                      (BtcSupport.low_day s <= BtcSupport.days r)%Z))
  /\
  (forall (df : list (Z * Q)) (b : Z),
      NoDup (map fst df) ->
      (10 <= List.length (Stocks.slice df b))%nat ->
      exists s low,
        Stocks.phase_support df b = Stocks.Reported s
        /\ first_min_row (@Stocks.pct Q)
             (Stocks.first200 (phase_chunk df b)) low
        /\ Stocks.low_pct s = Stocks.pct low
        /\ Stocks.low_td s = Stocks.td low
        /\ Stocks.low_price s = Stocks.price low
        /\ (forall r, In r (Stocks.first200 (phase_chunk df b)) ->
                      Stocks.low_pct s <= Stocks.pct r)
        /\ (forall r, In r (Stocks.first200 (phase_chunk df b)) ->
                      Stocks.pct r == Stocks.low_pct s ->
                      (Stocks.low_td s <= Stocks.td r)%Z)).
Proof.
  split.
  - intros csv c Ha.
    destruct (cycle_support_Q _ c (load_btc_NoDup csv) Ha) as [low [Hlow Hres]].
    assert (exists s,
               BtcSupport.cycle_support (BtcSupport.load_btc csv) c = Ok s
               /\ BtcSupport.low_pct s = BtcSupport.pct low
               /\ BtcSupport.low_day s = BtcSupport.days low
               /\ BtcSupport.low_price s = BtcSupport.cprice low)
      as [s [Hs [Hp [Hd Hpr]]]].
    { destruct (BtcSupport.post_top (BtcSupport.load_btc csv) c).
      - eexists. split; [exact Hres|]. simpl. auto.
      - destruct Hres as [bear [_ Hres]].
        eexists. split; [exact Hres|]. simpl. auto. }
    exists s, low. rewrite Hp, Hd, Hpr.
    repeat (split; trivial).
    + apply (first_min_row_window_min Hlow).
    + intros r Hr Heq.
      eapply first_min_row_least_key with (key := @BtcSupport.days Q);
        eauto.
      apply StronglySorted_filter, chunk_sorted, load_btc_sorted.
  - intros df b Hnd Hlen.
    destruct (phase_support_Q df b Hnd Hlen) as [first [low [_ [Hlow Hres]]]].
    assert (exists s,
               Stocks.phase_support df b = Stocks.Reported s
               /\ Stocks.low_pct s = Stocks.pct low
               /\ Stocks.low_td s = Stocks.td low
               /\ Stocks.low_price s = Stocks.price low)
      as [s [Hs [Hp [Hd Hpr]]]].
    { destruct (Stocks.after200 (phase_chunk df b)).
      - eexists. split; [exact Hres|]. simpl. auto.
      - destruct Hres as [after [_ Hres]].
        eexists. split; [exact Hres|]. simpl. auto. }
    exists s, low. rewrite Hp, Hd, Hpr.
    repeat (split; trivial).
    + apply (first_min_row_window_min Hlow).
    + intros r Hr Heq.
      eapply first_min_row_least_key with (key := @Stocks.td Q); eauto.
      apply StronglySorted_filter, phase_chunk_sorted.
Qed.

Ltac by_eval := vm_compute; first [reflexivity | discriminate | lia].

Lemma ticker_distinct (n : nat) :
  distinctb (map fst (Scenario.ticker n)) = true ->
  NoDup (map fst (Scenario.ticker n)).
Proof. apply distinctb_NoDup. Qed.

(** C1 at the five-point series (top at day 200) and at a ticker of 210
    trading days. *)
Lemma support_verdict_strict_witness :
  (exists s late,
      BtcSupport.cycle_support
        (BtcSupport.load_btc Scenario.series_30) Scenario.cycle_200 = Ok s
      /\ BtcSupport.bear_low_pct s = Some late
      /\ (BtcSupport.held s = Some true <-> BtcSupport.low_pct s < late))
  /\
  (exists s late,
      Stocks.phase_support (Scenario.ticker 210) 0 = Stocks.Reported s
      /\ Stocks.after_low s = Some late
      /\ (Stocks.held s = Some true <-> Stocks.low_pct s < late)).
Proof.
  split.
  - destruct (proj1 support_verdict_strict
                Scenario.series_30 Scenario.cycle_200)
      as [s [late [Hs [_ [Hl [_ [Ht _]]]]]]]; [by_eval | by_eval |].
    exists s, late. auto.
  - destruct (proj2 support_verdict_strict (Scenario.ticker 210) 0%Z)
      as [s [late [Hs [_ [Hl [_ [Ht _]]]]]]];
      [apply ticker_distinct; by_eval | by_eval | by_eval |].
    exists s, late. auto.
Defined.

(** C2 at the five-point series with a top at day 900, and at a ticker of 12
    trading days. *)
Lemma empty_late_window_no_verdict_witness :
  (exists s,
      BtcSupport.cycle_support
        (BtcSupport.load_btc Scenario.series_30)
        {| BtcSupport.halving := 0; BtcSupport.top := 900;
           BtcSupport.top_price := 100; BtcSupport.confirmed := true;
           BtcSupport.exclude := false |} = Ok s
      /\ BtcSupport.held s = None /\ BtcSupport.bear_low_pct s = None)
  /\
  (exists s,
      Stocks.phase_support (Scenario.ticker 12) 0 = Stocks.Reported s
      /\ Stocks.held s = None /\ Stocks.after_low s = None).
Proof.
  split.
  - destruct (proj1 empty_late_window_no_verdict
                Scenario.series_30
                {| BtcSupport.halving := 0; BtcSupport.top := 900;
                   BtcSupport.top_price := 100; BtcSupport.confirmed := true;
                   BtcSupport.exclude := false |})
      as [s [Hs [Hh [Hl _]]]]; [by_eval | by_eval |].
    exists s. auto.
  - destruct (proj2 empty_late_window_no_verdict (Scenario.ticker 12) 0%Z)
      as [s [Hs [Hh [Hl _]]]];
      [apply ticker_distinct; by_eval | by_eval | by_eval |].
    exists s. auto.
Defined.

(** C3 at the five-point series and at a ticker of 210 trading days. *)
Lemma early_extremum_first_minimum_witness :
  (exists s,
      BtcSupport.cycle_support
        (BtcSupport.load_btc Scenario.series_30) Scenario.cycle_200 = Ok s
      /\ forall r,
        In r (BtcSupport.accum
                (BtcSupport.load_btc Scenario.series_30) Scenario.cycle_200) ->
        BtcSupport.pct r == BtcSupport.low_pct s ->
        (BtcSupport.low_day s <= BtcSupport.days r)%Z)
  /\
  (exists s,
      Stocks.phase_support (Scenario.ticker 210) 0 = Stocks.Reported s
      /\ forall r,
        In r (Stocks.first200 (phase_chunk (Scenario.ticker 210) 0)) ->
        Stocks.pct r == Stocks.low_pct s ->
        (Stocks.low_td s <= Stocks.td r)%Z).
Proof.
  split.
  - destruct (proj1 early_extremum_first_minimum
                Scenario.series_30 Scenario.cycle_200)
      as [s [low [Hs [_ [_ [_ [_ [_ Hfirst]]]]]]]]; [by_eval |].
    exists s. auto.
  - destruct (proj2 early_extremum_first_minimum (Scenario.ticker 210) 0%Z)
      as [s [low [Hs [_ [_ [_ [_ [_ Hfirst]]]]]]]];
      [apply ticker_distinct; by_eval | by_eval |].
    exists s. auto.
Defined.

(** ** The worked scenario *)

(** C5.  Series (0,100) (50,40) (200,60) (400,90) (800,30), anchor at day 0,
    reference price 100, early window up to day 200, late window beyond day
    200: the early extremum is day 50 at -60 percent, the late extremum is
    day 800 at -70 percent, the verdict is false; with 70 as the last value
    the late extremum is at -30 percent and the verdict is true.  The first
    two conjuncts are over the rationals, the last two over binary64, where
    the three percents are exact. *)
Theorem scenario_support :
  (exists s late,
      BtcSupport.cycle_support
        (BtcSupport.load_btc Scenario.series_30) Scenario.cycle_200 = Ok s
      /\ BtcSupport.low_day s = 50%Z
      /\ BtcSupport.low_pct s == - (60)
      /\ BtcSupport.bear_low_day s = Some 800%Z
      /\ BtcSupport.bear_low_pct s = Some late
      /\ late == - (70)
      /\ BtcSupport.held s = Some false)
  /\
  (exists s late,
      BtcSupport.cycle_support
        (BtcSupport.load_btc Scenario.series_70) Scenario.cycle_200 = Ok s
      /\ BtcSupport.low_day s = 50%Z
      /\ BtcSupport.low_pct s == - (60)
      /\ BtcSupport.bear_low_day s = Some 800%Z
      /\ BtcSupport.bear_low_pct s = Some late
      /\ late == - (30)
      /\ BtcSupport.held s = Some true)
  /\
  BtcSupport.cycle_support
    (BtcSupport.load_btc Scenario.series_30f) Scenario.cycle_200
  = Ok {| BtcSupport.low_pct := (-60)%float;
          BtcSupport.low_day := 50;
          BtcSupport.low_price := 40%float;
          BtcSupport.bear_low_pct := Some (-70)%float;
          BtcSupport.bear_low_day := Some 800%Z;
          BtcSupport.bear_low_price := Some 30%float;
          BtcSupport.held := Some false |}
  /\
  BtcSupport.cycle_support
    (BtcSupport.load_btc Scenario.series_70f) Scenario.cycle_200
  = Ok {| BtcSupport.low_pct := (-60)%float;
          BtcSupport.low_day := 50;
          BtcSupport.low_price := 40%float;
          BtcSupport.bear_low_pct := Some (-30)%float;
          BtcSupport.bear_low_day := Some 800%Z;
          BtcSupport.bear_low_price := Some 70%float;
          BtcSupport.held := Some true |}.
Proof.
  split; [|split; [|split]].
  - eexists. eexists. split; [vm_compute; reflexivity|].
    simpl. repeat split; reflexivity.
  - eexists. eexists. split; [vm_compute; reflexivity|].
    simpl. repeat split; reflexivity.
  - vm_compute. reflexivity.
  - vm_compute. reflexivity.
Qed.

(** ** Percent and value *)

Section PercentFacts.


Lemma percent_at_reference (v ref : Q) :
  ~ ref == 0 -> v == ref -> BtcSupport.percent v ref == 0.
Proof.
  intros Hnz Heq. unfold BtcSupport.percent. simpl.
  rewrite Heq. field. trivial.
Qed.



End PercentFacts.




(** ** The reference price is not checked *)

(** Against C4: with the reference price -100 the normalisation and the
    detection go through and report percents (no exception), and with the
    reference price 0 in binary64 the division gives infinity, which is
    reported as the accumulation low. *)
Lemma nonpositive_reference_accepted :
  (BtcSupport.top_price Scenario.cycle_neg <= 0
   /\ raises (BtcSupport.cycle_support
                (BtcSupport.load_btc Scenario.series_30) Scenario.cycle_neg)
      = false
   /\ exists s,
       BtcSupport.cycle_support
         (BtcSupport.load_btc Scenario.series_30) Scenario.cycle_neg = Ok s
       /\ BtcSupport.low_pct s == - (200))
  /\
  (BtcSupport.top_price Scenario.cycle_zero = 0%float
   /\ BtcSupport.cycle_support
        (BtcSupport.load_btc Scenario.series_30f) Scenario.cycle_zero
      = Ok {| BtcSupport.low_pct := infinity;
              BtcSupport.low_day := 0;
              BtcSupport.low_price := 100%float;
              BtcSupport.bear_low_pct := Some infinity;
              BtcSupport.bear_low_day := Some 400%Z;
              BtcSupport.bear_low_price := Some 90%float;
              BtcSupport.held := Some false |}).
Proof.
  split; split.
  - discriminate.
  - split; [vm_compute; reflexivity|].
    eexists. split; [vm_compute; reflexivity|]. reflexivity.
  - reflexivity.
  - vm_compute. reflexivity.
Qed.

(** ** Empty windows and empty series *)

Section EmptyWindows.
Context {F : Type} `{Numeric F}.

(** The exception of one cycle ends the BTC run: the cycles before it have
    been reported, the cycles after it are not reached. *)
Lemma run_raise (btc : list (Z * BtcSupport.PriceRow F))
      (before : list (BtcSupport.Cycle F)) (c : BtcSupport.Cycle F)
      (after : list (BtcSupport.Cycle F))
      (reports : list (BtcSupport.Support F)) (e : exn) :
  Forall2 (fun c' s => BtcSupport.cycle_support btc c' = Ok s)
          before reports ->
  BtcSupport.cycle_support btc c = Raise e ->
  BtcSupport.run btc (before ++ c :: after) = (reports, Some e).
Proof.
  intros Hok Hraise.
  induction Hok as [|c' s cs ss Hc _ IH]; simpl.
  - rewrite Hraise. reflexivity.
  - rewrite Hc, IH. reflexivity.
Qed.

(** In the stocks script the early window is empty only when the slice
    is. *)
Lemma first200_empty (df : list (Z * F)) (b : Z) :
  Stocks.first200 (phase_chunk df b) = [] -> Stocks.slice df b = [].
Proof.
  unfold phase_chunk.
  destruct (Stocks.slice df b) as [|first rest]; trivial.
  unfold Stocks.first200, Stocks.chunk_of. simpl. discriminate.
Qed.

End EmptyWindows.

(** Against C7: on an empty download the phase of the stocks script is
    skipped, not failed, and the run over the three phases of a ticker ends
    without an exception and without a report. *)
Lemma empty_series_skipped :
  Stocks.first200 (phase_chunk (@nil (Z * Q)) 12156) = []
  /\ Stocks.phase_support (@nil (Z * Q)) 12156 = Stocks.Skipped
  /\ (forall e, Stocks.phase_support (@nil (Z * Q)) 12156 <> Stocks.Raised e)
  /\ Stocks.run (@nil (Z * Q)) [12156; 14264; 19360]%Z = ([], None).
Proof.
  repeat split; try reflexivity. discriminate.
Qed.

(** C7, amended.  In btc_accumulation_support.py a cycle whose early window
    has no point, in particular any cycle on an empty series, raises the
    [ValueError] of [idxmin], and that exception ends the run after the
    reports of the cycles before it.  In stocks_accumulation.py a phase
    whose slice has fewer than ten rows, in particular one whose early
    window is empty or whose series is empty, is skipped without an error
    and the run goes on with the next phase. *)
Theorem empty_early_window_outcome :
  forall (F : Type) (N : Numeric F),
  (forall (btc : list (Z * BtcSupport.PriceRow F)) (c : BtcSupport.Cycle F),
      BtcSupport.accum btc c = [] ->
      BtcSupport.cycle_support btc c = Raise ValueError
      /\ forall before after reports,
        Forall2 (fun c' s => BtcSupport.cycle_support btc c' = Ok s)
                before reports ->
        BtcSupport.run btc (before ++ c :: after)
        = (reports, Some ValueError))
  /\
  (forall c : BtcSupport.Cycle F,
      BtcSupport.cycle_support (BtcSupport.load_btc []) c = Raise ValueError)
  /\
  (forall (df : list (Z * F)) (b : Z),
      (List.length (Stocks.slice df b) < 10)%nat ->
      Stocks.phase_support df b = Stocks.Skipped
      /\ forall bs, Stocks.run df (b :: bs) = Stocks.run df bs)
  /\
  (forall (df : list (Z * F)) (b : Z),
      Stocks.first200 (phase_chunk df b) = [] ->
      Stocks.phase_support df b = Stocks.Skipped)
  /\
  (forall b : Z, Stocks.phase_support (@nil (Z * F)) b = Stocks.Skipped).
Proof.
  intros F N.
  assert (forall (df : list (Z * F)) (b : Z),
             (List.length (Stocks.slice df b) < 10)%nat ->
             Stocks.phase_support df b = Stocks.Skipped
             /\ forall bs, Stocks.run df (b :: bs) = Stocks.run df bs)
    as Hskip.
  { intros df b Hlt. pose proof (phase_support_skip df b Hlt) as Hs.
    split; trivial. intro bs. simpl. rewrite Hs. reflexivity. }
  split; [|split; [|split; [|split]]].
  - intros btc c Ha.
    pose proof (cycle_support_no_early btc c Ha) as Hr.
    split; trivial.
    intros before after reports Hok. apply run_raise; trivial.
  - intro c. reflexivity.
  - exact Hskip.
  - intros df b He. apply Hskip.
    rewrite (first200_empty df b He). simpl. lia.
  - intro b. reflexivity.
Qed.

(** C7, amended, over the rationals: the five-point series with a halving
    at day 2000 (nothing in the slice), after one cycle that reports; and a
    ticker of nine trading days. *)
Lemma empty_early_window_outcome_witness :
  (exists s,
      BtcSupport.run (BtcSupport.load_btc Scenario.series_30)
        [Scenario.cycle_200;
         {| BtcSupport.halving := 2000; BtcSupport.top := 2200;
            BtcSupport.top_price := 100; BtcSupport.confirmed := true;
            BtcSupport.exclude := false |};
         Scenario.cycle_200]
      = ([s], Some ValueError))
  /\
  Stocks.phase_support (Scenario.ticker 9) 0 = Stocks.Skipped.
Proof.
  split.
  - eexists.
    refine (proj2 (proj1 (empty_early_window_outcome Numeric_Q)
                     (BtcSupport.load_btc Scenario.series_30)
                     {| BtcSupport.halving := 2000; BtcSupport.top := 2200;
                        BtcSupport.top_price := 100;
                        BtcSupport.confirmed := true;
                        BtcSupport.exclude := false |} _)
              [Scenario.cycle_200] [Scenario.cycle_200] _ _).
    + reflexivity.
    + constructor; [vm_compute; reflexivity | constructor].
  - refine (proj1 (proj1 (proj2 (proj2
              (empty_early_window_outcome Numeric_Q)))
              (Scenario.ticker 9) 0%Z _)).
    by_eval.
Defined.

(** ** The MVRV zones *)

(** C9.  [mvrv_zone] gives every rational one of four labels: EXTREME FEAR
    exactly below 0, FAIR VALUE exactly on [0, 3.7), CAUTION exactly on
    [3.7, 7), SELL ZONE exactly from 7 on. *)
Theorem mvrv_zone_partition (v : Q) :
  (fst (Dashboard.mvrv_zone v) = "EXTREME FEAR"%string <-> v < 0)
  /\ (fst (Dashboard.mvrv_zone v) = "FAIR VALUE"%string
      <-> 0 <= v /\ v < 37 # 10)
  /\ (fst (Dashboard.mvrv_zone v) = "CAUTION"%string
      <-> 37 # 10 <= v /\ v < 7)
  /\ (fst (Dashboard.mvrv_zone v) = "SELL ZONE"%string <-> 7 <= v)
  /\ In (fst (Dashboard.mvrv_zone v))
        ["EXTREME FEAR"; "FAIR VALUE"; "CAUTION"; "SELL ZONE"]%string.
Proof.
  unfold Dashboard.mvrv_zone.
  destruct (Qltb v 0) eqn:E0;
    [apply Qltb_lt in E0 | apply Qltb_ge in E0;
     destruct (Qltb v (37 # 10)) eqn:E1;
     [apply Qltb_lt in E1 | apply Qltb_ge in E1;
      destruct (Qltb v 7) eqn:E2;
      [apply Qltb_lt in E2 | apply Qltb_ge in E2]]];
    simpl; repeat split;
    try (intro; discriminate); try reflexivity; try lra;
    try (intros [? ?]; exfalso; lra); try (intro; exfalso; lra);
    try congruence; auto 6.
Qed.

(** ** The long-term-holder supply *)

(** C10.  A row is kept by either loader exactly when its supply field
    coerces to a number and that number is strictly positive; a field that
    does not parse, a missing one, a zero or a negative one drops the row.
    First conjunct: btc_dashboard.py; second: btc_onchain_dashboard.py. *)
Theorem lth_supply_positive (parse_number : string -> option Q)
        (raw : list Dashboard.LthRecord) :
  (forall r,
      In r (Dashboard.load_lth parse_number raw)
      <-> In r (Dashboard.coerce parse_number raw)
          /\ exists q, Dashboard.lth_supply r = Some q /\ 0 < q)
  /\
  (forall r,
      In r (Dashboard.load_lth_onchain parse_number raw)
      <-> In r (Dashboard.coerce parse_number raw)
          /\ exists q, Dashboard.lth_supply r = Some q /\ 0 < q).
Proof.
  assert (forall v, Dashboard.positive v = true
                    <-> exists q, v = Some q /\ 0 < q) as Hpos.
  { intros [q|]; simpl.
    - rewrite Qltb_lt. split.
      + intro Hq. exists q. auto.
      + intros [q' [[= <-] Hq]]. trivial.
    - split; [discriminate|]. intros [q [Hq _]]. discriminate. }
  split; intro r.
  - unfold Dashboard.load_lth. rewrite filter_In, Hpos. tauto.
  - unfold Dashboard.load_lth_onchain.
    rewrite filter_In, sort_values_In, filter_In, Hpos.
    split; [tauto|].
    intros [Hin [q [Hq Hlt]]]. repeat split; trivial.
    + rewrite Hq. reflexivity.
    + exists q. auto.
Qed.

(** ** Remarks on concrete runs *)

(** The five points of the scenario, given to the stocks script as a
    download, are fewer than ten rows: the phase is skipped. *)
Lemma scenario_stocks_skipped :
  Stocks.phase_support
    [(0%Z, 100); (50%Z, 40); (200%Z, 60); (400%Z, 90); (800%Z, 30)] 0
  = Stocks.Skipped (F := Q).
Proof. reflexivity. Qed.

(** In binary64 the conversion back is not exact: 15476.5 against the top
    price 69000 comes back as another number, here within 1e-9 of the value
    in relative terms. *)
Lemma binary64_roundtrip_inexact :
  let v := 15476.5%float in
  let back :=
    spec_percent_to_value 69000%float (BtcSupport.percent v 69000%float) in
  PrimFloat.eqb back v = false
  /\ PrimFloat.leb (PrimFloat.abs (back - v))
                   (0x1.12e0be826d695p-30 * PrimFloat.abs v) = true.
Proof. vm_compute. split; reflexivity. Qed.

(** In binary64 a value equal to the reference price has percent 0. *)
Lemma binary64_percent_at_reference :
  BtcSupport.percent 69000%float 69000%float = 0%float
  /\ BtcSupport.percent 124774%float 124774%float = 0%float.
Proof. vm_compute. split; reflexivity. Qed.

(** In binary64 two prices one unit in the last place apart can get the same
    percent, and the first of them is then the reported low.  Against the
    top price 124774, 54000 and the next number above it: the higher price,
    which comes first, is reported; so it is in the stocks script, against
    a first price of 124774. *)
Lemma binary64_equal_percents :
  BtcSupport.percent 54000%float 124774%float
  = BtcSupport.percent (next_up 54000%float) 124774%float
  /\ (exists s,
         BtcSupport.cycle_support
           (BtcSupport.load_btc
              [ {| BtcSupport.date := 10;
                   BtcSupport.btc_price := next_up 54000%float |};
                {| BtcSupport.date := 20;
                   BtcSupport.btc_price := 54000%float |} ])
           {| BtcSupport.halving := 0; BtcSupport.top := 200;
              BtcSupport.top_price := 124774%float;
              BtcSupport.confirmed := true; BtcSupport.exclude := false |}
         = Ok s
         /\ BtcSupport.low_day s = 10%Z
         /\ PrimFloat.ltb 54000%float (BtcSupport.low_price s) = true)
  /\ (exists s,
         Stocks.phase_support
           ((0%Z, 124774%float) :: (1%Z, next_up 54000%float)
              :: (2%Z, 54000%float)
              :: map (fun i => (Z.of_nat i, 60000%float)) (seq 3 9)) 0
         = Stocks.Reported s
         /\ Stocks.low_td s = 1%Z
         /\ PrimFloat.ltb 54000%float (Stocks.low_price s) = true).
Proof.
  split; [vm_compute; reflexivity|].
  split; eexists; (split; [vm_compute; reflexivity|]); split; reflexivity.
Qed.

(** Against the top price -124774 the same happens to 70000 and the next
    number above it: the lower of the two, which comes first, is reported
    as the low. *)
Lemma binary64_equal_percents_negative :
  BtcSupport.percent 70000%float (-124774)%float
  = BtcSupport.percent (next_up 70000%float) (-124774)%float
  /\ exists s,
      BtcSupport.cycle_support
        (BtcSupport.load_btc
           [ {| BtcSupport.date := 10; BtcSupport.btc_price := 70000%float |};
             {| BtcSupport.date := 20;
                BtcSupport.btc_price := next_up 70000%float |} ])
        {| BtcSupport.halving := 0; BtcSupport.top := 200;
           BtcSupport.top_price := (-124774)%float;
           BtcSupport.confirmed := true; BtcSupport.exclude := false |}
      = Ok s
      /\ PrimFloat.ltb (BtcSupport.low_price s) (next_up 70000%float) = true.
Proof.
  split; [vm_compute; reflexivity|].
  eexists. split; [vm_compute; reflexivity|]. reflexivity.
Qed.

(** In binary64 a window whose prices are all NaN ends the loop body with
    the exception of [idxmin], though the window has rows: the early window
    of the first file, the late window of the second. *)
Lemma binary64_nan_window_raises :
  let c := {| BtcSupport.halving := 0; BtcSupport.top := 200;
              BtcSupport.top_price := 124774%float;
              BtcSupport.confirmed := true; BtcSupport.exclude := false |} in
  BtcSupport.cycle_support
    (BtcSupport.load_btc
       [ {| BtcSupport.date := 10; BtcSupport.btc_price := nan |};
         {| BtcSupport.date := 300; BtcSupport.btc_price := 70000%float |} ]) c
  = Raise ValueError
  /\ BtcSupport.cycle_support
       (BtcSupport.load_btc
          [ {| BtcSupport.date := 10; BtcSupport.btc_price := 100%float |};
            {| BtcSupport.date := 300; BtcSupport.btc_price := nan |} ]) c
     = Raise ValueError.
Proof. vm_compute. split; reflexivity. Qed.

(** Why the dates of a download are taken distinct: when the date of the
    accumulation low occurs twice, [.loc] selects two rows and [float()] of
    the selection raises. *)
Lemma duplicate_date_raises :
  Stocks.phase_support
    ((3%Z, 70) :: Scenario.ticker 12) 0
  = Stocks.Raised TypeError.
Proof. vm_compute. reflexivity. Qed.

(** ** The loop bodies, read backwards from their results *)

Section Inversion.
Import Pandas.
Context {F : Type} `{Numeric F}.

Lemma argmin_acc_In (s : list (Z * F)) (best : Z * F) :
  In (argmin_acc best s) (best :: s).
Proof.
  revert best. induction s as [|x s IH]; intro best; simpl.
  - auto.
  - destruct (IH (if nltb (snd x) (snd best) then x else best)) as [E|Hin].
    + destruct (nltb (snd x) (snd best)); rewrite <- E; auto.
    + auto.
Qed.

Lemma dropna_In (s : list (Z * F)) (x : Z * F) : In x (dropna s) -> In x s.
Proof. unfold dropna. intro Hx. apply filter_In in Hx. tauto. Qed.

(** [idxmin] and [min] name one entry of the column. *)
Lemma idxmin_smin_entry (s : list (Z * F)) (l : Z) (v : F) :
  idxmin s = Ok l -> smin s = Some v -> In (l, v) s.
Proof.
  unfold idxmin, smin. destruct (dropna s) as [|x s'] eqn:E; [discriminate|].
  intros [= <-] [= <-]. apply dropna_In. rewrite E.
  rewrite <- surjective_pairing. apply argmin_acc_In.
Qed.

Lemma idxmin_smin_some (s : list (Z * F)) (l : Z) :
  idxmin s = Ok l -> exists v, smin s = Some v.
Proof.
  unfold idxmin, smin. destruct (dropna s); [discriminate|]. eauto.
Qed.

Variable R : Type.
Variable ix : R -> Z.

Lemma loc_row_In (rows : list R) (l : Z) (r : R) :
  loc_row ix rows l = Ok r -> In r rows /\ ix r = l.
Proof.
  unfold loc_row, scalar.
  destruct (loc ix rows l) as [|a [|b rest]] eqn:E; try discriminate.
  intros [= <-].
  assert (In a (loc ix rows l)) as Ha by (rewrite E; left; trivial).
  unfold loc in Ha. apply filter_In in Ha.
  rewrite Z.eqb_eq in Ha. trivial.
Qed.

(** When the lookup by label yields a scalar, no other row has the
    label. *)
Lemma loc_row_only (rows : list R) (l : Z) (r r' : R) :
  loc_row ix rows l = Ok r -> In r' rows -> ix r' = l -> r' = r.
Proof.
  unfold loc_row, scalar.
  destruct (loc ix rows l) as [|a [|b rest]] eqn:E; try discriminate.
  intros [= <-] Hin Hl.
  assert (In r' (loc ix rows l)) as Hr.
  { unfold loc. apply filter_In. rewrite Z.eqb_eq. auto. }
  rewrite E in Hr. destruct Hr as [Hr|[]]. auto.
Qed.

(** The row that [.loc] returns for the label of [idxmin] carries the value
    of [min]. *)
Lemma loc_row_smin (f : R -> F) (rows : list R) (l : Z) (v : F) (r : R) :
  idxmin (col ix f rows) = Ok l ->
  smin (col ix f rows) = Some v ->
  loc_row ix rows l = Ok r ->
  f r = v.
Proof.
  intros Hi Hm Hl.
  assert (In (l, v) (col ix f rows)) as Hin
    by (eapply idxmin_smin_entry; eauto).
  unfold col in Hin. apply in_map_iff in Hin.
  destruct Hin as [r' [[= Hix Hf] Hr']].
  assert (r' = r) as <- by (eapply loc_row_only; eauto). trivial.
Qed.

End Inversion.

Section SupportInversion.
Context {F : Type} `{Numeric F}.

(** What a returned report of the BTC loop body is made of. *)
Lemma cycle_support_inv (btc : list (Z * BtcSupport.PriceRow F))
      (c : BtcSupport.Cycle F) (s : BtcSupport.Support F) :
  BtcSupport.cycle_support btc c = Ok s ->
  exists low,
    In low (BtcSupport.accum btc c)
    /\ Pandas.idxmin
         (Pandas.col (@BtcSupport.ix F) (@BtcSupport.pct F)
                     (BtcSupport.accum btc c)) = Ok (BtcSupport.ix low)
    /\ Pandas.loc_row (@BtcSupport.ix F) (BtcSupport.accum btc c)
                      (BtcSupport.ix low) = Ok low
    /\ BtcSupport.low_pct s = BtcSupport.pct low
    /\ BtcSupport.low_day s = BtcSupport.days low
    /\ BtcSupport.low_price s = BtcSupport.cprice low
    /\ match BtcSupport.post_top btc c with
       | [] =>
           BtcSupport.bear_low_pct s = None
           /\ BtcSupport.bear_low_day s = None
           /\ BtcSupport.bear_low_price s = None
           /\ BtcSupport.held s = None
       | _ :: _ =>
           exists bear,
             In bear (BtcSupport.post_top btc c)
             /\ Pandas.idxmin
                  (Pandas.col (@BtcSupport.ix F) (@BtcSupport.pct F)
                              (BtcSupport.post_top btc c))
                = Ok (BtcSupport.ix bear)
             /\ Pandas.loc_row (@BtcSupport.ix F) (BtcSupport.post_top btc c)
                               (BtcSupport.ix bear) = Ok bear
             /\ BtcSupport.bear_low_pct s = Some (BtcSupport.pct bear)
             /\ BtcSupport.bear_low_day s = Some (BtcSupport.days bear)
             /\ BtcSupport.bear_low_price s = Some (BtcSupport.cprice bear)
             /\ BtcSupport.held s
                = Some (ngtb (BtcSupport.pct bear) (BtcSupport.pct low))
       end.
Proof.
  unfold BtcSupport.cycle_support.
  destruct (Pandas.idxmin _) as [l|e] eqn:Ei; [|discriminate]. cbn [bind].
  destruct (Pandas.loc_row _ _ l) as [low|e] eqn:El; [|discriminate].
  cbn [bind].
  pose proof El as Hlow. apply loc_row_In in Hlow.
  destruct Hlow as [Hlow Hl]. subst l.
  destruct (BtcSupport.post_top btc c) as [|p ps] eqn:Ep.
  - intro Hs. exists low. injection Hs as <-. simpl. repeat split; trivial.
  - destruct (Pandas.smin _) as [m|] eqn:Em; [|discriminate].
    destruct (Pandas.idxmin (Pandas.col _ _ (p :: ps))) as [l'|e] eqn:Ei';
      [|discriminate].
    cbn [bind].
    destruct (Pandas.loc_row _ (p :: ps) l') as [bear|e] eqn:El';
      [|discriminate].
    cbn [bind].
    assert (BtcSupport.pct bear = m) as Hm
      by (eapply loc_row_smin; eauto).
    subst m.
    pose proof El' as Hbear. apply loc_row_In in Hbear.
    destruct Hbear as [Hbear Hl']. subst l'.
    intro Hs. exists low. injection Hs as <-. simpl.
    repeat split; trivial.
    exists bear. repeat split; trivial.
Qed.

(** What a reported phase of the stocks script is made of. *)
Lemma phase_support_inv (df : list (Z * F)) (b : Z) (s : Stocks.Support F) :
  Stocks.phase_support df b = Stocks.Reported s ->
  exists first low,
    hd_error (Stocks.slice df b) = Some first
    /\ (10 <= List.length (Stocks.slice df b))%nat
    /\ In low (Stocks.first200 (phase_chunk df b))
    /\ Pandas.idxmin
         (Pandas.col (@Stocks.ix F) (@Stocks.pct F)
                     (Stocks.first200 (phase_chunk df b)))
       = Ok (Stocks.ix low)
    /\ Pandas.loc_row (@Stocks.ix F) (Stocks.first200 (phase_chunk df b))
                      (Stocks.ix low) = Ok low
    /\ Stocks.bottom_price s = snd first
    /\ Stocks.low_pct s = Stocks.pct low
    /\ Stocks.low_td s = Stocks.td low
    /\ Stocks.low_price s = Stocks.price low
    /\ match Stocks.after200 (phase_chunk df b) with
       | [] =>
           Stocks.after_low s = None
           /\ Stocks.after_low_td s = None
           /\ Stocks.held s = None
       | _ :: _ =>
           exists after,
             In after (Stocks.after200 (phase_chunk df b))
             /\ Pandas.idxmin
                  (Pandas.col (@Stocks.ix F) (@Stocks.pct F)
                              (Stocks.after200 (phase_chunk df b)))
                = Ok (Stocks.ix after)
             /\ Pandas.loc_row (@Stocks.ix F)
                               (Stocks.after200 (phase_chunk df b))
                               (Stocks.ix after) = Ok after
             /\ Stocks.after_low s = Some (Stocks.pct after)
             /\ Stocks.after_low_td s = Some (Stocks.td after)
             /\ Stocks.held s
                = Some (ngtb (Stocks.pct after) (Stocks.pct low))
       end.
Proof.
  unfold Stocks.phase_support, phase_chunk.
  destruct (Stocks.slice df b) as [|first rest] eqn:Es; [discriminate|].
  destruct (Nat.ltb_spec (List.length (first :: rest)) 10) as [Hlt|Hge];
    [discriminate|].
  set (ch := Stocks.chunk_of (first :: rest) (snd first)).
  destruct (Pandas.idxmin _) as [l|e] eqn:Ei; [|discriminate]. cbn [bind].
  destruct (Pandas.loc_row _ _ l) as [low|e] eqn:El; [|discriminate].
  cbn [bind].
  pose proof El as Hlow. apply loc_row_In in Hlow.
  destruct Hlow as [Hlow Hl]. subst l.
  destruct (Stocks.after200 ch) as [|p ps] eqn:Ep.
  - cbn [Stocks.lift]. intro Hs. exists first, low.
    injection Hs as <-. simpl. repeat split; trivial.
  - destruct (Pandas.smin _) as [m|] eqn:Em; [|discriminate].
    destruct (Pandas.idxmin (Pandas.col _ _ (p :: ps))) as [l'|e] eqn:Ei';
      [|discriminate].
    cbn [bind].
    destruct (Pandas.loc_row _ (p :: ps) l') as [after|e] eqn:El';
      [|discriminate].
    cbn [bind Stocks.lift].
    assert (Stocks.pct after = m) as Hm
      by (eapply loc_row_smin; eauto).
    subst m.
    pose proof El' as Hafter. apply loc_row_In in Hafter.
    destruct Hafter as [Hafter Hl']. subst l'.
    intro Hs. exists first, low. injection Hs as <-. simpl.
    repeat split; trivial.
    exists after. repeat split; trivial.
Qed.

End SupportInversion.

(** ** Where the exceptions of the loop bodies come from *)

Section Raises.
Import Pandas.
Context {F : Type} `{Numeric F}.

Variable R : Type.
Variable ix : R -> Z.
Variable f : R -> F.

(** Nothing is left of a column after [dropna] exactly when every value of
    it is NaN (an empty column included). *)
Lemma dropna_nil (rows : list R) :
  dropna (col ix f rows) = [] <-> forall r, In r rows -> nisnan (f r) = true.
Proof.
  unfold dropna, col. induction rows as [|a rows IH]; simpl.
  - split; [intros _ r []|reflexivity].
  - destruct (nisnan (f a)) eqn:Ea; simpl.
    + rewrite IH. split.
      * intros Hall r [<-|Hr]; auto.
      * intros Hall r Hr. auto.
    + split; [discriminate|]. intro Hall.
      rewrite (Hall a) in Ea by auto. discriminate.
Qed.

Lemma idxmin_raises (rows : list R) :
  raises (idxmin (col ix f rows)) = true
  <-> forall r, In r rows -> nisnan (f r) = true.
Proof.
  rewrite <- dropna_nil. unfold idxmin.
  destruct (dropna (col ix f rows)); simpl; split; congruence.
Qed.

Lemma smin_none (rows : list R) :
  smin (col ix f rows) = None
  <-> forall r, In r rows -> nisnan (f r) = true.
Proof.
  rewrite <- dropna_nil. unfold smin.
  destruct (dropna (col ix f rows)); simpl; split; congruence.
Qed.

(** With distinct labels, the [.loc] of the label that [idxmin] returned
    finds its row. *)
Lemma idxmin_loc (rows : list R) (l : Z) :
  NoDup (map ix rows) ->
  idxmin (col ix f rows) = Ok l ->
  exists r, loc_row ix rows l = Ok r.
Proof.
  intros Hnd. unfold idxmin.
  destruct (dropna (col ix f rows)) as [|x s] eqn:E; [discriminate|].
  intros [= <-].
  assert (In (argmin_acc x s) (col ix f rows)) as Hin.
  { apply dropna_In. rewrite E. apply argmin_acc_In. }
  unfold col in Hin. apply in_map_iff in Hin.
  destruct Hin as [r [Hr Hin]]. exists r.
  rewrite <- Hr. simpl. apply loc_row_distinct; trivial.
Qed.

End Raises.

Section RaisesBodies.
Context {F : Type} `{Numeric F}.

Lemma chunk_labels_any (btc : list (Z * BtcSupport.PriceRow F))
      (c : BtcSupport.Cycle F) :
  NoDup (map fst btc) ->
  NoDup (map (@BtcSupport.ix F) (BtcSupport.chunk btc c)).
Proof.
  intro Hnd. unfold BtcSupport.chunk. rewrite map_map. simpl.
  apply NoDup_map_filter. trivial.
Qed.

Lemma phase_chunk_labels_any (df : list (Z * F)) (b : Z) :
  NoDup (map fst df) ->
  NoDup (map (@Stocks.ix F) (phase_chunk df b)).
Proof.
  intro Hnd. unfold phase_chunk.
  assert (NoDup (map fst (Stocks.slice df b))) as Hs
    by (apply NoDup_map_filter; trivial).
  destruct (Stocks.slice df b) as [|first rest]; [constructor|].
  unfold Stocks.chunk_of. rewrite map_map. simpl.
  rewrite <- (with_td_fst (first :: rest) 0) in Hs.
  rewrite map_map in Hs. exact Hs.
Qed.

(** The BTC loop body raises exactly when a window it reduces holds no
    percent that is a number. *)
Lemma cycle_support_raises (btc : list (Z * BtcSupport.PriceRow F))
      (c : BtcSupport.Cycle F) :
  NoDup (map fst btc) ->
  (raises (BtcSupport.cycle_support btc c) = true
   <-> (forall r, In r (BtcSupport.accum btc c) ->
                  nisnan (BtcSupport.pct r) = true)
       \/ (BtcSupport.post_top btc c <> []
           /\ forall r, In r (BtcSupport.post_top btc c) ->
                        nisnan (BtcSupport.pct r) = true)).
Proof.
  intro Hnd.
  assert (NoDup (map (@BtcSupport.ix F) (BtcSupport.accum btc c))) as Hna
    by (apply NoDup_map_filter, chunk_labels_any; trivial).
  assert (NoDup (map (@BtcSupport.ix F) (BtcSupport.post_top btc c))) as Hnp
    by (apply NoDup_map_filter, chunk_labels_any; trivial).
  pose proof (idxmin_raises (@BtcSupport.ix F) (@BtcSupport.pct F)
                            (BtcSupport.accum btc c)) as Hearly.
  pose proof (smin_none (@BtcSupport.ix F) (@BtcSupport.pct F)
                        (BtcSupport.post_top btc c)) as Hlate.
  pose proof (idxmin_raises (@BtcSupport.ix F) (@BtcSupport.pct F)
                            (BtcSupport.post_top btc c)) as Hlate'.
  unfold BtcSupport.cycle_support.
  destruct (Pandas.idxmin
              (Pandas.col (@BtcSupport.ix F) (@BtcSupport.pct F)
                          (BtcSupport.accum btc c))) as [l|e] eqn:Ei.
  - destruct (idxmin_loc _ _ _ Hna Ei) as [low El]. cbn [bind]. rewrite El.
    cbn [bind]. simpl in Hearly.
    destruct (BtcSupport.post_top btc c) as [|p ps] eqn:Ep.
    + simpl. split; [discriminate|].
      intros [Hall|[Hne _]]; [|congruence].
      apply Hearly in Hall. discriminate.
    + destruct (Pandas.smin
                  (Pandas.col (@BtcSupport.ix F) (@BtcSupport.pct F) (p :: ps)))
        as [m|] eqn:Em.
      * destruct (Pandas.idxmin
                    (Pandas.col (@BtcSupport.ix F) (@BtcSupport.pct F)
                                (p :: ps))) as [l'|e'] eqn:Ei'.
        -- destruct (idxmin_loc _ _ _ Hnp Ei') as [bear El'].
           cbn [bind]. rewrite El'. cbn [bind]. simpl.
           split; [discriminate|].
           intros [Hall|[_ Hall]].
           ++ apply Hearly in Hall. discriminate.
           ++ apply Hlate in Hall. discriminate.
        -- cbn [bind]. simpl. split; [|reflexivity]. intros _.
           right. split; [discriminate|]. apply Hlate'. reflexivity.
      * simpl. split; [|reflexivity]. intros _.
        right. split; [discriminate|]. apply Hlate. reflexivity.
  - cbn [bind]. simpl. split; [|reflexivity]. intros _.
    left. apply Hearly. reflexivity.
Qed.

(** The same for a phase of the stocks script, once its slice has ten rows
    or more. *)
Lemma phase_support_raises (df : list (Z * F)) (b : Z) :
  NoDup (map fst df) ->
  ((exists e, Stocks.phase_support df b = Stocks.Raised e)
   <-> (10 <= List.length (Stocks.slice df b))%nat
       /\ ((forall r, In r (Stocks.first200 (phase_chunk df b)) ->
                      nisnan (Stocks.pct r) = true)
           \/ (Stocks.after200 (phase_chunk df b) <> []
               /\ forall r, In r (Stocks.after200 (phase_chunk df b)) ->
                            nisnan (Stocks.pct r) = true))).
Proof.
  intro Hnd.
  pose proof (@phase_chunk_labels_any df b Hnd) as Hch.
  assert (NoDup (map (@Stocks.ix F) (Stocks.first200 (phase_chunk df b))))
    as Hna by (apply NoDup_map_filter; trivial).
  assert (NoDup (map (@Stocks.ix F) (Stocks.after200 (phase_chunk df b))))
    as Hnp by (apply NoDup_map_filter; trivial).
  pose proof (idxmin_raises (@Stocks.ix F) (@Stocks.pct F)
                (Stocks.first200 (phase_chunk df b))) as Hearly.
  pose proof (smin_none (@Stocks.ix F) (@Stocks.pct F)
                (Stocks.after200 (phase_chunk df b))) as Hlate.
  pose proof (idxmin_raises (@Stocks.ix F) (@Stocks.pct F)
                (Stocks.after200 (phase_chunk df b))) as Hlate'.
  revert Hna Hnp Hearly Hlate Hlate'.
  unfold Stocks.phase_support, phase_chunk.
  destruct (Stocks.slice df b) as [|first rest] eqn:Es.
  - intros _ _ _ _ _. split; [intros [e He]; discriminate|].
    simpl. intros [Hlen _]. lia.
  - destruct (Nat.ltb_spec (List.length (first :: rest)) 10) as [Hlt|Hge].
    + intros _ _ _ _ _. split; [intros [e He]; discriminate|].
      intros [Hlen _]. lia.
    + set (ch := Stocks.chunk_of (first :: rest) (snd first)).
      intros Hna Hnp Hearly Hlate Hlate'.
      destruct (Pandas.idxmin
                  (Pandas.col (@Stocks.ix F) (@Stocks.pct F)
                              (Stocks.first200 ch))) as [l|e] eqn:Ei.
      * destruct (idxmin_loc _ _ _ Hna Ei) as [low El]. cbn [bind]. rewrite El.
        cbn [bind]. simpl in Hearly.
        destruct (Stocks.after200 ch) as [|p ps] eqn:Ep.
        -- cbn [Stocks.lift]. split; [intros [e He]; discriminate|].
           intros [_ [Hall|[Hne _]]]; [|congruence].
           apply Hearly in Hall. discriminate.
        -- destruct (Pandas.smin
                       (Pandas.col (@Stocks.ix F) (@Stocks.pct F) (p :: ps)))
             as [m|] eqn:Em.
           ++ destruct (Pandas.idxmin
                          (Pandas.col (@Stocks.ix F) (@Stocks.pct F)
                                      (p :: ps))) as [l'|e'] eqn:Ei'.
              ** destruct (idxmin_loc _ _ _ Hnp Ei') as [after El'].
                 cbn [bind]. rewrite El'. cbn [bind Stocks.lift].
                 split; [intros [e He]; discriminate|].
                 intros [_ [Hall|[_ Hall]]].
                 --- apply Hearly in Hall. discriminate.
                 --- apply Hlate in Hall. discriminate.
              ** cbn [bind Stocks.lift]. split; [|eauto]. intros _.
                 split; trivial.
                 right. split; [discriminate|]. apply Hlate'. reflexivity.
           ++ cbn [Stocks.lift]. split; [|eauto]. intros _.
              split; trivial.
              right. split; [discriminate|]. apply Hlate. reflexivity.
      * cbn [bind Stocks.lift]. split; [|eauto]. intros _.
        split; trivial.
        left. apply Hearly. reflexivity.
Qed.

End RaisesBodies.

(** ** Rows, offsets and windows, whatever the numeric type *)

Section Windows.
Context {F : Type} `{Numeric F}.

Lemma reset_index_from_covers {A} (l : list A) (n : Z) (a : A) :
  In a l -> exists k, In (k, a) (Pandas.reset_index_from n l).
Proof.
  revert n. induction l as [|x l IH]; simpl; intros n Ha; [contradiction|].
  destruct Ha as [->|Ha].
  - exists n. auto.
  - destruct (IH (n + 1)%Z Ha) as [k Hk]. exists k. auto.
Qed.

(** The rows of the BTC [chunk] are the rows of the file dated from the
    halving to the end of the slice. *)
Lemma chunk_rows (csv : list (BtcSupport.PriceRow F))
      (c : BtcSupport.Cycle F) (r : BtcSupport.ChunkRow F) :
  In r (BtcSupport.chunk (BtcSupport.load_btc csv) c) ->
  In {| BtcSupport.date := BtcSupport.cdate r;
        BtcSupport.btc_price := BtcSupport.cprice r |} csv
  /\ (BtcSupport.halving c <= BtcSupport.cdate r <= BtcSupport.cycle_end c)%Z
  /\ BtcSupport.days r = (BtcSupport.cdate r - BtcSupport.halving c)%Z
  /\ BtcSupport.pct r
     = BtcSupport.percent (BtcSupport.cprice r) (BtcSupport.top_price c).
Proof.
  unfold BtcSupport.chunk. intro Hr.
  apply in_map_iff in Hr. destruct Hr as [x [<- Hx]]. simpl.
  apply filter_In in Hx. destruct Hx as [Hx Hd].
  apply andb_true_iff in Hd. rewrite !Z.leb_le in Hd.
  apply reset_index_from_In in Hx. apply sort_values_In in Hx.
  destruct x as [l [dt p]]. simpl in *. auto.
Qed.

Lemma chunk_covers (csv : list (BtcSupport.PriceRow F))
      (c : BtcSupport.Cycle F) (row : BtcSupport.PriceRow F) :
  In row csv ->
  (BtcSupport.halving c <= BtcSupport.date row <= BtcSupport.cycle_end c)%Z ->
  exists r,
    In r (BtcSupport.chunk (BtcSupport.load_btc csv) c)
    /\ BtcSupport.cdate r = BtcSupport.date row
    /\ BtcSupport.cprice r = BtcSupport.btc_price row.
Proof.
  intros Hin Hd.
  assert (In row (Pandas.sort_values (@BtcSupport.date F) csv)) as Hs
    by (apply sort_values_In; trivial).
  destruct (reset_index_from_covers _ 0%Z _ Hs) as [k Hk].
  eexists. split.
  - unfold BtcSupport.chunk. apply in_map_iff. exists (k, row).
    split; [reflexivity|]. apply filter_In. split; [exact Hk|].
    simpl. apply andb_true_iff. rewrite !Z.leb_le. trivial.
  - simpl. auto.
Qed.

Lemma cycle_end_bound (c : BtcSupport.Cycle F) :
  (BtcSupport.cycle_end c <= BtcSupport.halving c + BtcSupport.PLOT_DAYS)%Z.
Proof.
  unfold BtcSupport.cycle_end. destruct (BtcSupport.confirmed c); lia.
Qed.

Lemma accum_rows (btc : list (Z * BtcSupport.PriceRow F))
      (c : BtcSupport.Cycle F) (r : BtcSupport.ChunkRow F) :
  In r (BtcSupport.accum btc c)
  <-> In r (BtcSupport.chunk btc c) /\ (BtcSupport.days r <= 200)%Z.
Proof.
  unfold BtcSupport.accum. rewrite filter_In, Z.leb_le. tauto.
Qed.

Lemma post_top_rows (btc : list (Z * BtcSupport.PriceRow F))
      (c : BtcSupport.Cycle F) (r : BtcSupport.ChunkRow F) :
  In r (BtcSupport.post_top btc c)
  <-> In r (BtcSupport.chunk btc c)
      /\ (BtcSupport.top_day c < BtcSupport.days r)%Z.
Proof.
  unfold BtcSupport.post_top. rewrite filter_In, Z.ltb_lt. tauto.
Qed.

Lemma filter_map_comm {A B} (g : A -> B) (p : B -> bool) (l : list A) :
  filter p (map g l) = map g (filter (fun x => p (g x)) l).
Proof.
  induction l as [|a l IH]; simpl; trivial.
  destruct (p (g a)); simpl; congruence.
Qed.

(** The ordinals of [range(len(chunk))] run 0, 1, 2, ...: a bound on [td]
    cuts the rows at a position. *)
Lemma with_td_le (rows : list (Z * F)) (n k : Z) :
  filter (fun x => Z.leb (snd x) k) (Stocks.with_td n rows)
  = firstn (Z.to_nat (k + 1 - n)) (Stocks.with_td n rows).
Proof.
  revert n. induction rows as [|r rows IH]; intro n; simpl.
  - rewrite firstn_nil. reflexivity.
  - rewrite IH. destruct (Z.leb_spec n k) as [Hle|Hgt].
    + replace (Z.to_nat (k + 1 - n)) with (S (Z.to_nat (k + 1 - (n + 1))))
        by lia.
      reflexivity.
    + replace (Z.to_nat (k + 1 - (n + 1))) with 0%nat by lia.
      replace (Z.to_nat (k + 1 - n)) with 0%nat by lia.
      reflexivity.
Qed.

Lemma with_td_gt (rows : list (Z * F)) (n k : Z) :
  filter (fun x => Z.ltb k (snd x)) (Stocks.with_td n rows)
  = skipn (Z.to_nat (k + 1 - n)) (Stocks.with_td n rows).
Proof.
  revert n. induction rows as [|r rows IH]; intro n; simpl.
  - rewrite skipn_nil. reflexivity.
  - rewrite IH. destruct (Z.ltb_spec k n) as [Hlt|Hge].
    + replace (Z.to_nat (k + 1 - (n + 1))) with 0%nat by lia.
      replace (Z.to_nat (k + 1 - n)) with 0%nat by lia.
      reflexivity.
    + replace (Z.to_nat (k + 1 - n)) with (S (Z.to_nat (k + 1 - (n + 1))))
        by lia.
      reflexivity.
Qed.

Lemma with_td_length (rows : list (Z * F)) (n : Z) :
  List.length (Stocks.with_td n rows) = List.length rows.
Proof. revert n. induction rows; simpl; auto. Qed.

Lemma with_td_nth (rows : list (Z * F)) (n k : Z) (row : Z * F) :
  In (row, k) (Stocks.with_td n rows) ->
  (n <= k)%Z /\ nth_error rows (Z.to_nat (k - n)) = Some row.
Proof.
  revert n. induction rows as [|r rows IH]; simpl; intros n Hin.
  - contradiction.
  - destruct Hin as [[= -> ->]|Hin].
    + split; [lia|]. replace (Z.to_nat (k - k)) with 0%nat by lia.
      reflexivity.
    + destruct (IH _ Hin) as [Hle Hnth]. split; [lia|].
      replace (Z.to_nat (k - n)) with (S (Z.to_nat (k - (n + 1)))) by lia.
      exact Hnth.
Qed.

Lemma phase_chunk_length (df : list (Z * F)) (b : Z) :
  List.length (phase_chunk df b) = List.length (Stocks.slice df b).
Proof.
  unfold phase_chunk. destruct (Stocks.slice df b) as [|first rest]; trivial.
  unfold Stocks.chunk_of. rewrite length_map, with_td_length. reflexivity.
Qed.

Lemma phase_chunk_first200 (df : list (Z * F)) (b : Z) :
  Stocks.first200 (phase_chunk df b) = firstn 201 (phase_chunk df b).
Proof.
  unfold phase_chunk. destruct (Stocks.slice df b) as [|first rest]; trivial.
  unfold Stocks.first200, Stocks.chunk_of.
  rewrite filter_map_comm. cbn [Stocks.td].
  rewrite (with_td_le (first :: rest) 0 200), firstn_map. reflexivity.
Qed.

Lemma phase_chunk_after200 (df : list (Z * F)) (b : Z) :
  Stocks.after200 (phase_chunk df b) = skipn 201 (phase_chunk df b).
Proof.
  unfold phase_chunk. destruct (Stocks.slice df b) as [|first rest]; trivial.
  unfold Stocks.after200, Stocks.chunk_of.
  rewrite filter_map_comm. cbn [Stocks.td].
  rewrite (with_td_gt (first :: rest) 0 200), skipn_map. reflexivity.
Qed.

(** A row of the stocks [chunk] sits in the slice at the position its [td]
    says, with its percent from the first price of the slice. *)
Lemma phase_chunk_rows (df : list (Z * F)) (b : Z) (r : Stocks.ChunkRow F) :
  In r (phase_chunk df b) ->
  exists first,
    hd_error (Stocks.slice df b) = Some first
    /\ (0 <= Stocks.td r)%Z
    /\ nth_error (Stocks.slice df b) (Z.to_nat (Stocks.td r))
       = Some (Stocks.ix r, Stocks.price r)
    /\ Stocks.pct r = Stocks.percent (Stocks.price r) (snd first).
Proof.
  unfold phase_chunk.
  destruct (Stocks.slice df b) as [|first rest]; [intros []|].
  intro Hr. exists first. split; [reflexivity|].
  unfold Stocks.chunk_of in Hr.
  apply in_map_iff in Hr. destruct Hr as [[[dt p] k] [<- Hx]].
  apply with_td_nth in Hx. destruct Hx as [Hle Hnth].
  cbn [Stocks.td Stocks.ix Stocks.price Stocks.pct fst snd].
  rewrite Z.sub_0_r in Hnth. auto.
Qed.

End Windows.

(** ** The reference price and the exceptions *)

(** C4, amended.  Neither script checks the reference price, so an input
    whose reference price is zero or negative does not fail fast: the
    percents are computed whatever the reference price is, and an exception
    of the loop body comes from [idxmin] only.  Whatever the numeric type
    and whatever the reference price, the BTC loop body raises exactly when
    (price - reference) / reference * 100 is NaN at every row of the early
    window, or the late window is not empty and it is NaN at every row of
    it; a phase of the stocks script (dates distinct) raises exactly when
    its slice has ten rows or more and one of its windows is in that
    case. *)
Theorem reference_price_unchecked :
  forall (F : Type) (N : Numeric F),
    (forall (csv : list (BtcSupport.PriceRow F)) (c : BtcSupport.Cycle F),
        raises (BtcSupport.cycle_support (BtcSupport.load_btc csv) c) = true
        <-> (forall r,
                In r (BtcSupport.accum (BtcSupport.load_btc csv) c) ->
                nisnan (BtcSupport.percent (BtcSupport.cprice r)
                                           (BtcSupport.top_price c)) = true)
            \/ (BtcSupport.post_top (BtcSupport.load_btc csv) c <> []
                /\ forall r,
                  In r (BtcSupport.post_top (BtcSupport.load_btc csv) c) ->
                  nisnan (BtcSupport.percent (BtcSupport.cprice r)
                                             (BtcSupport.top_price c)) = true))
    /\
    (forall (df : list (Z * F)) (b : Z) (first : Z * F),
        NoDup (map fst df) ->
        hd_error (Stocks.slice df b) = Some first ->
        ((exists e, Stocks.phase_support df b = Stocks.Raised e)
         <-> (10 <= List.length (Stocks.slice df b))%nat
             /\ ((forall r,
                     In r (Stocks.first200 (phase_chunk df b)) ->
                     nisnan (Stocks.percent (Stocks.price r) (snd first))
                     = true)
                 \/ (Stocks.after200 (phase_chunk df b) <> []
                     /\ forall r,
                       In r (Stocks.after200 (phase_chunk df b)) ->
                       nisnan (Stocks.percent (Stocks.price r) (snd first))
                       = true)))).
Proof.
  intros F N. split.
  - intros csv c.
    assert (forall r, In r (BtcSupport.chunk (BtcSupport.load_btc csv) c) ->
                      BtcSupport.pct r
                      = BtcSupport.percent (BtcSupport.cprice r)
                                           (BtcSupport.top_price c)) as Hrow.
    { intros r Hr. destruct (chunk_rows csv c r Hr) as [_ [_ [_ Hp]]].
      exact Hp. }
    rewrite (@cycle_support_raises F N (BtcSupport.load_btc csv) c
               (reset_index_from_NoDup _ 0)).
    split.
    + intros [Hall|[Hne Hall]]; [left|right; split; trivial];
        intros r Hr; pose proof Hr as Hc; apply filter_In in Hc;
        rewrite <- (Hrow r (proj1 Hc)); auto.
    + intros [Hall|[Hne Hall]]; [left|right; split; trivial];
        intros r Hr; pose proof Hr as Hc; apply filter_In in Hc;
        rewrite (Hrow r (proj1 Hc)); auto.
  - intros df b first Hnd Hfirst.
    assert (forall r, In r (phase_chunk df b) ->
                      Stocks.pct r
                      = Stocks.percent (Stocks.price r) (snd first)) as Hrow.
    { intros r Hr.
      destruct (phase_chunk_rows df b r Hr) as [f' [Hf' [_ [_ Hp]]]].
      assert (f' = first) as -> by congruence. exact Hp. }
    rewrite (@phase_support_raises F N df b Hnd).
    split.
    + intros [Hlen [Hall|[Hne Hall]]]; (split; [exact Hlen|]);
        [left|right; split; trivial];
        intros r Hr; pose proof Hr as Hc; apply filter_In in Hc;
        rewrite <- (Hrow r (proj1 Hc)); auto.
    + intros [Hlen [Hall|[Hne Hall]]]; (split; [exact Hlen|]);
        [left|right; split; trivial];
        intros r Hr; pose proof Hr as Hc; apply filter_In in Hc;
        rewrite (Hrow r (proj1 Hc)); auto.
Qed.

(** C4, amended, at the reference price -100 over the rationals, where no
    percent is NaN: the five-point series is reported, and so is a ticker
    whose prices are those of [Scenario.ticker] lowered by 200. *)
Lemma reference_price_unchecked_witness :
  raises (BtcSupport.cycle_support
            (BtcSupport.load_btc Scenario.series_30) Scenario.cycle_neg)
  = false
  /\ NoDup (map fst (map (fun r => (fst r, snd r - 200)) (Scenario.ticker 12)))
  /\ hd_error (Stocks.slice
                 (map (fun r => (fst r, snd r - 200)) (Scenario.ticker 12)) 0)
     = Some (0%Z, 100 - 200)
  /\ ~ exists e,
      Stocks.phase_support
        (map (fun r => (fst r, snd r - 200)) (Scenario.ticker 12)) 0
      = Stocks.Raised e.
Proof.
  assert (NoDup (map fst (map (fun r => (fst r, snd r - 200))
                              (Scenario.ticker 12)))) as Hnd
    by (apply distinctb_NoDup; vm_compute; reflexivity).
  split; [|split; [exact Hnd|split; [reflexivity|]]].
  - destruct (raises (BtcSupport.cycle_support
                        (BtcSupport.load_btc Scenario.series_30)
                        Scenario.cycle_neg)) eqn:E; [|reflexivity].
    apply (proj1 (reference_price_unchecked Numeric_Q)
                 Scenario.series_30 Scenario.cycle_neg) in E.
    destruct E as [Hall|[_ Hall]].
    + specialize (Hall _ (or_introl eq_refl)). discriminate.
    + specialize (Hall _ (or_introl eq_refl)). discriminate.
  - intro Hr.
    apply (proj2 (reference_price_unchecked Numeric_Q) _ 0%Z (0%Z, 100 - 200)
                 Hnd eq_refl) in Hr.
    destruct Hr as [_ [Hall|[Hne _]]].
    + specialize (Hall _ (or_introl eq_refl)). discriminate.
    + apply Hne. reflexivity.
Defined.

(** ** Reported extrema are rows of the data *)

(** X1.  Whatever the numeric type, a report of the BTC loop body names
    rows of the file: the accumulation low is a row dated within 200 days of
    the halving, the bear-market low a row dated after the top and within
    the slice, and each percent is the percent of the price reported with
    it. *)
Theorem btc_lows_are_rows :
  forall (F : Type) (N : Numeric F) (csv : list (BtcSupport.PriceRow F))
         (c : BtcSupport.Cycle F) (s : BtcSupport.Support F),
    BtcSupport.cycle_support (BtcSupport.load_btc csv) c = Ok s ->
    (0 <= BtcSupport.low_day s <= 200)%Z
    /\ In {| BtcSupport.date := (BtcSupport.halving c + BtcSupport.low_day s)%Z;
             BtcSupport.btc_price := BtcSupport.low_price s |} csv
    /\ BtcSupport.low_pct s
       = BtcSupport.percent (BtcSupport.low_price s) (BtcSupport.top_price c)
    /\ forall d,
        BtcSupport.bear_low_day s = Some d ->
        (BtcSupport.top_day c < d)%Z
        /\ (BtcSupport.halving c + d <= BtcSupport.cycle_end c)%Z
        /\ exists px,
            BtcSupport.bear_low_price s = Some px
            /\ In {| BtcSupport.date := (BtcSupport.halving c + d)%Z;
                     BtcSupport.btc_price := px |} csv
            /\ BtcSupport.bear_low_pct s
               = Some (BtcSupport.percent px (BtcSupport.top_price c)).
Proof.
  intros F N csv c s Hs.
  destruct (cycle_support_inv _ _ Hs)
    as [low [Hlow [_ [_ [Hp [Hd [Hpx Hlate]]]]]]].
  apply accum_rows in Hlow. destruct Hlow as [Hlow H200].
  destruct (chunk_rows csv c low Hlow) as [Hin [Hrange [Hdays Hpct]]].
  rewrite Hp, Hd, Hpx.
  replace (BtcSupport.halving c + BtcSupport.days low)%Z
    with (BtcSupport.cdate low) by lia.
  split; [lia|]. split; [trivial|]. split; [trivial|].
  intros d Hday.
  destruct (BtcSupport.post_top (BtcSupport.load_btc csv) c) as [|p ps] eqn:Ep.
  - destruct Hlate as [_ [Hnone _]]. congruence.
  - destruct Hlate as [bear [Hbear [_ [_ [Hbp [Hbd [Hbpx _]]]]]]].
    rewrite <- Ep in Hbear. apply post_top_rows in Hbear.
    destruct Hbear as [Hbear Htop].
    destruct (chunk_rows csv c bear Hbear) as [Hin' [Hrange' [Hdays' Hpct']]].
    assert (d = BtcSupport.days bear) as -> by congruence.
    split; [trivial|]. split; [lia|].
    exists (BtcSupport.cprice bear). split; [trivial|].
    replace (BtcSupport.halving c + BtcSupport.days bear)%Z
      with (BtcSupport.cdate bear) by lia.
    split; [trivial|]. congruence.
Qed.

(** X1 at the five-point series, in binary64. *)
Lemma btc_lows_are_rows_witness :
  exists s,
    BtcSupport.cycle_support
      (BtcSupport.load_btc Scenario.series_30f) Scenario.cycle_200 = Ok s
    /\ (0 <= BtcSupport.low_day s <= 200)%Z.
Proof.
  destruct (BtcSupport.cycle_support
              (BtcSupport.load_btc Scenario.series_30f) Scenario.cycle_200)
    as [s|e] eqn:E; [|vm_compute in E; discriminate].
  exists s. split; [reflexivity|].
  exact (proj1 (btc_lows_are_rows Numeric_float
                  Scenario.series_30f Scenario.cycle_200 E)).
Defined.

(** X2.  Whatever the numeric type, a report of a phase of the stocks script
    names rows of the slice by position: the reference price is the price
    of the first row, the accumulation low is the row at position [low_td],
    one of the first 201, the later low is a row at a position beyond 200,
    and each percent is the percent of that row's price from the reference
    price. *)
Theorem stocks_lows_are_rows :
  forall (F : Type) (N : Numeric F) (df : list (Z * F)) (b : Z)
         (s : Stocks.Support F),
    Stocks.phase_support df b = Stocks.Reported s ->
    (exists d0, hd_error (Stocks.slice df b)
                = Some (d0, Stocks.bottom_price s))
    /\ (0 <= Stocks.low_td s <= 200)%Z
    /\ (exists dt, nth_error (Stocks.slice df b) (Z.to_nat (Stocks.low_td s))
                   = Some (dt, Stocks.low_price s))
    /\ Stocks.low_pct s
       = Stocks.percent (Stocks.low_price s) (Stocks.bottom_price s)
    /\ forall k,
        Stocks.after_low_td s = Some k ->
        (200 < k)%Z
        /\ exists row,
            nth_error (Stocks.slice df b) (Z.to_nat k) = Some row
            /\ Stocks.after_low s
               = Some (Stocks.percent (snd row) (Stocks.bottom_price s)).
Proof.
  intros F N df b s Hs.
  destruct (phase_support_inv _ _ Hs)
    as [first [low [Hfirst [_ [Hlow [_ [_ [Hbp [Hp [Htd [Hpx Hlate]]]]]]]]]]].
  unfold Stocks.first200 in Hlow. apply filter_In in Hlow.
  destruct Hlow as [Hlow H200]. apply Z.leb_le in H200.
  destruct (phase_chunk_rows df b low Hlow)
    as [first' [Hf' [Hge [Hnth Hpct]]]].
  assert (first' = first) as -> by congruence.
  rewrite Hbp, Hp, Htd, Hpx.
  split; [exists (fst first); rewrite Hfirst, <- surjective_pairing;
          reflexivity|].
  split; [lia|]. split; [eauto|]. split; [trivial|].
  intros k Hk.
  destruct (Stocks.after200 (phase_chunk df b)) as [|p ps] eqn:Ep.
  - destruct Hlate as [_ [Hnone _]]. congruence.
  - destruct Hlate as [after [Hafter [_ [_ [Hap [Hatd _]]]]]].
    rewrite <- Ep in Hafter.
    unfold Stocks.after200 in Hafter. apply filter_In in Hafter.
    destruct Hafter as [Hafter Hgt]. apply Z.ltb_lt in Hgt.
    destruct (phase_chunk_rows df b after Hafter)
      as [first2 [Hf2 [_ [Hnth' Hpct']]]].
    assert (first2 = first) as -> by congruence.
    assert (k = Stocks.td after) as -> by congruence.
    split; [trivial|].
    exists (Stocks.ix after, Stocks.price after).
    split; [trivial|]. simpl. congruence.
Qed.

(** X2 at a ticker of 210 trading days. *)
Lemma stocks_lows_are_rows_witness :
  exists s,
    Stocks.phase_support (Scenario.ticker 210) 0 = Stocks.Reported s
    /\ (0 <= Stocks.low_td s <= 200)%Z.
Proof.
  destruct (Stocks.phase_support (Scenario.ticker 210) 0)
    as [|e|s] eqn:E;
    [vm_compute in E; discriminate | vm_compute in E; discriminate |].
  exists s. split; [reflexivity|].
  exact (proj1 (proj2 (stocks_lows_are_rows Numeric_Q
                         (Scenario.ticker 210) 0%Z E))).
Defined.

(** ** Windows *)

(** X3.  In the stocks script the two windows cut the slice by position:
    the early window is the first 201 rows, the late window is everything
    from row 202 on, and together they are the whole chunk; so a reported
    phase has a verdict exactly when its slice has at least 202 rows. *)
Theorem stocks_windows_partition :
  forall (F : Type) (N : Numeric F) (df : list (Z * F)) (b : Z),
    Stocks.first200 (phase_chunk df b) = firstn 201 (phase_chunk df b)
    /\ Stocks.after200 (phase_chunk df b) = skipn 201 (phase_chunk df b)
    /\ phase_chunk df b
       = Stocks.first200 (phase_chunk df b)
         ++ Stocks.after200 (phase_chunk df b)
    /\ forall s,
        Stocks.phase_support df b = Stocks.Reported s ->
        (Stocks.held s = None
         <-> (List.length (Stocks.slice df b) <= 201)%nat).
Proof.
  intros F N df b.
  pose proof (phase_chunk_first200 df b) as H1.
  pose proof (phase_chunk_after200 df b) as H2.
  split; [trivial|]. split; [trivial|].
  split; [rewrite H1, H2; symmetry; apply firstn_skipn|].
  intros s Hs.
  destruct (phase_support_inv _ _ Hs)
    as [first [low [_ [_ [_ [_ [_ [_ [_ [_ [_ Hlate]]]]]]]]]]].
  rewrite <- (phase_chunk_length df b).
  destruct (Stocks.after200 (phase_chunk df b)) as [|p ps] eqn:Ep.
  - destruct Hlate as [_ [_ Hh]]. split; [|trivial]. intros _.
    destruct (Nat.le_gt_cases (List.length (phase_chunk df b)) 201)
      as [Hle|Hgt]; trivial.
    exfalso.
    assert (List.length (skipn 201 (phase_chunk df b)) = 0%nat) as Hz
      by (rewrite <- H2; reflexivity).
    rewrite length_skipn in Hz. lia.
  - destruct Hlate as [after [_ [_ [_ [_ [_ Hh]]]]]].
    split; [congruence|]. intro Hle. exfalso.
    rewrite skipn_all2 in H2 by trivial. discriminate.
Qed.

(** X3 at a ticker of 210 trading days. *)
Lemma stocks_windows_partition_witness :
  exists s,
    Stocks.phase_support (Scenario.ticker 210) 0 = Stocks.Reported s
    /\ (Stocks.held s = None
        <-> (List.length (Stocks.slice (Scenario.ticker 210) 0) <= 201)%nat).
Proof.
  destruct (Stocks.phase_support (Scenario.ticker 210) 0)
    as [|e|s] eqn:E;
    [vm_compute in E; discriminate | vm_compute in E; discriminate |].
  exists s. split; [reflexivity|].
  exact (proj2 (proj2 (proj2 (stocks_windows_partition Numeric_Q
                                (Scenario.ticker 210) 0%Z))) s E).
Defined.

(** X4.  In the BTC script a report carries a verdict exactly when the file
    has a row dated after the top and inside the slice (from the halving to
    [end]); without such a row [held] is [None]. *)
Theorem btc_verdict_needs_rows_after_top :
  forall (F : Type) (N : Numeric F) (csv : list (BtcSupport.PriceRow F))
         (c : BtcSupport.Cycle F) (s : BtcSupport.Support F),
    BtcSupport.cycle_support (BtcSupport.load_btc csv) c = Ok s ->
    (BtcSupport.held s <> None
     <-> exists row,
        In row csv
        /\ (BtcSupport.halving c <= BtcSupport.date row)%Z
        /\ (BtcSupport.top c < BtcSupport.date row)%Z
        /\ (BtcSupport.date row <= BtcSupport.cycle_end c)%Z).
Proof.
  intros F N csv c s Hs.
  destruct (cycle_support_inv _ _ Hs)
    as [low [_ [_ [_ [_ [_ [_ Hlate]]]]]]].
  destruct (BtcSupport.post_top (BtcSupport.load_btc csv) c) as [|p ps] eqn:Ep.
  - destruct Hlate as [_ [_ [_ Hh]]]. split; [congruence|].
    intros [row [Hin [Hh1 [Ht Hend]]]]. exfalso.
    destruct (chunk_covers csv c row Hin) as [r [Hr [Hd _]]]; [lia|].
    destruct (chunk_rows csv c r Hr) as [_ [_ [Hdays _]]].
    assert (In r (BtcSupport.post_top (BtcSupport.load_btc csv) c)) as Hpt.
    { apply post_top_rows. split; trivial.
      unfold BtcSupport.top_day. lia. }
    rewrite Ep in Hpt. contradiction.
  - destruct Hlate as [bear [Hbear [_ [_ [_ [_ [_ Hh]]]]]]].
    split; [|congruence]. intros _.
    rewrite <- Ep in Hbear. apply post_top_rows in Hbear.
    destruct Hbear as [Hbear Htop].
    destruct (chunk_rows csv c bear Hbear) as [Hin [Hrange [Hdays _]]].
    eexists. split; [exact Hin|]. simpl.
    unfold BtcSupport.top_day in Htop. lia.
Qed.

(** X4 at the five-point series. *)
Lemma btc_verdict_needs_rows_after_top_witness :
  exists s,
    BtcSupport.cycle_support
      (BtcSupport.load_btc Scenario.series_30) Scenario.cycle_200 = Ok s
    /\ BtcSupport.held s <> None.
Proof.
  destruct (BtcSupport.cycle_support
              (BtcSupport.load_btc Scenario.series_30) Scenario.cycle_200)
    as [s|e] eqn:E; [|vm_compute in E; discriminate].
  exists s. split; [reflexivity|].
  apply (proj2 (btc_verdict_needs_rows_after_top Numeric_Q
                  Scenario.series_30 Scenario.cycle_200 E)).
  exists {| BtcSupport.date := 400; BtcSupport.btc_price := 90 |}.
  split; [simpl; auto 6|]. vm_compute. repeat split; discriminate.
Defined.

(** ** Percents and prices *)

Section PriceOrder.

Lemma percent_diff (a b ref : Q) :
  ~ ref == 0 ->
  BtcSupport.percent b ref - BtcSupport.percent a ref
  == (b - a) * (100 / ref).
Proof.
  intro Hnz. unfold BtcSupport.percent. simpl. field. trivial.
Qed.

(** From a positive reference price the percent rises with the price. *)
Lemma percent_lt_pos (a b ref : Q) :
  0 < ref ->
  (BtcSupport.percent a ref < BtcSupport.percent b ref <-> a < b).
Proof.
  intro Hpos.
  assert (~ ref == 0) as Hnz by lra.
  pose proof (@percent_diff a b ref Hnz) as Hd.
  assert (0 < 100 / ref) as Hk.
  { apply Qlt_shift_div_l; trivial. lra. }
  split; intro Hlt; nra.
Qed.

Lemma percent_le_pos (a b ref : Q) :
  0 < ref ->
  (BtcSupport.percent a ref <= BtcSupport.percent b ref <-> a <= b).
Proof.
  intro Hpos.
  pose proof (@percent_lt_pos b a ref Hpos) as Hlt.
  split; intro Hle.
  - apply Qnot_lt_le. intro Hba. apply Hlt in Hba. lra.
  - apply Qnot_lt_le. intro Hba. apply Hlt in Hba. lra.
Qed.

(** From a negative reference price it falls as the price rises. *)
Lemma percent_lt_neg (a b ref : Q) :
  ref < 0 ->
  (BtcSupport.percent a ref < BtcSupport.percent b ref <-> b < a).
Proof.
  intro Hneg.
  assert (~ ref == 0) as Hnz by lra.
  pose proof (@percent_diff a b ref Hnz) as Hd.
  assert (0 < 100 / - ref) as Hk.
  { apply Qlt_shift_div_l; lra. }
  assert (100 / - ref == - (100 / ref)) as Hk' by (field; trivial).
  split; intro Hlt; nra.
Qed.

Lemma percent_le_neg (a b ref : Q) :
  ref < 0 ->
  (BtcSupport.percent a ref <= BtcSupport.percent b ref <-> b <= a).
Proof.
  intro Hneg.
  pose proof (@percent_lt_neg b a ref Hneg) as Hlt.
  split; intro Hle.
  - apply Qnot_lt_le. intro Hba. apply Hlt in Hba. lra.
  - apply Qnot_lt_le. intro Hba. apply Hlt in Hba. lra.
Qed.

Variable R : Type.
Variable ix : R -> Z.
Variable f : R -> Q.

(** Over the rationals the row found through [idxmin] and [.loc] is the
    first least row. *)
Lemma idxmin_loc_first_min (rows : list R) (l : Z) (r : R) :
  Pandas.idxmin (Pandas.col ix f rows) = Ok l ->
  Pandas.loc_row ix rows l = Ok r ->
  first_min_row f rows r.
Proof.
  intros Hi Hl.
  assert (rows <> []) as Hne by (intros ->; discriminate).
  destruct (idxmin_smin_first ix f Hne) as [r0 [Hfirst [Hi0 _]]].
  assert (l = ix r0) as -> by congruence.
  assert (r0 = r) as <-; trivial.
  eapply loc_row_only; eauto. eapply first_min_row_In; eauto.
Qed.

End PriceOrder.

(** X5.  Over exact arithmetic (rational prices), with a positive top price
    the accumulation low of the BTC script is the lowest price of the early
    window, the bear-market low the lowest price after the top, and the
    verdict compares the two prices: support held exactly when the lowest
    price after the top is above the lowest price of the first 200 days.
    Not so in binary64, where two prices can round to one percent
    ([binary64_equal_percents]). *)
Theorem btc_lows_are_lowest_prices :
  forall (csv : list (BtcSupport.PriceRow Q)) (c : BtcSupport.Cycle Q)
         (s : BtcSupport.Support Q),
    0 < BtcSupport.top_price c ->
    BtcSupport.cycle_support (BtcSupport.load_btc csv) c = Ok s ->
    (forall row,
        In row csv ->
        (BtcSupport.halving c <= BtcSupport.date row
                              <= BtcSupport.cycle_end c)%Z ->
        (BtcSupport.date row <= BtcSupport.halving c + 200)%Z ->
        BtcSupport.low_price s <= BtcSupport.btc_price row)
    /\ forall px,
        BtcSupport.bear_low_price s = Some px ->
        (forall row,
            In row csv ->
            (BtcSupport.halving c <= BtcSupport.date row
                                  <= BtcSupport.cycle_end c)%Z ->
            (BtcSupport.top c < BtcSupport.date row)%Z ->
            px <= BtcSupport.btc_price row)
        /\ (BtcSupport.held s = Some true <-> BtcSupport.low_price s < px).
Proof.
  intros csv c s Hpos Hs.
  destruct (cycle_support_inv _ _ Hs)
    as [low [Hlow [Hi [Hl [_ [_ [Hpx Hlate]]]]]]].
  pose proof (idxmin_loc_first_min _ _ _ Hi Hl) as Hfirst.
  apply first_min_row_window_min in Hfirst. destruct Hfirst as [_ Hmin].
  apply accum_rows in Hlow. destruct Hlow as [Hlow _].
  destruct (chunk_rows csv c low Hlow) as [_ [_ [_ Hpl]]].
  rewrite Hpx. split.
  - intros row Hin Hrange H200.
    destruct (chunk_covers csv c row Hin Hrange) as [r [Hr [Hd Hp]]].
    destruct (chunk_rows csv c r Hr) as [_ [_ [Hdays Hpr]]].
    assert (In r (BtcSupport.accum (BtcSupport.load_btc csv) c)) as Ha
      by (apply accum_rows; split; trivial; lia).
    specialize (Hmin r Ha). rewrite Hpl, Hpr in Hmin.
    apply percent_le_pos in Hmin; trivial. rewrite <- Hp. trivial.
  - intros px Hbpx.
    destruct (BtcSupport.post_top (BtcSupport.load_btc csv) c)
      as [|p ps] eqn:Ep.
    + destruct Hlate as [_ [_ [Hnone _]]]. congruence.
    + destruct Hlate as [bear [Hbear [Hbi [Hbl [_ [_ [Hbp Hh]]]]]]].
      pose proof (idxmin_loc_first_min _ _ _ Hbi Hbl) as Hbfirst.
      apply first_min_row_window_min in Hbfirst.
      destruct Hbfirst as [_ Hbmin].
      rewrite <- Ep in Hbear, Hbmin.
      apply post_top_rows in Hbear. destruct Hbear as [Hbear _].
      destruct (chunk_rows csv c bear Hbear) as [_ [_ [_ Hpb]]].
      assert (px = BtcSupport.cprice bear) as -> by congruence.
      split.
      * intros row Hin Hrange Htop.
        destruct (chunk_covers csv c row Hin Hrange) as [r [Hr [Hd Hp]]].
        destruct (chunk_rows csv c r Hr) as [_ [_ [Hdays Hpr]]].
        assert (In r (BtcSupport.post_top (BtcSupport.load_btc csv) c))
          as Ha.
        { apply post_top_rows. split; trivial.
          unfold BtcSupport.top_day. lia. }
        specialize (Hbmin r Ha). rewrite Hpb, Hpr in Hbmin.
        apply percent_le_pos in Hbmin; trivial. rewrite <- Hp. trivial.
      * rewrite Hh. unfold ngtb. simpl. rewrite Hpl, Hpb.
        split.
        -- intros [= E]. apply Qltb_lt in E.
           apply percent_lt_pos in E; trivial.
        -- intro Hlt. f_equal. apply Qltb_lt.
           apply percent_lt_pos; trivial.
Qed.

(** X5 at the five-point series, over the rationals. *)
Lemma btc_lows_are_lowest_prices_witness :
  exists s,
    BtcSupport.cycle_support
      (BtcSupport.load_btc Scenario.series_30) Scenario.cycle_200 = Ok s
    /\ forall px,
      BtcSupport.bear_low_price s = Some px ->
      (BtcSupport.held s = Some true <-> BtcSupport.low_price s < px).
Proof.
  destruct (BtcSupport.cycle_support
              (BtcSupport.load_btc Scenario.series_30) Scenario.cycle_200)
    as [s|e] eqn:E; [|vm_compute in E; discriminate].
  exists s. split; [reflexivity|].
  intros px Hpx.
  refine (proj2 (proj2 (btc_lows_are_lowest_prices
                          Scenario.series_30 Scenario.cycle_200 _ E)
                   px Hpx)).
  reflexivity.
Defined.

(** X6.  Over exact arithmetic (rational prices), with a negative top price
    the order turns over: the "accumulation low" that the BTC script
    reports is the highest price of the early window, and support is
    reported held exactly when the price reported after the top is below
    it.  Not so in binary64, where two prices can round to one percent
    ([binary64_equal_percents_negative]). *)
Theorem btc_negative_reference_flips :
  forall (csv : list (BtcSupport.PriceRow Q)) (c : BtcSupport.Cycle Q)
         (s : BtcSupport.Support Q),
    BtcSupport.top_price c < 0 ->
    BtcSupport.cycle_support (BtcSupport.load_btc csv) c = Ok s ->
    (forall row,
        In row csv ->
        (BtcSupport.halving c <= BtcSupport.date row
                              <= BtcSupport.cycle_end c)%Z ->
        (BtcSupport.date row <= BtcSupport.halving c + 200)%Z ->
        BtcSupport.btc_price row <= BtcSupport.low_price s)
    /\ forall px,
        BtcSupport.bear_low_price s = Some px ->
        (BtcSupport.held s = Some true <-> px < BtcSupport.low_price s).
Proof.
  intros csv c s Hneg Hs.
  destruct (cycle_support_inv _ _ Hs)
    as [low [Hlow [Hi [Hl [_ [_ [Hpx Hlate]]]]]]].
  pose proof (idxmin_loc_first_min _ _ _ Hi Hl) as Hfirst.
  apply first_min_row_window_min in Hfirst. destruct Hfirst as [_ Hmin].
  apply accum_rows in Hlow. destruct Hlow as [Hlow _].
  destruct (chunk_rows csv c low Hlow) as [_ [_ [_ Hpl]]].
  rewrite Hpx. split.
  - intros row Hin Hrange H200.
    destruct (chunk_covers csv c row Hin Hrange) as [r [Hr [Hd Hp]]].
    destruct (chunk_rows csv c r Hr) as [_ [_ [Hdays Hpr]]].
    assert (In r (BtcSupport.accum (BtcSupport.load_btc csv) c)) as Ha
      by (apply accum_rows; split; trivial; lia).
    specialize (Hmin r Ha). rewrite Hpl, Hpr in Hmin.
    apply percent_le_neg in Hmin; trivial. rewrite <- Hp. trivial.
  - intros px Hbpx.
    destruct (BtcSupport.post_top (BtcSupport.load_btc csv) c)
      as [|p ps] eqn:Ep.
    + destruct Hlate as [_ [_ [Hnone _]]]. congruence.
    + destruct Hlate as [bear [Hbear [_ [_ [_ [_ [Hbp Hh]]]]]]].
      rewrite <- Ep in Hbear.
      apply post_top_rows in Hbear. destruct Hbear as [Hbear _].
      destruct (chunk_rows csv c bear Hbear) as [_ [_ [_ Hpb]]].
      assert (px = BtcSupport.cprice bear) as -> by congruence.
      rewrite Hh. unfold ngtb. simpl. rewrite Hpl, Hpb.
      split.
      * intros [= E]. apply Qltb_lt in E.
        apply percent_lt_neg in E; trivial.
      * intro Hlt. f_equal. apply Qltb_lt.
        apply percent_lt_neg; trivial.
Qed.

(** X6 at the five-point series with the top price -100, over the
    rationals. *)
Lemma btc_negative_reference_flips_witness :
  exists s,
    BtcSupport.cycle_support
      (BtcSupport.load_btc Scenario.series_30) Scenario.cycle_neg = Ok s
    /\ forall px,
      BtcSupport.bear_low_price s = Some px ->
      (BtcSupport.held s = Some true <-> px < BtcSupport.low_price s).
Proof.
  destruct (BtcSupport.cycle_support
              (BtcSupport.load_btc Scenario.series_30) Scenario.cycle_neg)
    as [s|e] eqn:E; [|vm_compute in E; discriminate].
  exists s. split; [reflexivity|].
  refine (proj2 (btc_negative_reference_flips
                   Scenario.series_30 Scenario.cycle_neg _ E)).
  reflexivity.
Defined.

(** X7.  Over exact arithmetic (rational prices), in the stocks script, with
    a positive first price, the accumulation low is never above 0 percent
    and never above the first price: the first row of the slice, at 0
    percent, is in the early window; and the low is the lowest price among
    the first 201 rows of the slice.  The last part is not so in binary64,
    where two prices can round to one percent
    ([binary64_equal_percents]). *)
Theorem stocks_low_not_above_bottom :
  forall (df : list (Z * Q)) (b : Z) (s : Stocks.Support Q),
    0 < Stocks.bottom_price s ->
    Stocks.phase_support df b = Stocks.Reported s ->
    Stocks.low_pct s <= 0
    /\ Stocks.low_price s <= Stocks.bottom_price s
    /\ forall (i : nat) (row : Z * Q),
        (i <= 200)%nat ->
        nth_error (Stocks.slice df b) i = Some row ->
        Stocks.low_price s <= snd row.
Proof.
  intros df b s Hpos Hs.
  destruct (phase_support_inv _ _ Hs)
    as [first [low [Hfirst [_ [Hlow [Hi [Hl [Hbp [Hp [_ [Hpx _]]]]]]]]]]].
  pose proof (idxmin_loc_first_min _ _ _ Hi Hl) as Hfm.
  apply first_min_row_window_min in Hfm. destruct Hfm as [_ Hmin].
  rewrite Hbp in *.
  assert (forall r, In r (Stocks.first200 (phase_chunk df b)) ->
                    Stocks.pct r = BtcSupport.percent (Stocks.price r)
                                                      (snd first)) as Hpct.
  { intros r Hr. unfold Stocks.first200 in Hr. apply filter_In in Hr.
    destruct (phase_chunk_rows df b r (proj1 Hr)) as [f' [Hf' [_ [_ Hpr]]]].
    assert (f' = first) as -> by congruence. exact Hpr. }
  assert (forall (i : nat) (row : Z * Q),
             (i <= 200)%nat ->
             nth_error (Stocks.slice df b) i = Some row ->
             Stocks.low_price s <= snd row) as Hall.
  { intros i row Hi200 Hnth.
    assert (exists r, In r (Stocks.first200 (phase_chunk df b))
                      /\ Stocks.price r = snd row) as [r [Hr Hprice]].
    { rewrite phase_chunk_first200. unfold phase_chunk.
      destruct (Stocks.slice df b) as [|f0 rest] eqn:Es;
        [destruct i; discriminate|].
      unfold Stocks.chunk_of. rewrite firstn_map.
      assert (exists k, In (row, k) (firstn 201 (Stocks.with_td 0 (f0 :: rest))))
        as [k Hk].
      { assert (nth_error (map fst (Stocks.with_td 0 (f0 :: rest))) i
                = Some row) as Hn by (rewrite with_td_fst; trivial).
        rewrite nth_error_map in Hn.
        destruct (nth_error (Stocks.with_td 0 (f0 :: rest)) i)
          as [[row' k]|] eqn:En; [|discriminate].
        injection Hn as ->. exists k.
        apply nth_error_In with (n := i).
        rewrite nth_error_firstn.
        destruct (Nat.ltb_spec i 201); [trivial|lia]. }
      eexists. split.
      - apply in_map_iff. exists (row, k). split; [reflexivity|exact Hk].
      - reflexivity. }
    specialize (Hmin r Hr).
    rewrite (Hpct _ Hlow), (Hpct _ Hr) in Hmin.
    apply percent_le_pos in Hmin; trivial.
    rewrite Hpx, <- Hprice. trivial. }
  assert (Stocks.low_price s <= snd first) as Hle.
  { apply (Hall 0%nat first); [lia|].
    destruct (Stocks.slice df b); [discriminate|].
    simpl in *. congruence. }
  split; [|split; trivial].
  rewrite Hp, (Hpct _ Hlow), <- Hpx.
  assert (BtcSupport.percent (snd first) (snd first) == 0) as Hz.
  { apply percent_at_reference; [lra|reflexivity]. }
  rewrite <- Hz. apply percent_le_pos; trivial.
Qed.

(** X7 at a ticker of 210 trading days, over the rationals. *)
Lemma stocks_low_not_above_bottom_witness :
  exists s,
    Stocks.phase_support (Scenario.ticker 210) 0 = Stocks.Reported s
    /\ Stocks.low_pct s <= 0.
Proof.
  destruct (Stocks.phase_support (Scenario.ticker 210) 0)
    as [|e|s] eqn:E;
    [vm_compute in E; discriminate | vm_compute in E; discriminate |].
  exists s. split; [reflexivity|].
  refine (proj1 (stocks_low_not_above_bottom (Scenario.ticker 210) 0%Z _ E)).
  vm_compute in E. injection E as <-. reflexivity.
Defined.

(** ** Whole runs *)

(** X8.  Over the rationals the run of the BTC script ends without an
    exception exactly when every cycle has a row of the file in its early
    window, and it then holds one report per cycle. *)
Theorem btc_run_completes :
  forall (csv : list (BtcSupport.PriceRow Q)) (cs : list (BtcSupport.Cycle Q)),
    (snd (BtcSupport.run (BtcSupport.load_btc csv) cs) = None
     <-> Forall (fun c => BtcSupport.accum (BtcSupport.load_btc csv) c <> [])
                cs)
    /\ (snd (BtcSupport.run (BtcSupport.load_btc csv) cs) = None ->
        List.length (fst (BtcSupport.run (BtcSupport.load_btc csv) cs))
        = List.length cs).
Proof.
  intros csv cs. induction cs as [|c cs [IH1 IH2]]; simpl.
  - split; [split; [constructor|reflexivity]|reflexivity].
  - destruct (BtcSupport.accum (BtcSupport.load_btc csv) c) as [|a l] eqn:Ea.
    + rewrite (cycle_support_no_early _ c Ea). simpl.
      split; [split|]; try discriminate.
      intro Hall. inversion Hall; subst. congruence.
    + assert (BtcSupport.accum (BtcSupport.load_btc csv) c <> []) as Hne
        by (rewrite Ea; discriminate).
      assert (exists s,
                 BtcSupport.cycle_support (BtcSupport.load_btc csv) c = Ok s)
        as [s Hs].
      { destruct (cycle_support_Q _ c (load_btc_NoDup csv) Hne)
          as [low [_ Hres]].
        destruct (BtcSupport.post_top (BtcSupport.load_btc csv) c).
        - eauto.
        - destruct Hres as [bear [_ Hres]]. eauto. }
      rewrite Hs.
      destruct (BtcSupport.run (BtcSupport.load_btc csv) cs) as [ss e].
      simpl in *. split; [split|].
      * intro He. constructor; [exact Hne|]. apply IH1. trivial.
      * intro Hall. inversion Hall; subst. apply IH1. trivial.
      * intro He. f_equal. auto.
Qed.

(** X9.  Over the rationals, with distinct dates, the run of the stocks
    script over the phases of a ticker never raises, and it reports exactly
    the phases whose slice has ten rows or more. *)
Theorem stocks_run_reports_long_phases :
  forall (df : list (Z * Q)) (bottoms : list Z),
    NoDup (map fst df) ->
    snd (Stocks.run df bottoms) = None
    /\ List.length (fst (Stocks.run df bottoms))
       = List.length
           (filter (fun b => Nat.leb 10 (List.length (Stocks.slice df b)))
                   bottoms).
Proof.
  intros df bottoms Hnd.
  induction bottoms as [|b bs [IH1 IH2]]; [simpl; auto|].
  cbn [Stocks.run filter].
  destruct (Nat.leb 10 (List.length (Stocks.slice df b))) eqn:E.
  - apply Nat.leb_le in E.
    assert (exists s, Stocks.phase_support df b = Stocks.Reported s)
      as [s Hs].
    { destruct (phase_support_Q df b Hnd E) as [f [low [_ [_ Hres]]]].
      destruct (Stocks.after200 (phase_chunk df b)).
      - eauto.
      - destruct Hres as [after [_ Hres]]. eauto. }
    rewrite Hs. destruct (Stocks.run df bs) as [ss e].
    cbn [fst snd List.length] in *. split; [trivial|]. f_equal. trivial.
  - apply Nat.leb_gt in E.
    rewrite (phase_support_skip df b E). auto.
Qed.

(** X9 at a ticker of 12 trading days and two bottoms, the second of which
    leaves nine rows. *)
Lemma stocks_run_reports_long_phases_witness :
  snd (Stocks.run (Scenario.ticker 12) [0; 3]%Z) = None
  /\ List.length (fst (Stocks.run (Scenario.ticker 12) [0; 3]%Z)) = 1%nat.
Proof.
  apply (stocks_run_reports_long_phases (Scenario.ticker 12) [0; 3]%Z).
  apply distinctb_NoDup. by_eval.
Defined.

(** ** What is drawn and printed for a cycle *)

(** X10.  The red span of the BTC panel ends where the slice ends, every
    row of the late window lies inside it, and when the span is not drawn
    (the top is 1100 days or more after the halving) the late window is
    empty. *)
Theorem btc_shade_covers_late_window :
  forall (F : Type) (N : Numeric F) (btc : list (Z * BtcSupport.PriceRow F))
         (c : BtcSupport.Cycle F),
    (forall lo hi,
        BtcReport.bear_shade c = Some (lo, hi) ->
        lo = BtcSupport.top_day c
        /\ hi = (BtcSupport.cycle_end c - BtcSupport.halving c)%Z
        /\ forall r, In r (BtcSupport.post_top btc c) ->
                     (lo < BtcSupport.days r <= hi)%Z)
    /\ (BtcReport.bear_shade c = None -> BtcSupport.post_top btc c = []).
Proof.
  intros F N btc c.
  assert (forall r, In r (BtcSupport.post_top btc c) ->
                    (BtcSupport.top_day c < BtcSupport.days r
                     <= BtcSupport.cycle_end c - BtcSupport.halving c)%Z)
    as Hrows.
  { intros r Hr. apply post_top_rows in Hr. destruct Hr as [Hr Htop].
    unfold BtcSupport.chunk in Hr. apply in_map_iff in Hr.
    destruct Hr as [x [<- Hx]]. apply filter_In in Hx.
    destruct Hx as [_ Hd]. apply andb_true_iff in Hd.
    rewrite !Z.leb_le in Hd. simpl in *. lia. }
  unfold BtcReport.bear_shade.
  destruct (Z.ltb_spec (BtcSupport.top_day c) BtcSupport.PLOT_DAYS)
    as [Hlt|Hge].
  - split; [|discriminate]. intros lo hi Heq.
    assert (lo = BtcSupport.top_day c
            /\ hi = Z.min BtcSupport.PLOT_DAYS
                          (if negb (BtcSupport.confirmed c)
                           then BtcSupport.TODAY - BtcSupport.halving c
                           else BtcSupport.PLOT_DAYS))%Z as [-> ->]
      by (split; congruence).
    assert (Z.min BtcSupport.PLOT_DAYS
                  (if negb (BtcSupport.confirmed c)
                   then BtcSupport.TODAY - BtcSupport.halving c
                   else BtcSupport.PLOT_DAYS)
            = BtcSupport.cycle_end c - BtcSupport.halving c)%Z as ->.
    { unfold BtcSupport.cycle_end, BtcSupport.PLOT_DAYS, BtcSupport.TODAY.
      destruct (BtcSupport.confirmed c); cbn [negb]; lia. }
    auto.
  - split; [discriminate|]. intros _.
    destruct (BtcSupport.post_top btc c) as [|r rs]; trivial.
    exfalso.
    pose proof (Hrows r (or_introl eq_refl)) as Hr.
    pose proof (cycle_end_bound c). lia.
Qed.

(** X10 at cycle 4 of the script (halving 2024-04-19, top 2025-10-06, not
    confirmed): the span runs from day 535 to day 677, the day of
    [TODAY]. *)
Lemma btc_shade_covers_late_window_witness :
  BtcSupport.post_top
    (BtcSupport.load_btc Scenario.series_30)
    {| BtcSupport.halving := 0; BtcSupport.top := 1200;
       BtcSupport.top_price := 100; BtcSupport.confirmed := true;
       BtcSupport.exclude := false |} = []
  /\
  (let c4 := {| BtcSupport.halving := 19832; BtcSupport.top := 20367;
                BtcSupport.top_price := 124774; BtcSupport.confirmed := false;
                BtcSupport.exclude := false |} in
   (535 = BtcSupport.top_day c4
    /\ 677 = BtcSupport.cycle_end c4 - BtcSupport.halving c4)%Z).
Proof.
  split.
  - apply (proj2 (btc_shade_covers_late_window Numeric_Q
                    (BtcSupport.load_btc Scenario.series_30)
                    {| BtcSupport.halving := 0; BtcSupport.top := 1200;
                       BtcSupport.top_price := 100;
                       BtcSupport.confirmed := true;
                       BtcSupport.exclude := false |})).
    reflexivity.
  - intro c4.
    destruct (proj1 (btc_shade_covers_late_window Numeric_Q
                       (BtcSupport.load_btc Scenario.series_30) c4)
                    535%Z 677%Z) as [H1 [H2 _]]; [reflexivity|].
    split; trivial.
Defined.

(** X11.  The console report of a cycle that the BTC loop body returned
    never fails, and it shows the "Support held" line exactly when a
    bear-market low exists and is not zero: a low of exactly 0 percent has
    a verdict that is not printed.  When printed, the line says YES exactly
    when the bear-market low is above the accumulation low. *)
Theorem btc_console_verdict_line :
  forall (F : Type) (N : Numeric F) (T : Truthy F)
         (btc : list (Z * BtcSupport.PriceRow F)) (c : BtcSupport.Cycle F)
         (s : BtcSupport.Support F),
    BtcSupport.cycle_support btc c = Ok s ->
    exists lines,
      BtcReport.console c s = Ok lines
      /\ forall yes,
        In (BtcReport.SupportHeld yes) lines
        <-> exists late,
          BtcSupport.bear_low_pct s = Some late
          /\ nonzero late = true
          /\ yes = ngtb late (BtcSupport.low_pct s).
Proof.
  intros F N T btc c s Hs.
  pose proof (cycle_support_inv _ _ Hs)
    as [low [_ [_ [_ [Hp [_ [_ Hlate]]]]]]].
  unfold BtcReport.console.
  assert (forall yes : bool,
             ~ In (BtcReport.SupportHeld yes)
                  ([BtcReport.Name;
                    BtcReport.AccumulationLow
                      (BtcSupport.low_pct s) (BtcSupport.low_day s)
                      (BtcSupport.low_price s)] ++ [BtcReport.Blank]))
    as Hnone.
  { intros yes [Hx|[Hx|[Hx|[]]]]; discriminate. }
  destruct (BtcSupport.post_top btc c) as [|p ps].
  - destruct Hlate as [Hnp _]. rewrite Hnp.
    eexists. split; [reflexivity|]. intro yes. split.
    + intro Hin. exfalso. exact (Hnone yes Hin).
    + intros [late [Hl _]]. discriminate.
  - destruct Hlate as [bear [_ [_ [_ [Hbp [_ [Hbpx Hh]]]]]]].
    rewrite Hbp, Hbpx.
    destruct (nonzero (BtcSupport.pct bear)) eqn:Enz.
    + eexists. split; [reflexivity|]. intro yes.
      rewrite Hh, Hp. split.
      * intro Hin. exists (BtcSupport.pct bear).
        split; [trivial|]. split; [trivial|].
        simpl in Hin.
        destruct Hin as [Hx|[Hx|[Hx|[Hx|Hin]]]]; try discriminate.
        -- injection Hx as <-. unfold BtcReport.truth.
           destruct (ngtb (BtcSupport.pct bear) (BtcSupport.pct low));
             reflexivity.
        -- apply in_app_or in Hin. destruct Hin as [Hin|[Hx|[]]];
             [|discriminate].
           destruct (BtcSupport.exclude c); [|contradiction].
           destruct Hin as [Hx|[]]. discriminate.
      * intros [late [[= <-] [_ ->]]].
        simpl. right. right. right. left.
        unfold BtcReport.truth.
        destruct (ngtb (BtcSupport.pct bear) (BtcSupport.pct low));
          reflexivity.
    + eexists. split; [reflexivity|]. intro yes. split.
      * intro Hin. exfalso. exact (Hnone yes Hin).
      * intros [late [[= <-] [Hnz _]]]. congruence.
Qed.

(** X11 at a series that comes back exactly to the top price after the
    top: the verdict is true and the console does not show it. *)
Lemma btc_console_verdict_line_witness :
  exists s lines,
    BtcSupport.cycle_support
      (BtcSupport.load_btc (Scenario.series_of 100 40 60 100 130))
      Scenario.cycle_200 = Ok s
    /\ BtcSupport.held s = Some true
    /\ BtcReport.console Scenario.cycle_200 s = Ok lines
    /\ ~ In (BtcReport.SupportHeld true) lines.
Proof.
  destruct (BtcSupport.cycle_support
              (BtcSupport.load_btc (Scenario.series_of 100 40 60 100 130))
              Scenario.cycle_200) as [s|e] eqn:E;
    [|vm_compute in E; discriminate].
  destruct (btc_console_verdict_line Numeric_Q Truthy_Q _ _ E)
    as [lines [Hl Hiff]].
  exists s, lines. split; [reflexivity|].
  vm_compute in E. injection E as <-.
  split; [reflexivity|]. split; [exact Hl|].
  intro Hin. apply Hiff in Hin.
  destruct Hin as [late [[= <-] [Hnz _]]]. vm_compute in Hnz. discriminate.
Defined.

(** X12.  On a report of the BTC loop body, the bear-market marker and the
    status badge are drawn together, exactly when the late window has a
    row; the badge of an excluded cycle never says held or broken, and the
    badge of another cycle says held exactly when the verdict is true. *)
Theorem btc_badge_and_marker :
  forall (F : Type) (N : Numeric F)
         (btc : list (Z * BtcSupport.PriceRow F)) (c : BtcSupport.Cycle F)
         (s : BtcSupport.Support F),
    BtcSupport.cycle_support btc c = Ok s ->
    (BtcReport.bear_marker btc c s = true
     <-> BtcSupport.post_top btc c <> [])
    /\ (BtcReport.status_badge c s <> None
        <-> BtcSupport.post_top btc c <> [])
    /\ (BtcSupport.exclude c = true ->
        BtcReport.status_badge c s <> Some BtcReport.Held
        /\ BtcReport.status_badge c s <> Some BtcReport.Broken)
    /\ (BtcSupport.exclude c = false ->
        (BtcReport.status_badge c s = Some BtcReport.Held
         <-> BtcSupport.held s = Some true)
        /\ (BtcReport.status_badge c s = Some BtcReport.Broken
            <-> BtcSupport.held s = Some false)).
Proof.
  intros F N btc c s Hs.
  pose proof (cycle_support_inv _ _ Hs)
    as [low [_ [_ [_ [_ [_ [_ Hlate]]]]]]].
  unfold BtcReport.bear_marker, BtcReport.status_badge.
  destruct (BtcSupport.post_top btc c) as [|p ps].
  - destruct Hlate as [Hnp [_ [_ Hh]]]. rewrite Hnp, Hh.
    repeat split; try congruence; try discriminate;
      intros; try congruence; try discriminate.
  - destruct Hlate as [bear [_ [_ [_ [Hbp [_ [_ Hh]]]]]]].
    rewrite Hbp, Hh. simpl.
    split; [split; [discriminate|reflexivity]|].
    split; [split; discriminate|].
    split.
    + intros ->. split; discriminate.
    + intros ->.
      destruct (ngtb (BtcSupport.pct bear) (BtcSupport.pct low));
        split; split; congruence.
Qed.

(** X12 at the five-point series. *)
Lemma btc_badge_and_marker_witness :
  exists s,
    BtcSupport.cycle_support
      (BtcSupport.load_btc Scenario.series_30) Scenario.cycle_200 = Ok s
    /\ BtcReport.status_badge Scenario.cycle_200 s = Some BtcReport.Broken.
Proof.
  destruct (BtcSupport.cycle_support
              (BtcSupport.load_btc Scenario.series_30) Scenario.cycle_200)
    as [s|e] eqn:E; [|vm_compute in E; discriminate].
  exists s. split; [reflexivity|].
  apply (proj2 (proj2 (proj2 (proj2 (btc_badge_and_marker Numeric_Q _ _ E)))
                 eq_refl)).
  vm_compute in E. injection E as <-. reflexivity.
Defined.

(** X8 at the five-point series and two cycles. *)
Lemma btc_run_completes_witness :
  List.length
    (fst (BtcSupport.run (BtcSupport.load_btc Scenario.series_30)
            [Scenario.cycle_200; Scenario.cycle_200])) = 2%nat.
Proof.
  apply (proj2 (btc_run_completes Scenario.series_30
                  [Scenario.cycle_200; Scenario.cycle_200])).
  by_eval.
Defined.

(** ** btc_onchain_dashboard.py: frames and lookups *)

Section OnchainFacts.
Import Onchain.

Lemma insert_by_perm {A} (key : A -> Z) (a : A) (l : list A) :
  Permutation (Pandas.insert_by key a l) (a :: l).
Proof.
  induction l as [|y l IH]; simpl; [reflexivity|].
  destruct (key a <=? key y)%Z; [reflexivity|].
  rewrite IH. apply perm_swap.
Qed.

Lemma sort_values_perm {A} (key : A -> Z) (l : list A) :
  Permutation (Pandas.sort_values key l) l.
Proof.
  induction l as [|a l IH]; simpl; [reflexivity|].
  rewrite insert_by_perm. constructor. trivial.
Qed.

Lemma iloc_last_error {A} (rows : list A) :
  iloc_last rows = inl IndexError <-> rows = [].
Proof.
  induction rows as [|r rows IH]; simpl; [tauto|].
  destruct rows as [|r' rows]; [split; discriminate|].
  rewrite IH. split; discriminate.
Qed.

Lemma iloc_last_value {A} (rows : list A) (x : A) :
  iloc_last rows = inr x <-> exists pre, rows = pre ++ [x].
Proof.
  induction rows as [|r rows IH]; simpl.
  - split; [discriminate|]. intros [pre Hp]. destruct pre; discriminate.
  - destruct rows as [|r' rows].
    + split.
      * intros [= ->]. exists []. reflexivity.
      * intros [pre Hp]. destruct pre as [|a [|b pre]]; try discriminate.
        injection Hp as ->. reflexivity.
    + rewrite IH. split.
      * intros [pre Hp]. exists (r :: pre). simpl. congruence.
      * intros [pre Hp]. destruct pre as [|a pre]; [discriminate|].
        injection Hp as -> Hp. eauto.
Qed.

Lemma sorted_last {A} (key : A -> Z) (pre : list A) (x : A) :
  StronglySorted (fun a b => (key a <= key b)%Z) (pre ++ [x]) ->
  forall y, In y (pre ++ [x]) -> (key y <= key x)%Z.
Proof.
  induction pre as [|a pre IH]; simpl; intros Hs y Hy.
  - destruct Hy as [<-|[]]. lia.
  - inversion Hs as [|? ? Hs' Hall]; subst.
    destruct Hy as [<-|Hy]; [|auto].
    rewrite Forall_forall in Hall. apply Hall.
    apply in_or_app. right. left. trivial.
Qed.

Variable parse_number : string -> option Q.

Lemma numeric_rows_In (entries : list Reading) (d : Z) (q : Q) :
  In (d, q) (numeric_rows parse_number entries)
  <-> exists e,
      In e entries /\ day e = d
      /\ Dashboard.to_numeric parse_number (raw e) = Some q.
Proof.
  induction entries as [|e entries IH]; simpl.
  - split; [contradiction|]. intros [e [[] _]].
  - destruct (Dashboard.to_numeric parse_number (raw e)) as [q0|] eqn:E.
    + simpl. rewrite IH. split.
      * intros [[= <- <-]|[e' [Hin Hrest]]]; [exists e; auto|].
        exists e'. tauto.
      * intros [e' [[<-|Hin] [Hd Hq]]].
        -- left. congruence.
        -- right. exists e'. auto.
    + rewrite IH. split.
      * intros [e' [Hin Hrest]]. exists e'. tauto.
      * intros [e' [[<-|Hin] [Hd Hq]]]; [congruence|].
        exists e'. auto.
Qed.

Lemma as_of_error (frame : list (Z * Q)) (t : Z) :
  as_of frame t = inl IndexError
  <-> forall d v, In (d, v) frame -> (t < d)%Z.
Proof.
  unfold as_of. rewrite iloc_last_error. split.
  - intros Hnil d v Hin.
    destruct (Z.lt_ge_cases t d) as [Hlt|Hge]; trivial.
    exfalso.
    assert (In (d, v) (filter (fun r => (fst r <=? t)%Z) frame)) as Hx
      by (apply filter_In; split; [trivial|apply Z.leb_le; simpl; lia]).
    rewrite Hnil in Hx. contradiction.
  - intro Hall.
    destruct (filter (fun r => (fst r <=? t)%Z) frame) as [|[d v] rest] eqn:E;
      trivial.
    exfalso.
    assert (In (d, v) (filter (fun r => (fst r <=? t)%Z) frame)) as Hx
      by (rewrite E; left; trivial).
    apply filter_In in Hx. destruct Hx as [Hin Hle].
    apply Z.leb_le in Hle. simpl in Hle.
    specialize (Hall d v Hin). lia.
Qed.

Lemma load_metric_sorted (entries : list Reading) :
  StronglySorted (fun a b => (fst a <= fst b)%Z)
                 (load_metric parse_number entries).
Proof. apply sort_values_sorted. Qed.

End OnchainFacts.

(** X13.  A metric frame of btc_onchain_dashboard.py holds exactly the
    entries of the file whose value is a number ([None], an unparseable
    string drop the entry), each as often as the file has it, in ascending
    date order. *)
Theorem load_metric_sorted_numeric :
  forall (parse_number : string -> option Q)
         (entries : list Onchain.Reading),
    StronglySorted (fun a b => (fst a <= fst b)%Z)
                   (Onchain.load_metric parse_number entries)
    /\ Permutation (Onchain.load_metric parse_number entries)
                   (Onchain.numeric_rows parse_number entries)
    /\ forall d q,
        In (d, q) (Onchain.load_metric parse_number entries)
        <-> exists e,
            In e entries /\ Onchain.day e = d
            /\ Dashboard.to_numeric parse_number (Onchain.raw e) = Some q.
Proof.
  intros parse_number entries.
  split; [apply load_metric_sorted|].
  split; [apply sort_values_perm|].
  intros d q. unfold Onchain.load_metric.
  rewrite sort_values_In. apply numeric_rows_In.
Qed.

(** X14.  The "latest" value of a metric is the value of an entry of
    greatest date among those that are numbers, wherever it stands in the
    file; the read raises [IndexError] exactly when no entry of the file is
    a number. *)
Theorem latest_is_most_recent :
  forall (parse_number : string -> option Q)
         (entries : list Onchain.Reading),
    (Onchain.latest (Onchain.load_metric parse_number entries)
     = inl Onchain.IndexError
     <-> forall e, In e entries ->
                   Dashboard.to_numeric parse_number (Onchain.raw e) = None)
    /\ forall v,
      Onchain.latest (Onchain.load_metric parse_number entries) = inr v ->
      exists d,
        In (d, v) (Onchain.load_metric parse_number entries)
        /\ forall d' v',
          In (d', v') (Onchain.load_metric parse_number entries) ->
          (d' <= d)%Z.
Proof.
  intros parse_number entries. unfold Onchain.latest.
  destruct (Onchain.iloc_last (Onchain.load_metric parse_number entries))
    as [[]|[d v]] eqn:E.
  - apply iloc_last_error in E. split; [|discriminate].
    split; [|reflexivity]. intros _ e He.
    destruct (Dashboard.to_numeric parse_number (Onchain.raw e)) as [q|] eqn:Eq;
      trivial.
    exfalso.
    assert (In (Onchain.day e, q) (Onchain.load_metric parse_number entries))
      as Hin.
    { unfold Onchain.load_metric. apply sort_values_In.
      apply numeric_rows_In. exists e. auto. }
    rewrite E in Hin. contradiction.
  - apply iloc_last_value in E. destruct E as [pre Hpre]. split.
    + split; [discriminate|]. intro Hnone. exfalso.
      assert (In (d, v) (Onchain.load_metric parse_number entries)) as Hin
        by (rewrite Hpre; apply in_or_app; right; left; trivial).
      unfold Onchain.load_metric in Hin. apply sort_values_In in Hin.
      apply numeric_rows_In in Hin. destruct Hin as [e [He [_ Hq]]].
      rewrite (Hnone e He) in Hq. discriminate.
    + intros v0 [= <-]. exists d. split.
      * rewrite Hpre. apply in_or_app. right. left. trivial.
      * intros d' v' Hin.
        pose proof (load_metric_sorted parse_number entries) as Hs.
        rewrite Hpre in Hs, Hin.
        exact (sorted_last fst pre (d, v) Hs (d', v') Hin).
Qed.

(** X14 at five readings out of date order: the latest is the reading of
    day 40. *)
Lemma latest_is_most_recent_witness :
  exists d,
    In (d, - (1))
       (Onchain.load_metric Samples.no_parse Samples.readings)
    /\ forall d' v',
      In (d', v') (Onchain.load_metric Samples.no_parse Samples.readings) ->
      (d' <= d)%Z.
Proof.
  apply (proj2 (latest_is_most_recent Samples.no_parse Samples.readings)).
  reflexivity.
Defined.

(** X15.  The lookup of a metric at a date returns the most recent numeric
    reading dated on or before it, and raises [IndexError] exactly when
    every numeric reading is dated after it. *)
Theorem as_of_is_last_reading_before :
  forall (parse_number : string -> option Q)
         (entries : list Onchain.Reading) (t : Z),
    (Onchain.as_of (Onchain.load_metric parse_number entries) t
     = inl Onchain.IndexError
     <-> forall d v,
        In (d, v) (Onchain.load_metric parse_number entries) -> (t < d)%Z)
    /\ forall d v,
      Onchain.as_of (Onchain.load_metric parse_number entries) t
      = inr (d, v) ->
      In (d, v) (Onchain.load_metric parse_number entries)
      /\ (d <= t)%Z
      /\ forall d' v',
        In (d', v') (Onchain.load_metric parse_number entries) ->
        (d' <= t)%Z -> (d' <= d)%Z.
Proof.
  intros parse_number entries t.
  set (frame := Onchain.load_metric parse_number entries).
  unfold Onchain.as_of.
  assert (forall r, In r (filter (fun r => (fst r <=? t)%Z) frame)
                    <-> In r frame /\ (fst r <= t)%Z) as Hf.
  { intro r. rewrite filter_In, Z.leb_le. tauto. }
  split; [apply as_of_error|].
  - intros d v E. apply iloc_last_value in E. destruct E as [pre Hpre].
    assert (In (d, v) (filter (fun r => (fst r <=? t)%Z) frame)) as Hx
      by (rewrite Hpre; apply in_or_app; right; left; trivial).
    apply Hf in Hx. destruct Hx as [Hin Hle].
    split; [trivial|]. split; [trivial|].
    intros d' v' Hin' Hle'.
    assert (StronglySorted (fun a b => (fst a <= fst b)%Z)
                           (filter (fun r => (fst r <=? t)%Z) frame)) as Hs
      by (apply StronglySorted_filter, load_metric_sorted).
    rewrite Hpre in Hs.
    apply (sorted_last fst pre (d, v) Hs (d', v')).
    rewrite <- Hpre. apply Hf. auto.
Qed.

(** X15 at five readings out of date order: at day 27 the lookup gives the
    reading of day 25. *)
Lemma as_of_is_last_reading_before_witness :
  In (25%Z, 2) (Onchain.load_metric Samples.no_parse Samples.readings)
  /\ (25 <= 27)%Z
  /\ forall d' v',
    In (d', v') (Onchain.load_metric Samples.no_parse Samples.readings) ->
    (d' <= 27)%Z -> (d' <= 25)%Z.
Proof.
  apply (proj2 (as_of_is_last_reading_before
                  Samples.no_parse Samples.readings 27)).
  reflexivity.
Defined.

Section CycleEvents.
Import Onchain.






End CycleEvents.



(** ** btc_dashboard.py: the fill between the two prices *)

Section SegmentFacts.
Import Build.
Variable R : Type.
Variable is_above : R -> bool.

Lemma firstn_extend (rows : list R) (s k : nat) :
  (s <= k)%nat ->
  firstn s rows ++ iloc rows s k = firstn k rows.
Proof.
  intro Hle. unfold iloc.
  rewrite <- skipn_firstn_comm.
  replace (firstn s rows) with (firstn s (firstn k rows)).
  - apply firstn_skipn.
  - rewrite firstn_firstn. f_equal. lia.
Qed.

(** The rows from [s] to [k] are on one side when their flags are. *)
Lemma iloc_run (rows : list R) (s k : nat) (side : bool) :
  (s < k <= List.length rows)%nat ->
  (forall j, (s <= j < k)%nat -> nth j (map is_above rows) false = side) ->
  is_run is_above (iloc rows s k, side).
Proof.
  intros Hk Hflags. unfold is_run, iloc. simpl. split.
  - intro Hnil.
    assert (List.length (firstn (k - s) (skipn s rows)) = 0%nat) as Hz
      by (rewrite Hnil; reflexivity).
    rewrite length_firstn, length_skipn in Hz. lia.
  - apply Forall_forall. intros x Hx.
    destruct (In_nth _ _ x Hx) as [i [Hi Hnth]].
    rewrite length_firstn, length_skipn in Hi.
    rewrite nth_firstn in Hnth.
    destruct (Nat.ltb_spec i (k - s)) as [Hlt|Hge]; [|lia].
    rewrite nth_skipn in Hnth.
    assert (nth (s + i) (map is_above rows) false = side) as Hflag
      by (apply Hflags; lia).
    rewrite (nth_indep _ false (is_above x)) in Hflag
      by (rewrite length_map; lia).
    rewrite map_nth, Hnth in Hflag. exact Hflag.
Qed.

Lemma alternating_snoc (flags : list bool) (a b : bool) :
  alternating (flags ++ [a]) -> a <> b -> alternating (flags ++ [a; b]).
Proof.
  induction flags as [|x flags IH]; simpl; intros Halt Hab.
  - auto.
  - destruct flags as [|y flags]; simpl in *.
    + destruct Halt as [Hxa _]. auto.
    + destruct Halt as [Hxy Halt]. split; trivial. apply IH; trivial.
Qed.

(** One turn of the loop keeps the invariant. *)
Lemma seg_step_inv (rows : list R) (st : seg_state R) (k : nat) :
  (k < List.length rows)%nat ->
  seg_inv is_above rows st k ->
  seg_inv is_above rows (seg_step is_above rows st k) (S k).
Proof.
  intros Hk [Hstart [Hcat [Hrun [Hsegs Halt]]]].
  unfold seg_step.
  destruct (Bool.eqb (nth k (map is_above rows) false) (cur_above st)) eqn:E.
  - apply eqb_prop in E.
    repeat split; trivial; [lia|].
    intros j Hj. destruct (Nat.eq_dec j k) as [->|Hne]; [trivial|].
    apply Hrun. lia.
  - apply eqb_false_iff in E.
    unfold seg_inv. cbn [segments seg_start cur_above].
    split; [lia|]. split; [|split; [|split]].
    + rewrite map_app, concat_app, Hcat. simpl. rewrite app_nil_r.
      apply firstn_extend. lia.
    + intros j Hj. replace j with k by lia. reflexivity.
    + apply Forall_app. split; trivial.
      constructor; [|constructor].
      apply iloc_run; [lia|]. trivial.
    + rewrite map_app. simpl. rewrite <- app_assoc. simpl.
      apply alternating_snoc; trivial. congruence.
Qed.

Lemma seg_loop_inv (rows : list R) (m k : nat) (st : seg_state R) :
  (k + m <= List.length rows)%nat ->
  seg_inv is_above rows st k ->
  seg_inv is_above rows
          (fold_left (seg_step is_above rows) (seq k m) st) (k + m).
Proof.
  revert k st. induction m as [|m IH]; intros k st Hle Hinv; simpl.
  - rewrite Nat.add_0_r. trivial.
  - replace (k + S m)%nat with (S k + m)%nat by lia.
    apply IH; [lia|]. apply seg_step_inv; [lia|trivial].
Qed.

(** What the loop leaves: the segments, in order, make up the frame; each is
    a run; adjacent segments are on opposite sides. *)
Lemma split_segments_spec (rows : list R) (segs : list (list R * bool)) :
  split_segments is_above rows = Some segs ->
  List.concat (map fst segs) = rows
  /\ Forall (is_run is_above) segs
  /\ alternating (map snd segs).
Proof.
  unfold split_segments.
  destruct (Nat.ltb_spec 1 (List.length rows)) as [Hlen|Hlen];
    [|discriminate].
  intros [= <-].
  set (init := {| segments := []; seg_start := 0;
                  cur_above := nth 0 (map is_above rows) false |}).
  assert (seg_inv is_above rows init 1) as Hinit.
  { unfold seg_inv, init. cbn [segments seg_start cur_above map app].
    split; [lia|]. split; [reflexivity|].
    split; [|split; [constructor|exact I]].
    intros j Hj. replace j with 0%nat by lia. reflexivity. }
  assert (seg_inv is_above rows
                  (fold_left (seg_step is_above rows)
                             (seq 1 (List.length rows - 1)) init)
                  (1 + (List.length rows - 1))) as Hinv
    by (apply seg_loop_inv; [lia|exact Hinit]).
  replace (1 + (List.length rows - 1))%nat with (List.length rows)
    in Hinv by lia.
  set (st := fold_left (seg_step is_above rows)
                       (seq 1 (List.length rows - 1)) init) in *.
  destruct Hinv as [Hstart [Hcat [Hrun [Hsegs Halt]]]].
  split; [|split].
  - rewrite map_app, concat_app, Hcat. simpl. rewrite app_nil_r.
    apply firstn_skipn.
  - apply Forall_app. split; trivial.
    constructor; [|constructor].
    replace (skipn (seg_start st) rows)
      with (iloc rows (seg_start st) (List.length rows)).
    + apply iloc_run; [lia|trivial].
    + unfold iloc. apply firstn_all2. rewrite length_skipn. lia.
  - rewrite map_app. exact Halt.
Qed.

End SegmentFacts.

(** X17.  The segments that [build_dashboard] cuts [price_df] into lose and
    repeat nothing: put end to end, in order, they are the frame.  A frame
    of fewer than two rows is not cut at all. *)
Theorem segments_cover_frame :
  forall (rows : list Build.PriceRow),
    (Build.split_segments Build.above rows = None
     <-> (List.length rows <= 1)%nat)
    /\ forall segs,
      Build.split_segments Build.above rows = Some segs ->
      List.concat (map fst segs) = rows.
Proof.
  intro rows. split.
  - unfold Build.split_segments.
    destruct (Nat.ltb_spec 1 (List.length rows)); split;
      try discriminate; try reflexivity; lia.
  - intros segs Hs. apply split_segments_spec in Hs. tauto.
Qed.

(** X17 at five prices that cross the realized price twice. *)
Lemma segments_cover_frame_witness :
  exists segs,
    Build.split_segments Build.above Samples.prices = Some segs
    /\ List.concat (map fst segs) = Samples.prices.
Proof.
  destruct (Build.split_segments Build.above Samples.prices)
    as [segs|] eqn:E; [|vm_compute in E; discriminate].
  exists segs. split; [reflexivity|].
  exact (proj2 (segments_cover_frame Samples.prices) segs E).
Defined.

(** X18.  Each segment is a maximal run of one side: it has at least one
    row, all its rows have the market price at or above the realized price
    when its flag is true and strictly below when it is false, and
    neighbouring segments have opposite flags. *)
Theorem segments_are_maximal_runs :
  forall (rows : list Build.PriceRow) (segs : list (list Build.PriceRow * bool)),
    Build.split_segments Build.above rows = Some segs ->
    (forall seg side,
        In (seg, side) segs ->
        seg <> []
        /\ forall r, In r seg ->
                     if side
                     then Build.realized_price r <= Build.mkt_price r
                     else Build.mkt_price r < Build.realized_price r)
    /\ Build.alternating (map snd segs).
Proof.
  intros rows segs Hs.
  apply split_segments_spec in Hs. destruct Hs as [_ [Hruns Halt]].
  split; trivial.
  intros seg side Hin.
  rewrite Forall_forall in Hruns. destruct (Hruns _ Hin) as [Hne Hall].
  split; trivial.
  intros r Hr. rewrite Forall_forall in Hall. specialize (Hall r Hr).
  simpl in Hall. unfold Build.above in Hall.
  destruct side.
  - apply Qle_bool_iff. trivial.
  - apply Qnot_le_lt. intro Hle. apply Qle_bool_iff in Hle. congruence.
Qed.

(** X18 at five prices that cross the realized price twice. *)
Lemma segments_are_maximal_runs_witness :
  exists segs,
    Build.split_segments Build.above Samples.prices = Some segs
    /\ Build.alternating (map snd segs).
Proof.
  destruct (Build.split_segments Build.above Samples.prices)
    as [segs|] eqn:E; [|vm_compute in E; discriminate].
  exists segs. split; [reflexivity|].
  exact (proj2 (segments_are_maximal_runs Samples.prices E)).
Defined.

(** X19.  A fill is drawn only over two rows or more, green only where the
    market price is at or above the realized price on every row of it, red
    only where it is strictly below on every row. *)
Theorem fills_match_sides :
  forall (rows seg : list Build.PriceRow) (colour : string),
    In (seg, colour) (Build.fills Build.above rows) ->
    (2 <= List.length seg)%nat
    /\ (colour = "rgba(0,220,100,0.12)"%string
        \/ colour = "rgba(255,80,80,0.12)"%string)
    /\ (colour = "rgba(0,220,100,0.12)"%string ->
        forall r, In r seg -> Build.realized_price r <= Build.mkt_price r)
    /\ (colour = "rgba(255,80,80,0.12)"%string ->
        forall r, In r seg -> Build.mkt_price r < Build.realized_price r).
Proof.
  intros rows seg colour. unfold Build.fills.
  destruct (Build.split_segments Build.above rows) as [segs|] eqn:Hs;
    [|intros []].
  apply split_segments_spec in Hs. destruct Hs as [_ [Hruns _]].
  intro Hin. apply in_map_iff in Hin.
  destruct Hin as [[seg' side] [Heq Hin]].
  apply filter_In in Hin. destruct Hin as [Hin Hlen].
  simpl in Heq, Hlen. injection Heq as -> <-.
  apply negb_true_iff in Hlen. apply Nat.ltb_ge in Hlen.
  rewrite Forall_forall in Hruns. destruct (Hruns _ Hin) as [_ Hall].
  rewrite Forall_forall in Hall. simpl in Hall. unfold Build.above in Hall.
  split; trivial.
  destruct side.
  - split; [auto|]. split; [|discriminate].
    intros _ r Hr. apply Qle_bool_iff. auto.
  - split; [auto|]. split; [discriminate|].
    intros _ r Hr. apply Qnot_le_lt. intro Hle.
    apply Qle_bool_iff in Hle. rewrite (Hall r Hr) in Hle. discriminate.
Qed.

(** X19 at five prices that cross the realized price twice: the first two
    rows get a green fill. *)
Lemma fills_match_sides_witness :
  (2 <= List.length (firstn 2 Samples.prices))%nat.
Proof.
  apply (proj1 (fills_match_sides Samples.prices (firstn 2 Samples.prices)
                  "rgba(0,220,100,0.12)"%string
                  ltac:(vm_compute; left; reflexivity))).
Defined.

(** ** btc_dashboard.py: the colours of the MVRV line *)

(** X20.  The four zone masks of the MVRV line agree with [mvrv_zone]:
    for every value exactly one mask holds, and its colour is the colour
    that [mvrv_zone] gives the value. *)
Theorem zone_masks_match_classifier :
  forall v : Q,
    filter (fun z : string * bool => snd z) (Build.zone_defs v)
    = [(snd (Dashboard.mvrv_zone v), true)].
Proof.
  intro v. unfold Build.zone_defs, Dashboard.mvrv_zone.
  assert (forall a b, Qle_bool a b = negb (Qltb b a)) as Hle.
  { intros a b. unfold Qltb. rewrite negb_involutive. reflexivity. }
  rewrite !Hle.
  destruct (Qltb v 0) eqn:E0;
    destruct (Qltb v (37 # 10)) eqn:E1;
    destruct (Qltb v 7) eqn:E2;
    try reflexivity; exfalso;
    repeat match goal with
           | H : Qltb _ _ = true |- _ => apply Qltb_lt in H
           | H : Qltb _ _ = false |- _ => apply Qltb_ge in H
           end; lra.
Qed.

(** ** btc_dashboard.py: the cache after [fetch_data] *)

Section FetchFacts.
Import Fetch.
Variable D : Type.
Variable net : string -> response D.

Lemma write_same (fs : files D) (name : string) (c : content D) :
  write fs name c name = Some c.
Proof. unfold write. rewrite String.eqb_refl. reflexivity. Qed.

Lemma write_other (fs : files D) (name other : string) (c : content D) :
  other <> name -> write fs name c other = fs other.
Proof.
  intro Hne. unfold write.
  destruct (String.eqb_spec other name); [contradiction|reflexivity].
Qed.

Lemma fetch_endpoint_other (fs : files D) (e : string * string)
      (name : string) :
  snd e <> name -> fetch_endpoint net fs e name = fs name.
Proof.
  intro Hne. unfold fetch_endpoint.
  destruct (net (fst e)) as [|[j|]]; trivial;
    apply write_other; congruence.
Qed.

Lemma fetch_loop_other (eps : list (string * string)) (fs : files D)
      (name : string) :
  (forall e, In e eps -> snd e <> name) ->
  fold_left (fetch_endpoint net) eps fs name = fs name.
Proof.
  revert fs. induction eps as [|e eps IH]; simpl; intros fs Hall; trivial.
  rewrite IH by auto. apply fetch_endpoint_other. auto.
Qed.

(** With distinct file names, what the loop leaves in a file is what the
    turn of its endpoint leaves there. *)
Lemma fetch_loop_one (eps : list (string * string)) (fs : files D)
      (url name : string) :
  NoDup (map snd eps) ->
  In (url, name) eps ->
  fold_left (fetch_endpoint net) eps fs name
  = fetch_endpoint net fs (url, name) name.
Proof.
  revert fs. induction eps as [|e eps IH]; simpl; intros fs Hnd Hin;
    [contradiction|].
  inversion Hnd as [|? ? Hnotin Hnd']; subst.
  destruct Hin as [->|Hin].
  - apply fetch_loop_other. intros e' He' Heq. apply Hnotin.
    simpl. rewrite <- Heq. apply in_map. trivial.
  - rewrite IH by trivial.
    assert (snd e <> name) as Hne.
    { intro Heq. apply Hnotin. rewrite Heq.
      change name with (snd (url, name)). apply in_map. trivial. }
    unfold fetch_endpoint at 1 3. simpl.
    destruct (net url) as [|[j|]].
    + apply fetch_endpoint_other. trivial.
    + rewrite !write_same. reflexivity.
    + rewrite !write_same. reflexivity.
Qed.

Lemma endpoints_distinct : NoDup (map snd endpoints).
Proof.
  unfold endpoints. simpl.
  repeat constructor; simpl; intuition discriminate.
Qed.

End FetchFacts.

(** X21.  [fetch_data] keeps the cache of an endpoint whose request fails:
    its file is left as it was, so [read_json] reads what it read before;
    an endpoint that answers with JSON has that document read back; and
    no file other than the four of the endpoints is touched. *)
Theorem fetch_keeps_cache_on_failure :
  forall (D : Type) (usd : D -> option Q) (net : string -> Fetch.response D)
         (fs : Fetch.files D) (url name : string),
    In (url, name) Fetch.endpoints ->
    (net url = Fetch.Failed ->
     fst (Fetch.fetch_data usd net fs) name = fs name
     /\ Fetch.read_json (fst (Fetch.fetch_data usd net fs)) name
        = Fetch.read_json fs name)
    /\ (forall j,
           net url = Fetch.Body (Some j) ->
           Fetch.read_json (fst (Fetch.fetch_data usd net fs)) name = inr j)
    /\ (forall other,
           (forall e, In e Fetch.endpoints -> snd e <> other) ->
           fst (Fetch.fetch_data usd net fs) other = fs other).
Proof.
  intros D usd net fs url name Hin.
  unfold Fetch.fetch_data, Fetch.read_json. cbn [fst].
  rewrite (fetch_loop_one net Fetch.endpoints fs url name
                          endpoints_distinct Hin).
  unfold Fetch.fetch_endpoint. cbn [fst snd].
  split; [|split].
  - intros ->. auto.
  - intros j ->. rewrite write_same. reflexivity.
  - intros other Hall. apply fetch_loop_other. trivial.
Qed.

(** X21 at a network where the MVRV endpoint is down. *)
Lemma fetch_keeps_cache_on_failure_witness :
  Fetch.read_json
    (fst (Fetch.fetch_data (fun _ => None) Samples.net Samples.cached))
    "mvrv_zscore.json"%string
  = Fetch.read_json Samples.cached "mvrv_zscore.json"%string.
Proof.
  refine (proj2 (proj1 (@fetch_keeps_cache_on_failure
                          nat (fun _ => None) Samples.net Samples.cached
                          "https://bitcoin-data.com/api/v1/mvrv-zscore"%string
                          "mvrv_zscore.json"%string _) _)).
  - left. reflexivity.
  - reflexivity.
Defined.

(** X22.  An endpoint that answers without an error status but with a body
    that is not JSON costs its cache: the file has been opened for writing
    before the body is decoded, so it is left empty whatever it held, and
    [read_json] of it raises [JSONDecodeError]. *)
Theorem fetch_truncates_on_bad_body :
  forall (D : Type) (usd : D -> option Q) (net : string -> Fetch.response D)
         (fs : Fetch.files D) (url name : string),
    In (url, name) Fetch.endpoints ->
    net url = Fetch.Body None ->
    fst (Fetch.fetch_data usd net fs) name = Some Fetch.Empty
    /\ Fetch.read_json (fst (Fetch.fetch_data usd net fs)) name
       = inl Fetch.JSONDecodeError.
Proof.
  intros D usd net fs url name Hin Hbody.
  unfold Fetch.fetch_data, Fetch.read_json. cbn [fst].
  rewrite (fetch_loop_one net Fetch.endpoints fs url name
                          endpoints_distinct Hin).
  unfold Fetch.fetch_endpoint. cbn [fst snd].
  rewrite Hbody, write_same. auto.
Qed.

(** X22 at a network where the realized-price endpoint answers with a page
    that is not JSON, over a directory where the file was cached. *)
Lemma fetch_truncates_on_bad_body_witness :
  Samples.cached "realized_price.json"%string = Some (Fetch.Doc 1%nat)
  /\ Fetch.read_json
       (fst (Fetch.fetch_data (fun _ => None) Samples.net Samples.cached))
       "realized_price.json"%string
     = inl Fetch.JSONDecodeError.
Proof.
  split; [reflexivity|].
  refine (proj2 (@fetch_truncates_on_bad_body
                   nat (fun _ => None) Samples.net Samples.cached
                   "https://bitcoin-data.com/api/v1/realized-price"%string
                   "realized_price.json"%string _ _)).
  - right. left. reflexivity.
  - reflexivity.
Defined.

(** ** btc_dashboard.py: the price of the day *)

Section InjectFacts.
Import LoadData.

Lemma dated_sorted_set (p : Q) (today : Z) (df : list Row) :
  StronglySorted (fun a b => (date a <= date b)%Z) df ->
  StronglySorted (fun a b => (date a <= date b)%Z)
    (map (fun r => if Z.eqb (date r) today then set_mkt_price p r else r) df).
Proof.
  apply StronglySorted_map. intros x y Hxy.
  destruct (date x =? today)%Z, (date y =? today)%Z; simpl; trivial.
Qed.

Lemma inject_sorted (today : Z) (price : option Q) (df : list Row) :
  StronglySorted (fun a b => (date a <= date b)%Z) df ->
  StronglySorted (fun a b => (date a <= date b)%Z) (inject today price df).
Proof.
  intro Hs. unfold inject.
  destruct price as [p|]; trivial.
  destruct (nonzero p); trivial.
  destruct (existsb _ df).
  - apply dated_sorted_set. trivial.
  - apply sort_values_sorted.
Qed.

(** After the injection of a price that is not zero, a row is dated today,
    every row dated today carries the price, and the rows of other dates
    are those of before. *)
Lemma inject_rows (today : Z) (p : Q) (df : list Row) :
  nonzero p = true ->
  (exists r, In r (inject today (Some p) df) /\ date r = today)
  /\ (forall r, In r (inject today (Some p) df) -> date r = today ->
                mkt_price r = Some p)
  /\ (forall r, date r <> today ->
                (In r (inject today (Some p) df) <-> In r df)).
Proof.
  intro Hnz. unfold inject. rewrite Hnz.
  destruct (existsb (fun r => (date r =? today)%Z) df) eqn:Ex.
  - apply existsb_exists in Ex. destruct Ex as [r0 [Hr0 Hd0]].
    split; [|split].
    + exists (set_mkt_price p r0). split; [|apply Z.eqb_eq; exact Hd0].
      apply in_map_iff. exists r0. rewrite Hd0. auto.
    + intros r Hr Hd. apply in_map_iff in Hr. destruct Hr as [x [<- Hx]].
      destruct (date x =? today)%Z eqn:E; [reflexivity|].
      apply Z.eqb_neq in E. contradiction.
    + intros r Hd. rewrite in_map_iff. split.
      * intros [x [<- Hx]].
        destruct (Z.eqb_spec (date x) today) as [He|Hne]; trivial.
        simpl in Hd. contradiction.
      * intro Hr. exists r.
        destruct (Z.eqb_spec (date r) today); [contradiction|auto].
  - assert (forall r, In r df -> date r <> today) as Hnone.
    { intros r Hr Hd.
      assert (existsb (fun r => (date r =? today)%Z) df = true) as Hx
        by (apply existsb_exists; exists r; split; trivial;
            apply Z.eqb_eq; trivial).
      congruence. }
    split; [|split].
    + exists (new_row today p). split; [|reflexivity].
      apply sort_values_In. apply in_or_app. right. left. reflexivity.
    + intros r Hr Hd. apply sort_values_In in Hr.
      apply in_app_or in Hr. destruct Hr as [Hr|[<-|[]]]; [|reflexivity].
      exfalso. exact (Hnone r Hr Hd).
    + intros r Hd. rewrite sort_values_In, in_app_iff. simpl.
      split; [|auto].
      intros [Hr|[<-|[]]]; trivial. simpl in Hd. contradiction.
Qed.

Lemma last_with_error (col : Derived -> option Q) (df : list Derived) :
  last_with col df = inl Onchain.IndexError
  <-> forall r, In r df -> col r = None.
Proof.
  unfold last_with.
  destruct (Onchain.iloc_last (dropna_subset col df)) as [[]|x] eqn:E.
  - apply iloc_last_error in E. split; [|reflexivity]. intros _ r Hr.
    destruct (col r) as [q|] eqn:Ec; trivial. exfalso.
    assert (In r (dropna_subset col df)) as Hx
      by (apply filter_In; rewrite Ec; auto).
    rewrite E in Hx. contradiction.
  - split; [discriminate|]. intro Hall. exfalso.
    apply iloc_last_value in E. destruct E as [pre Hpre].
    assert (In x (dropna_subset col df)) as Hx
      by (rewrite Hpre; apply in_or_app; right; left; trivial).
    apply filter_In in Hx. destruct Hx as [Hx Hc].
    rewrite (Hall x Hx) in Hc. discriminate.
Qed.

(** The five lookups fail exactly when one of the five columns is empty. *)
Lemma latest_rows_error (df : list Derived) :
  latest_rows df = inl Onchain.IndexError
  <-> (forall r, In r df -> mvrv_zscore (base r) = None)
      \/ (forall r, In r df -> mkt_price (base r) = None)
      \/ (forall r, In r df -> realized_price (base r) = None)
      \/ (forall r, In r df -> lth_supply (base r) = None)
      \/ (forall r, In r df -> netflow_30d_ma r = None).
Proof.
  unfold latest_rows.
  destruct (last_with (fun r => mvrv_zscore (base r)) df) as [[]|a] eqn:E1;
    [pose proof (proj1 (last_with_error _ _) E1); tauto|].
  destruct (last_with (fun r => mkt_price (base r)) df) as [[]|b] eqn:E2;
    [pose proof (proj1 (last_with_error _ _) E2); tauto|].
  destruct (last_with (fun r => realized_price (base r)) df) as [[]|c] eqn:E3;
    [pose proof (proj1 (last_with_error _ _) E3); tauto|].
  destruct (last_with (fun r => lth_supply (base r)) df) as [[]|d] eqn:E4;
    [pose proof (proj1 (last_with_error _ _) E4); tauto|].
  destruct (last_with netflow_30d_ma df) as [[]|e] eqn:E5;
    [pose proof (proj1 (last_with_error _ _) E5); tauto|].
  split; [discriminate|].
  intros [Hn|[Hn|[Hn|[Hn|Hn]]]];
    pose proof (proj2 (last_with_error _ _) Hn); congruence.
Qed.

Lemma rolling_base (seen df : list Row) : map base (rolling seen df) = df.
Proof.
  revert seen. induction df as [|r df IH]; intro seen; simpl; [trivial|].
  rewrite IH. reflexivity.
Qed.

Lemma values_some (col : Row -> option Q) (rows : list Row) :
  values col rows <> [] <-> exists r, In r rows /\ col r <> None.
Proof.
  unfold values. induction rows as [|a rows IH]; simpl.
  - split; [congruence|]. intros [r [[] _]].
  - destruct (col a) as [q|] eqn:Ea; simpl.
    + split; [|discriminate]. intros _. exists a. split; [auto|congruence].
    + rewrite IH. split.
      * intros [r [Hr Hc]]. exists r. auto.
      * intros [r [[<-|Hr] Hc]]; [congruence|]. exists r. auto.
Qed.

Lemma mean_some (vs : list Q) : mean vs <> None <-> vs <> [].
Proof. destruct vs; simpl; split; congruence. Qed.

Lemma last30_last (seen : list Row) (r : Row) : In r (last30 (seen ++ [r])).
Proof.
  unfold last30. rewrite skipn_app, length_app. simpl.
  apply in_or_app. right.
  replace (List.length seen + 1 - 30 - List.length seen)%nat with 0%nat by lia.
  simpl. auto.
Qed.

Lemma last30_In (seen : list Row) (r : Row) : In r (last30 seen) -> In r seen.
Proof.
  unfold last30. intro Hr.
  rewrite <- (firstn_skipn (List.length seen - 30) seen).
  apply in_or_app. auto.
Qed.

(** A value of [netflow] gives its row a rolling mean, and a rolling mean
    comes from a value of [netflow]. *)
Lemma rolling_netflow (seen df : list Row) (r : Row) :
  In r df -> netflow r <> None ->
  exists d, In d (rolling seen df) /\ netflow_30d_ma d <> None.
Proof.
  revert seen. induction df as [|a df IH]; simpl; intros seen Hr Hn;
    [contradiction|].
  destruct Hr as [->|Hr].
  - eexists. split; [left; reflexivity|]. simpl.
    apply mean_some, values_some. exists r. split; trivial.
    apply last30_last.
  - destruct (IH (seen ++ [a]) Hr Hn) as [d [Hd Hm]]. exists d. auto.
Qed.

Lemma rolling_from_netflow (seen df : list Row) (d : Derived) :
  In d (rolling seen df) -> netflow_30d_ma d <> None ->
  exists r, In r (seen ++ df) /\ netflow r <> None.
Proof.
  revert seen. induction df as [|a df IH]; simpl; intros seen Hd Hm;
    [contradiction|].
  destruct Hd as [<-|Hd].
  - simpl in Hm. apply mean_some, values_some in Hm.
    destruct Hm as [r [Hr Hn]]. exists r. split; trivial.
    apply last30_In in Hr. apply in_app_or in Hr.
    apply in_or_app. destruct Hr as [Hr|[<-|[]]]; [auto|right; left; trivial].
  - destruct (IH (seen ++ [a]) Hd Hm) as [r [Hr Hn]]. exists r.
    split; trivial. rewrite <- app_assoc in Hr. exact Hr.
Qed.

Lemma derived_netflow (df : list Row) :
  (forall d, In d (derived df) -> netflow_30d_ma d = None)
  <-> (forall r, In r df -> netflow r = None).
Proof.
  unfold derived. split.
  - intros Hall r Hr. destruct (netflow r) as [q|] eqn:En; trivial. exfalso.
    destruct (@rolling_netflow [] df r Hr) as [d [Hd Hm]]; [congruence|].
    apply Hm. auto.
  - intros Hall d Hd.
    destruct (netflow_30d_ma d) as [q|] eqn:Em; trivial. exfalso.
    destruct (@rolling_from_netflow [] df d Hd) as [r [Hr Hn]]; [congruence|].
    apply Hn. auto.
Qed.

Lemma derived_column (col : Row -> option Q) (df : list Row) :
  (forall d, In d (derived df) -> col (base d) = None)
  <-> (forall r, In r df -> col r = None).
Proof.
  unfold derived. split.
  - intros Hall r Hr. rewrite <- (rolling_base [] df) in Hr.
    apply in_map_iff in Hr. destruct Hr as [d [<- Hd]]. auto.
  - intros Hall d Hd. apply Hall. rewrite <- (rolling_base [] df).
    apply in_map. trivial.
Qed.

Lemma derived_sorted (df : list Row) :
  StronglySorted (fun a b => (date a <= date b)%Z) df ->
  StronglySorted (fun a b => (date (base a) <= date (base b))%Z) (derived df).
Proof.
  unfold derived. generalize (@nil Row) as seen.
  induction df as [|r df IH]; intros seen Hs; simpl; constructor.
  - apply IH. inversion Hs; trivial.
  - inversion Hs as [|? ? _ Hall]; subst.
    rewrite Forall_forall in *. intros d Hd. simpl.
    apply Hall. rewrite <- (rolling_base (seen ++ [r]) df).
    apply in_map. trivial.
Qed.

Lemma since_2017_column (col : Row -> option Q) (df : list Row) :
  (forall r, In r (since_2017 df) -> col r = None)
  <-> (forall r, In r df -> (17167 <= date r)%Z -> col r = None).
Proof.
  unfold since_2017. split.
  - intros Hall r Hr H17. apply Hall. apply filter_In.
    split; [|apply Z.leb_le]; trivial.
  - intros Hall r Hr. apply filter_In in Hr. destruct Hr as [Hr H17].
    apply Z.leb_le in H17. auto.
Qed.

Lemma current_mkt_error (frame : list Derived) :
  current_mkt frame = inl Onchain.IndexError
  <-> latest_rows frame = inl Onchain.IndexError.
Proof.
  unfold current_mkt.
  destruct (latest_rows frame) as [[]|l]; split; congruence.
Qed.

Section Columns.
(** A column that the injection does not write. *)
Variable col : Row -> option Q.
Hypothesis col_set : forall p r, col (set_mkt_price p r) = col r.
Hypothesis col_new : forall today p, col (new_row today p) = None.

Lemma inject_column (today : Z) (price : option Q) (df : list Row) :
  (forall r, In r (since_2017 (inject today price df)) -> col r = None)
  <-> (forall r, In r df -> (17167 <= date r)%Z -> col r = None).
Proof.
  unfold since_2017, inject.
  destruct price as [p|]; [destruct (nonzero p);
    [destruct (existsb (fun r => (date r =? today)%Z) df)|]|].
  - split.
    + intros Hall r Hr H17.
      destruct (Z.eqb_spec (date r) today) as [He|Hne].
      * rewrite <- (col_set p r). apply Hall. apply filter_In. split.
        -- apply in_map_iff. exists r.
           destruct (Z.eqb_spec (date r) today); [auto|contradiction].
        -- apply Z.leb_le. simpl. trivial.
      * apply Hall. apply filter_In. split; [|apply Z.leb_le; trivial].
        apply in_map_iff. exists r.
        destruct (Z.eqb_spec (date r) today); [contradiction|auto].
    + intros Hall r Hr. apply filter_In in Hr. destruct Hr as [Hr H17].
      apply Z.leb_le in H17. apply in_map_iff in Hr.
      destruct Hr as [x [<- Hx]].
      destruct (date x =? today)%Z.
      * rewrite col_set. apply Hall; trivial.
      * apply Hall; trivial.
  - split.
    + intros Hall r Hr H17. apply Hall. apply filter_In.
      split; [|apply Z.leb_le; trivial].
      apply sort_values_In. apply in_or_app. auto.
    + intros Hall r Hr. apply filter_In in Hr. destruct Hr as [Hr H17].
      apply Z.leb_le in H17. apply sort_values_In in Hr.
      apply in_app_or in Hr. destruct Hr as [Hr|[<-|[]]]; [auto|].
      apply col_new.
  - split.
    + intros Hall r Hr H17. apply Hall. apply filter_In.
      split; [|apply Z.leb_le]; trivial.
    + intros Hall r Hr. apply filter_In in Hr. destruct Hr as [Hr H17].
      apply Z.leb_le in H17. auto.
  - split.
    + intros Hall r Hr H17. apply Hall. apply filter_In.
      split; [|apply Z.leb_le]; trivial.
    + intros Hall r Hr. apply filter_In in Hr. destruct Hr as [Hr H17].
      apply Z.leb_le in H17. auto.
Qed.
End Columns.

(** With a price injected, the last row that has a market price is dated
    today and carries that price. *)
Lemma last_with_mkt_price (today : Z) (p : Q) (df : list Row) :
  StronglySorted (fun a b => (date a <= date b)%Z) df ->
  nonzero p = true ->
  (17167 <= today)%Z ->
  (forall r, In r df -> (date r <= today)%Z) ->
  exists d,
    last_with (fun r => mkt_price (base r))
              (derived (load_tail today (Some p) df)) = inr d
    /\ mkt_price (base d) = Some p.
Proof.
  intros Hs Hnz H2017 Hmax.
  destruct (@inject_rows today p df Hnz) as [[r0 [Hr0 Hd0]] [Hprice Hother]].
  pose proof (@inject_sorted today (Some p) df Hs) as Hs'.
  unfold last_with, load_tail.
  set (F0 := since_2017 (inject today (Some p) df)).
  set (L := dropna_subset (fun r => mkt_price (base r)) (derived F0)).
  assert (forall d, In d L -> In (base d) (inject today (Some p) df)) as HL.
  { intros d Hd. unfold L, dropna_subset in Hd.
    apply filter_In in Hd. destruct Hd as [Hd _].
    assert (In (base d) F0) as Hb.
    { unfold derived in Hd. rewrite <- (rolling_base [] F0).
      apply in_map. trivial. }
    unfold F0, since_2017 in Hb. apply filter_In in Hb. tauto. }
  assert (exists d0, In d0 L /\ base d0 = r0) as [d0 [Hd0L Hb0]].
  { assert (In r0 F0) as Hin.
    { unfold F0, since_2017. apply filter_In. split; trivial.
      apply Z.leb_le. lia. }
    rewrite <- (rolling_base [] F0) in Hin. apply in_map_iff in Hin.
    destruct Hin as [d0 [Hb0 Hin]]. exists d0. split; trivial.
    unfold L, dropna_subset. apply filter_In. split; trivial.
    rewrite Hb0, (Hprice r0 Hr0 Hd0). reflexivity. }
  assert (StronglySorted
            (fun a b => (date (base a) <= date (base b))%Z) L) as HsL.
  { unfold L, dropna_subset. apply StronglySorted_filter, derived_sorted.
    unfold F0, since_2017. apply StronglySorted_filter. trivial. }
  destruct (Onchain.iloc_last L) as [[]|x] eqn:E.
  - apply iloc_last_error in E. rewrite E in Hd0L. contradiction.
  - exists x. split; trivial.
    apply iloc_last_value in E. destruct E as [pre Hpre].
    assert (In x L) as Hx
      by (rewrite Hpre; apply in_or_app; right; left; trivial).
    rewrite Hpre in HsL, Hd0L.
    pose proof (sorted_last (fun d => date (base d)) pre x HsL d0 Hd0L) as Hle.
    simpl in Hle. rewrite Hb0 in Hle.
    assert (date (base x) <= today)%Z as Hle'.
    { destruct (Z.eq_dec (date (base x)) today) as [->|Hne]; [lia|].
      apply Hmax. apply (Hother (base x) Hne). apply HL. trivial. }
    apply Hprice; [apply HL; trivial|lia].
Qed.

End InjectFacts.

(** X23.  "Inject today's price": when [fetch_data] returned a price that is
    not zero, the frame that [load_data] goes on with has a row dated
    today, every row dated today carries that price as market price, the
    rows of other dates are unchanged, and the frame is still in date
    order; without a price, or with the price 0, the frame is left as it
    is. *)
Theorem inject_sets_todays_price :
  forall (today : Z) (df : list LoadData.Row),
    LoadData.inject today None df = df
    /\ LoadData.inject today (Some 0) df = df
    /\ forall p,
      nonzero p = true ->
      (exists r, In r (LoadData.inject today (Some p) df)
                 /\ LoadData.date r = today)
      /\ (forall r,
             In r (LoadData.inject today (Some p) df) ->
             LoadData.date r = today -> LoadData.mkt_price r = Some p)
      /\ (forall r,
             LoadData.date r <> today ->
             (In r (LoadData.inject today (Some p) df) <-> In r df))
      /\ (StronglySorted (fun a b => (LoadData.date a <= LoadData.date b)%Z) df ->
          StronglySorted (fun a b => (LoadData.date a <= LoadData.date b)%Z)
                         (LoadData.inject today (Some p) df)).
Proof.
  intros today df. split; [reflexivity|]. split; [reflexivity|].
  intros p Hnz.
  destruct (@inject_rows today p df Hnz) as [H1 [H2 H3]].
  split; [trivial|]. split; [trivial|]. split; [trivial|].
  apply inject_sorted.
Qed.

(** X23 at a frame of three days and a price for the last of them. *)
Lemma inject_sets_todays_price_witness :
  exists r,
    In r (LoadData.inject 20002 (Some 95) Samples.frame)
    /\ LoadData.date r = 20002%Z.
Proof.
  refine (proj1 (proj2 (proj2 (inject_sets_todays_price 20002 Samples.frame))
                   95 _)).
  reflexivity.
Defined.

(** X24.  The stat cards of the dashboard, over exact arithmetic.
    [build_dashboard] starts with five unguarded lookups of the last row
    that has a value, one per column; they raise [IndexError] exactly when
    one of [mvrv_zscore], [mkt_price], [realized_price], [lth_supply] and
    [netflow_30d_ma] has no value in the whole frame.  On the frame of
    [load_data], with the merged frame in date order, a fetched price that
    is not zero and today (2017 or later) not before any date of the frame:
    the lookups raise exactly when one of [mvrv_zscore], [realized_price],
    [lth_supply] and [netflow] has no value from 2017 on, and otherwise
    [current_mkt] is the fetched price.  Without a fetched price they raise
    exactly when one of these four or [mkt_price] has no value from 2017
    on. *)
Theorem price_card_shows_fetched_price :
  (forall (frame : list LoadData.Derived),
      LoadData.latest_rows frame = inl Onchain.IndexError
      <-> (forall r, In r frame -> LoadData.mvrv_zscore (LoadData.base r) = None)
          \/ (forall r, In r frame -> LoadData.mkt_price (LoadData.base r) = None)
          \/ (forall r, In r frame ->
                        LoadData.realized_price (LoadData.base r) = None)
          \/ (forall r, In r frame -> LoadData.lth_supply (LoadData.base r) = None)
          \/ (forall r, In r frame -> LoadData.netflow_30d_ma r = None))
  /\
  (forall (today : Z) (df : list LoadData.Row) (p : Q),
      StronglySorted (fun a b => (LoadData.date a <= LoadData.date b)%Z) df ->
      nonzero p = true ->
      (17167 <= today)%Z ->
      (forall r, In r df -> (LoadData.date r <= today)%Z) ->
      (LoadData.current_mkt
         (LoadData.derived (LoadData.load_tail today (Some p) df))
       = inl Onchain.IndexError
       <-> (forall r, In r df -> (17167 <= LoadData.date r)%Z ->
                      LoadData.mvrv_zscore r = None)
           \/ (forall r, In r df -> (17167 <= LoadData.date r)%Z ->
                         LoadData.realized_price r = None)
           \/ (forall r, In r df -> (17167 <= LoadData.date r)%Z ->
                         LoadData.lth_supply r = None)
           \/ (forall r, In r df -> (17167 <= LoadData.date r)%Z ->
                         LoadData.netflow r = None))
      /\ (LoadData.current_mkt
            (LoadData.derived (LoadData.load_tail today (Some p) df))
          = inl Onchain.IndexError
          \/ LoadData.current_mkt
               (LoadData.derived (LoadData.load_tail today (Some p) df))
             = inr (Some p)))
  /\
  (forall (today : Z) (df : list LoadData.Row),
      LoadData.current_mkt (LoadData.derived (LoadData.load_tail today None df))
      = inl Onchain.IndexError
      <-> (forall r, In r df -> (17167 <= LoadData.date r)%Z ->
                     LoadData.mvrv_zscore r = None)
          \/ (forall r, In r df -> (17167 <= LoadData.date r)%Z ->
                        LoadData.mkt_price r = None)
          \/ (forall r, In r df -> (17167 <= LoadData.date r)%Z ->
                        LoadData.realized_price r = None)
          \/ (forall r, In r df -> (17167 <= LoadData.date r)%Z ->
                        LoadData.lth_supply r = None)
          \/ (forall r, In r df -> (17167 <= LoadData.date r)%Z ->
                        LoadData.netflow r = None)).
Proof.
  split; [exact latest_rows_error|].
  split;
    [|intros today df; rewrite current_mkt_error, latest_rows_error;
      unfold LoadData.load_tail; cbn [LoadData.inject];
      rewrite !derived_column, derived_netflow, !since_2017_column;
      reflexivity].
  intros today df p Hs Hnz H2017 Hmax.
  destruct (@last_with_mkt_price today p df Hs Hnz H2017 Hmax)
    as [d [Hd Hp]].
  set (frame := LoadData.derived (LoadData.load_tail today (Some p) df)) in *.
  pose proof (current_mkt_error frame) as Hcur.
  split.
  - rewrite Hcur, latest_rows_error. unfold frame, LoadData.load_tail.
    rewrite !derived_column, derived_netflow.
    rewrite (@inject_column LoadData.mvrv_zscore), (@inject_column LoadData.realized_price),
      (@inject_column LoadData.lth_supply), (@inject_column LoadData.netflow);
      try reflexivity.
    split.
    + intros [H1|[H2|[H3|[H4|H5]]]]; auto.
      exfalso.
      assert (LoadData.last_with (fun r => LoadData.mkt_price (LoadData.base r))
                                 frame = inl Onchain.IndexError) as E.
      { apply last_with_error. unfold frame, LoadData.load_tail.
        apply derived_column. exact H2. }
      congruence.
    + intros [H1|[H3|[H4|H5]]]; auto.
  - unfold LoadData.current_mkt, LoadData.latest_rows. rewrite Hd.
    destruct (LoadData.last_with
                (fun r => LoadData.mvrv_zscore (LoadData.base r)) frame)
      as [[]|a]; [left; reflexivity|].
    destruct (LoadData.last_with
                (fun r => LoadData.realized_price (LoadData.base r)) frame)
      as [[]|c]; [left; reflexivity|].
    destruct (LoadData.last_with
                (fun r => LoadData.lth_supply (LoadData.base r)) frame)
      as [[]|e]; [left; reflexivity|].
    destruct (LoadData.last_with LoadData.netflow_30d_ma frame)
      as [[]|f]; [left; reflexivity|].
    right. cbn [LoadData.latest_mkt]. f_equal. exact Hp.
Qed.

(** X24 at a frame of three days where every column has a value and the
    last day has no market price, and the price 95 fetched on that day. *)
Lemma price_card_shows_fetched_price_witness :
  LoadData.current_mkt
    (LoadData.derived (LoadData.load_tail 20002 (Some 95) Samples.merged))
  = inr (Some 95).
Proof.
  assert (StronglySorted
            (fun a b => (LoadData.date a <= LoadData.date b)%Z)
            Samples.merged) as Hs
    by (repeat constructor; simpl; lia).
  assert (forall r, In r Samples.merged -> (LoadData.date r <= 20002)%Z)
    as Hmax by (intros r [<-|[<-|[<-|[]]]]; simpl; lia).
  assert (17167 <= 20002)%Z as H17 by lia.
  destruct (proj2 (proj1 (proj2 price_card_shows_fetched_price)
                     20002%Z Samples.merged 95 Hs eq_refl H17 Hmax))
    as [E|E].
  - vm_compute in E. discriminate.
  - exact E.
Defined.
